(** * Recurrence rules (RFC 5545 RRULE): a shallow embedding of the library

    The development embeds the TypeScript sources file by file:
    [types.ts], the host calendar library the code calls into, [date.ts],
    [utils.ts], [generator.ts], [rrule.ts], [parse.ts], [sanitize.ts],
    [format.ts] and [parser.ts]; the statements about them follow the
    definitions.  JavaScript numbers that the code uses as integers are
    [Z], written and read as the Number values they are ([String_],
    [parseInteger]); [undefined] is [None]; a thrown [Error] is the [Err]
    branch of a result type; a generator is the finite trace of what it
    yields and how it ends. *)

From Stdlib Require Import ZArith List String Ascii Bool Lia Permutation Sorted.
Import ListNotations.
Local Open Scope Z_scope.

(* ===================================================================== *)
(** * types.ts *)
(* ===================================================================== *)

Inductive Frequency :=
| YEARLY | MONTHLY | WEEKLY | DAILY | HOURLY | MINUTELY | SECONDLY.

Inductive Weekday := MO | TU | WE | TH | FR | SA | SU.

(** [WeekdayValue]: a bare weekday constant, or the record
    [{ weekday, n }]. *)
Inductive WeekdayValue :=
| Bare (w : Weekday)
| Nth (weekday : Weekday) (n : Z).

(** [DateValue] of the host library: the three concrete classes. *)
Inductive DateValue :=
| CalendarDate (year month day : Z)
| CalendarDateTime (year month day hour minute second millisecond : Z)
| ZonedDateTime (year month day hour minute second millisecond : Z)
                (timeZone : string) (offset : Z).

Definition Weekday_eqb (a b : Weekday) : bool :=
  match a, b with
  | MO, MO | TU, TU | WE, WE | TH, TH | FR, FR | SA, SA | SU, SU => true
  | _, _ => false
  end.


(* ===================================================================== *)
(** * The host calendar library *)
(* ===================================================================== *)

(** Modelled from the spec: the calendar arithmetic of the host date
    library ([date.add], [date.subtract], [date.set], [date.compare],
    [calendar.toJulianDay], [calendar.getDaysInMonth]) is not part of the
    repository.  The model is the proleptic Gregorian calendar of spec 4.1
    with constrain semantics for month and year addition.  Time-zone rules
    are a host service: a [ZonedDateTime] keeps the offset it was built
    with. *)
Module Calendar.

Record Duration := mkDuration {
  years : Z; months : Z; weeks : Z; days : Z;
  hours : Z; minutes : Z; seconds : Z; milliseconds : Z }.

Definition zero : Duration := mkDuration 0 0 0 0 0 0 0 0.
Definition ofYears (n : Z) := mkDuration n 0 0 0 0 0 0 0.
Definition ofMonths (n : Z) := mkDuration 0 n 0 0 0 0 0 0.
Definition ofWeeks (n : Z) := mkDuration 0 0 n 0 0 0 0 0.
Definition ofDays (n : Z) := mkDuration 0 0 0 n 0 0 0 0.
Definition ofHours (n : Z) := mkDuration 0 0 0 0 n 0 0 0.
Definition ofMinutes (n : Z) := mkDuration 0 0 0 0 0 n 0 0.
Definition ofSeconds (n : Z) := mkDuration 0 0 0 0 0 0 n 0.

Definition invertDuration (d : Duration) : Duration :=
  mkDuration (- years d) (- months d) (- weeks d) (- days d)
             (- hours d) (- minutes d) (- seconds d) (- milliseconds d).

(** Modelled from the spec: [is_leap(y)] of spec 4.1. *)
Definition isLeapYear (year : Z) : bool :=
  ((Z.rem year 4 =? 0) && negb (Z.rem year 100 =? 0)) || (Z.rem year 400 =? 0).

(** Modelled from the spec: [days_in_month] of spec 4.1, the Gregorian
    table. *)
Definition daysInMonthOf (year month : Z) : Z :=
  nth (Z.to_nat (month - 1))
      (if isLeapYear year
       then [31; 29; 31; 30; 31; 30; 31; 31; 30; 31; 30; 31]
       else [31; 28; 31; 30; 31; 30; 31; 31; 30; 31; 30; 31]) 0.

Definition EPOCH : Z := 1721426.

(** Modelled from the spec: the day number of a proleptic Gregorian date
    ([calendar.toJulianDay]); day 1721426 is 1 January of year 1, a
    Monday. *)
Definition gregorianToJulianDay (year month day : Z) : Z :=
  let y1 := year - 1 in
  let monthOffset :=
    if month <=? 2 then 0 else if isLeapYear year then -1 else -2 in
  EPOCH - 1 + 365 * y1 + y1 / 4 - y1 / 100 + y1 / 400
  + ((367 * month - 362) / 12 + monthOffset + day).

(** Modelled from the spec: the Gregorian date of a day number, the
    inverse of [gregorianToJulianDay]. *)
Definition fromJulianDay (jd : Z) : Z * Z * Z :=
  let depoch := jd - EPOCH in
  let quadricent := depoch / 146097 in
  let dqc := depoch mod 146097 in
  let cent := dqc / 36524 in
  let dcent := dqc mod 36524 in
  let quad := dcent / 1461 in
  let dquad := dcent mod 1461 in
  let yindex := dquad / 365 in
  let year := quadricent * 400 + cent * 100 + quad * 4 + yindex
              + (if negb (cent =? 4) && negb (yindex =? 4) then 1 else 0) in
  let yearDay := jd - gregorianToJulianDay year 1 1 in
  let leapAdj :=
    if jd <? gregorianToJulianDay year 3 1 then 0
    else if isLeapYear year then 1 else 2 in
  let month := ((yearDay + leapAdj) * 12 + 373) / 367 in
  let day := jd - gregorianToJulianDay year month 1 + 1 in
  (year, month, day).

Definition maxYear : Z := 9999.

(** Modelled from the spec: the date part of [add], with the constrain
    semantics of spec 4.1: years, then months (balanced into the year), the
    day constrained to the target month, then weeks and days balanced
    through the day number. *)
Definition addDateFields (y m d : Z) (dur : Duration) (carry : Z) : Z * Z * Z :=
  let y1 := y + years dur in
  let t := y1 * 12 + (m + months dur - 1) in
  let y2 := t / 12 in
  let m2 := t mod 12 + 1 in
  let d2 := Z.max 1 (Z.min (daysInMonthOf y2 m2) d) in
  let d3 := d2 + weeks dur * 7 + days dur + carry in
  let '(y4, m4, d4) := fromJulianDay (gregorianToJulianDay y2 m2 1 + d3 - 1) in
  if y4 <? 1 then (1, 1, 1)
  else if maxYear <? y4 then (maxYear, 12, 31)
  else (y4, m4, d4).

(** Modelled from the spec: the time part of [add]; returns the day carry
    and the balanced fields. *)
Definition addTimeFields (h mi s ms : Z) (dur : Duration) : Z * (Z * Z * Z * Z) :=
  let h1 := h + hours dur in
  let mi1 := mi + minutes dur in
  let s1 := s + seconds dur in
  let ms1 := ms + milliseconds dur in
  let s2 := s1 + ms1 / 1000 in
  let mi2 := mi1 + s2 / 60 in
  let h2 := h1 + mi2 / 60 in
  (h2 / 24, (h2 mod 24, mi2 mod 60, s2 mod 60, ms1 mod 1000)).

(** Modelled from the spec: [add(m, duration)] of spec 4.1, which keeps
    the variant of the moment. *)
Definition add (date : DateValue) (dur : Duration) : DateValue :=
  match date with
  | CalendarDate y m d =>
      let '(y', m', d') := addDateFields y m d dur 0 in
      CalendarDate y' m' d'
  | CalendarDateTime y m d h mi s ms =>
      let '(carry, (h', mi', s', ms')) := addTimeFields h mi s ms dur in
      let '(y', m', d') := addDateFields y m d dur carry in
      CalendarDateTime y' m' d' h' mi' s' ms'
  | ZonedDateTime y m d h mi s ms tz o =>
      let '(carry, (h', mi', s', ms')) := addTimeFields h mi s ms dur in
      let '(y', m', d') := addDateFields y m d dur carry in
      ZonedDateTime y' m' d' h' mi' s' ms' tz o
  end.

(** Modelled from the spec: [subtract(m, duration)] of spec 4.1. *)
Definition subtract (date : DateValue) (dur : Duration) : DateValue :=
  add date (invertDuration dur).

(** Fields given to [date.set]; an absent field is [None]. *)
Record DateTimeFields := mkFields {
  f_year : option Z; f_month : option Z; f_day : option Z;
  f_hour : option Z; f_minute : option Z; f_second : option Z;
  f_millisecond : option Z }.

Definition noFields : DateTimeFields :=
  mkFields None None None None None None None.

Definition orElse (o : option Z) (d : Z) : Z :=
  match o with Some v => v | None => d end.

Definition clamp (lo hi v : Z) : Z := Z.max lo (Z.min hi v).

Definition setDateFields (y m d : Z) (f : DateTimeFields) : Z * Z * Z :=
  let y1 := clamp 1 maxYear (orElse (f_year f) y) in
  let m1 := clamp 1 12 (orElse (f_month f) m) in
  let d1 := clamp 1 (daysInMonthOf y1 m1) (orElse (f_day f) d) in
  (y1, m1, d1).

Definition setTimeFields (h mi s ms : Z) (f : DateTimeFields) : Z * Z * Z * Z :=
  (clamp 0 23 (orElse (f_hour f) h),
   clamp 0 59 (orElse (f_minute f) mi),
   clamp 0 59 (orElse (f_second f) s),
   clamp 0 999 (orElse (f_millisecond f) ms)).

(** Modelled from the spec: field mutation [with(field=value)] of spec 3,
    each field constrained to its range. *)
Definition set (date : DateValue) (f : DateTimeFields) : DateValue :=
  match date with
  | CalendarDate y m d =>
      let '(y', m', d') := setDateFields y m d f in
      CalendarDate y' m' d'
  | CalendarDateTime y m d h mi s ms =>
      let '(y', m', d') := setDateFields y m d f in
      let '(h', mi', s', ms') := setTimeFields h mi s ms f in
      CalendarDateTime y' m' d' h' mi' s' ms'
  | ZonedDateTime y m d h mi s ms tz o =>
      let '(y', m', d') := setDateFields y m d f in
      let '(h', mi', s', ms') := setTimeFields h mi s ms f in
      ZonedDateTime y' m' d' h' mi' s' ms' tz o
  end.

Definition year (date : DateValue) : Z :=
  match date with
  | CalendarDate y _ _ | CalendarDateTime y _ _ _ _ _ _
  | ZonedDateTime y _ _ _ _ _ _ _ _ => y
  end.

Definition month (date : DateValue) : Z :=
  match date with
  | CalendarDate _ m _ | CalendarDateTime _ m _ _ _ _ _
  | ZonedDateTime _ m _ _ _ _ _ _ _ => m
  end.

Definition day (date : DateValue) : Z :=
  match date with
  | CalendarDate _ _ d | CalendarDateTime _ _ d _ _ _ _
  | ZonedDateTime _ _ d _ _ _ _ _ _ => d
  end.

(** The time fields, absent on a [CalendarDate] (['hour' in date]). *)
Definition timeOf (date : DateValue) : option (Z * Z * Z * Z) :=
  match date with
  | CalendarDate _ _ _ => None
  | CalendarDateTime _ _ _ h mi s ms
  | ZonedDateTime _ _ _ h mi s ms _ _ => Some (h, mi, s, ms)
  end.

Definition toJulianDay (date : DateValue) : Z :=
  gregorianToJulianDay (year date) (month date) (day date).

Definition timeToMs (date : DateValue) : Z :=
  match timeOf date with
  | None => 0
  | Some (h, mi, s, ms) => h * 3600000 + mi * 60000 + s * 1000 + ms
  end.

Definition getDaysInMonth (date : DateValue) : Z :=
  daysInMonthOf (year date) (month date).

Definition getMonthsInYear (date : DateValue) : Z := 12.

Definition toCalendarDate (date : DateValue) : DateValue :=
  CalendarDate (year date) (month date) (day date).

Definition toCalendarDateTime (date : DateValue) : DateValue :=
  match date with
  | CalendarDate y m d => CalendarDateTime y m d 0 0 0 0
  | CalendarDateTime y m d h mi s ms
  | ZonedDateTime y m d h mi s ms _ _ => CalendarDateTime y m d h mi s ms
  end.

(** Milliseconds since the Unix epoch of the wall-clock fields. *)
Definition epochFromDate (date : DateValue) : Z :=
  (toJulianDay date - 2440588) * 86400000 + timeToMs date.

(** [date.toDate(tz).getTime()]: the instant; a plain value is read in
    UTC, a zoned one through its own offset. *)
Definition getTime (date : DateValue) : Z :=
  match date with
  | ZonedDateTime _ _ _ _ _ _ _ _ o => epochFromDate date - o
  | _ => epochFromDate date
  end.

Definition compareDate (a b : DateValue) : Z := toJulianDay a - toJulianDay b.

Definition compareTime (a b : DateValue) : Z := timeToMs a - timeToMs b.

(** Modelled from the spec: [compare(a, b)] of spec 4.1 ([a.compare(b)]),
    dispatched on the class of [a]: a [CalendarDate] compares days, a
    [CalendarDateTime] days and then wall-clock time, a [ZonedDateTime]
    instants. *)
Definition compare (a b : DateValue) : Z :=
  match a with
  | CalendarDate _ _ _ => compareDate a b
  | CalendarDateTime _ _ _ _ _ _ _ =>
      let res := compareDate a b in
      if res =? 0 then compareTime a (toCalendarDateTime b) else res
  | ZonedDateTime _ _ _ _ _ _ _ _ o =>
      match b with
      | ZonedDateTime _ _ _ _ _ _ _ _ _ => getTime a - getTime b
      | _ => getTime a - (epochFromDate b - o)
      end
  end.

(** [toZoned(date, 'UTC')] and [toTimeZone(date, 'UTC')]. *)
Definition toUTC (date : DateValue) : DateValue :=
  match date with
  | CalendarDate y m d => ZonedDateTime y m d 0 0 0 0 "UTC" 0
  | CalendarDateTime y m d h mi s ms => ZonedDateTime y m d h mi s ms "UTC" 0
  | ZonedDateTime y m d h mi s ms tz o =>
      add (ZonedDateTime y m d h mi s ms "UTC" 0)
          (mkDuration 0 0 0 0 0 0 0 (- o))
  end.

End Calendar.

(* ===================================================================== *)
(** * date.ts *)
(* ===================================================================== *)

Definition WEEKDAYS : list Weekday := [MO; TU; WE; TH; FR; SA; SU].

Definition getDayOfWeek (date : DateValue) : Z :=
  Z.rem (Calendar.toJulianDay date) 7.

Definition getWeekday (date : DateValue) : Weekday :=
  nth (Z.to_nat (getDayOfWeek date)) WEEKDAYS MO.

Definition getWeekdayIndex (weekday : Weekday) : Z :=
  match weekday with
  | MO => 0 | TU => 1 | WE => 2 | TH => 3 | FR => 4 | SA => 5 | SU => 6
  end.

Definition isLeapYear (date : DateValue) : bool :=
  Calendar.isLeapYear (Calendar.year date).

Definition calculateDifference (start end_ : DateValue) : Z :=
  Calendar.getTime end_ - Calendar.getTime start.

Definition calculateDifferenceInDays (start end_ : DateValue) : Z :=
  calculateDifference start end_ / 86400000.

Definition addDuration (date : DateValue) (d : Calendar.Duration) : DateValue :=
  Calendar.add date d.

Definition subtractDuration (date : DateValue) (d : Calendar.Duration) : DateValue :=
  Calendar.subtract date d.

Definition getStartOfDay (date : DateValue) : DateValue :=
  let date :=
    match date with
    | CalendarDate _ _ _ => Calendar.toCalendarDateTime date
    | _ => date
    end in
  match Calendar.timeOf date with
  | Some (h, mi, s, ms) =>
      Calendar.subtract date (Calendar.mkDuration 0 0 0 0 h mi s ms)
  | None => date
  end.

Definition getEndOfDay (date : DateValue) : DateValue :=
  Calendar.add (getStartOfDay date) (Calendar.mkDuration 0 0 0 0 23 59 59 999).

Definition getStartOfWeek (date : DateValue) (wkst : option Weekday) : DateValue :=
  let wkst := match wkst with Some w => w | None => MO end in
  let currentIndex := getWeekdayIndex (getWeekday date) in
  let wkstIndex := getWeekdayIndex wkst in
  let daysBack := Z.rem (currentIndex - wkstIndex + 7) 7 in
  Calendar.subtract date (Calendar.ofDays daysBack).

Definition getDaysInMonth (date : DateValue) : Z := Calendar.getDaysInMonth date.

Definition getMonthsInYear (date : DateValue) : Z := Calendar.getMonthsInYear date.

Definition getStartOfMonth (date : DateValue) : DateValue :=
  Calendar.subtract (getStartOfDay date) (Calendar.ofDays (Calendar.day date - 1)).

Definition getEndOfMonth (date : DateValue) : DateValue :=
  Calendar.add (getEndOfDay date)
               (Calendar.ofDays (getDaysInMonth date - Calendar.day date)).

Definition getStartOfYear (date : DateValue) : DateValue :=
  Calendar.subtract (getStartOfMonth date)
                    (Calendar.ofMonths (Calendar.month date - 1)).

Definition getEndOfYear (date : DateValue) : DateValue :=
  Calendar.add (getEndOfMonth date)
               (Calendar.ofMonths (getMonthsInYear date - Calendar.month date)).

Definition getWeeksInYear (date : DateValue) (wkst : option Weekday) : Z :=
  let wkst := match wkst with Some w => w | None => MO end in
  let startOfYear := getStartOfYear date in
  let firstWeekday := getDayOfWeek startOfYear in
  let wkstIndex := getWeekdayIndex wkst in
  if firstWeekday =? wkstIndex then 53
  else if isLeapYear startOfYear && (firstWeekday =? Z.rem (wkstIndex - 1 + 7) 7)
       then 53
       else 52.

Definition compareDates (a b : DateValue) : Z :=
  let comparison := Calendar.compare a b in
  if comparison =? 0 then 0 else if 0 <? comparison then 1 else -1.

Definition setFields (date : DateValue) (f : Calendar.DateTimeFields) : DateValue :=
  Calendar.set date f.

(* ===================================================================== *)
(** * utils.ts *)
(* ===================================================================== *)

(** [unique]: [[...new Set(value)]], first occurrences in order. *)
Fixpoint uniqueBy {A} (eqb : A -> A -> bool) (seen : list A) (l : list A) : list A :=
  match l with
  | [] => []
  | x :: r =>
      if existsb (eqb x) seen then uniqueBy eqb seen r
      else x :: uniqueBy eqb (seen ++ [x]) r
  end.

Definition unique (value : list Z) : list Z := uniqueBy Z.eqb [] value.

Definition includes (l : list Z) (x : Z) : bool := existsb (Z.eqb x) l.

Definition includesWeekday (l : list Weekday) (x : Weekday) : bool :=
  existsb (Weekday_eqb x) l.

Definition isNumberInRange (value min max : Z) : bool :=
  (min <=? value) && (value <=? max).

(** The integers of the model are the Number values the code uses as
    integers; an integer from [2^1024] on stands for [Infinity]. *)
Definition isFiniteNumber (value : Z) : bool := Z.abs value <? 2 ^ 1024.

(** [Number.isInteger(value) && value > 0] *)
Definition isPositiveInteger (value : Z) : bool :=
  isFiniteNumber value && (0 <? value).

(** [typeof value === 'string'] on a [WeekdayValue]: the bare constant. *)
Definition isWeekday (value : WeekdayValue) : bool :=
  match value with Bare _ => true | Nth _ _ => false end.

Definition WeekdayValue_same (value v : WeekdayValue) : bool :=
  match value, v with
  | Bare a, Bare b => Weekday_eqb a b
  | Nth a n, Nth b m => Weekday_eqb a b && (n =? m)
  | _, _ => false
  end.

(** [uniqueWeekdayValues]: keep the entries that are the first of their kind. *)
Definition uniqueWeekdayValues (values : list WeekdayValue) : list WeekdayValue :=
  uniqueBy WeekdayValue_same [] values.

(** [Array.prototype.sort] with a comparator: a stable sort. *)
Fixpoint insertSorted {A} (cmp : A -> A -> Z) (x : A) (l : list A) : list A :=
  match l with
  | [] => [x]
  | y :: r => if cmp x y <=? 0 then x :: y :: r else y :: insertSorted cmp x r
  end.

Definition sortWith {A} (cmp : A -> A -> Z) (l : list A) : list A :=
  fold_right (insertSorted cmp) [] l.

(* ===================================================================== *)
(** * Rule options (types.ts) *)
(* ===================================================================== *)

Record ParsedRRuleOptions := mkOptions {
  freq : Frequency;
  dtstart : option DateValue;
  interval : option Z;
  count : option Z;
  until : option DateValue;
  wkst : option Weekday;
  bysetpos : option (list Z);
  bymonth : option (list Z);
  bymonthday : option (list Z);
  byyearday : option (list Z);
  byweekday : option (list WeekdayValue);
  byweekno : option (list Z);
  byhour : option (list Z);
  byminute : option (list Z);
  bysecond : option (list Z) }.

(** A destructuring default [= []]. *)
Definition orEmpty {A} (o : option (list A)) : list A :=
  match o with Some l => l | None => [] end.

Definition nonEmpty {A} (l : list A) : bool :=
  match l with [] => false | _ => true end.

(** A rule with only [freq] and [dtstart]. *)
Definition plainRule (f : Frequency) (start : DateValue) : ParsedRRuleOptions :=
  mkOptions f (Some start) None None None None
            None None None None None None None None None.

(* ===================================================================== *)
(** * generator.ts: expansion of one period *)
(* ===================================================================== *)

Definition advancePeriod (cursor : DateValue) (freq : Frequency) (interval : Z)
  : DateValue :=
  match freq with
  | YEARLY => addDuration cursor (Calendar.ofYears interval)
  | MONTHLY => addDuration cursor (Calendar.ofMonths interval)
  | WEEKLY => addDuration cursor (Calendar.ofWeeks interval)
  | DAILY => addDuration cursor (Calendar.ofDays interval)
  | HOURLY => addDuration cursor (Calendar.ofHours interval)
  | MINUTELY => addDuration cursor (Calendar.ofMinutes interval)
  | SECONDLY => addDuration cursor (Calendar.ofSeconds interval)
  end.

Definition advanceCursorToDate (cursor target : DateValue) (freq : Frequency)
  (interval : Z) : DateValue :=
  match freq with
  | YEARLY =>
      let yearDiff := Calendar.year target - Calendar.year cursor in
      let periodsToSkip := yearDiff / interval in
      if 0 <? periodsToSkip
      then addDuration cursor (Calendar.ofYears (periodsToSkip * interval))
      else cursor
  | MONTHLY =>
      let monthDiff :=
        (Calendar.year target - Calendar.year cursor) * 12
        + (Calendar.month target - Calendar.month cursor) in
      let periodsToSkip := monthDiff / interval in
      if 0 <? periodsToSkip
      then addDuration cursor (Calendar.ofMonths (periodsToSkip * interval))
      else cursor
  | WEEKLY =>
      let dayDiff := calculateDifferenceInDays cursor target in
      let weekDiff := dayDiff / 7 in
      let periodsToSkip := weekDiff / interval in
      if 0 <? periodsToSkip
      then addDuration cursor (Calendar.ofWeeks (periodsToSkip * interval))
      else cursor
  | DAILY =>
      let dayDiff := calculateDifferenceInDays cursor target in
      let periodsToSkip := dayDiff / interval in
      if 0 <? periodsToSkip
      then addDuration cursor (Calendar.ofDays (periodsToSkip * interval))
      else cursor
  | HOURLY | MINUTELY | SECONDLY => cursor
  end.

(** [bymonthday.map((d) => (d > 0 ? d : daysInMonth + d + 1))] *)
Definition normalizeMonthDays (daysInMonth : Z) (bymonthday : list Z) : list Z :=
  map (fun d => if 0 <? d then d else daysInMonth + d + 1) bymonthday.

(** [byweekday.filter((day) => isWeekday(day))], as weekdays. *)
Fixpoint simpleWeekdaysOf (byweekday : list WeekdayValue) : list Weekday :=
  match byweekday with
  | [] => []
  | Bare w :: r => w :: simpleWeekdaysOf r
  | Nth _ _ :: r => simpleWeekdaysOf r
  end.

(** [isWeekday(day) ? day : day.weekday] *)
Definition weekdayOf (day : WeekdayValue) : Weekday :=
  match day with Bare w => w | Nth w _ => w end.

Definition expandDaily (cursor : DateValue) (options : ParsedRRuleOptions)
  : list DateValue :=
  let bymonth := orEmpty (bymonth options) in
  let bymonthday := orEmpty (bymonthday options) in
  let byweekday := orEmpty (byweekday options) in
  if nonEmpty bymonth && negb (includes bymonth (Calendar.month cursor)) then []
  else if nonEmpty bymonthday
          && negb (includes (normalizeMonthDays (getDaysInMonth cursor) bymonthday)
                            (Calendar.day cursor)) then []
  else if nonEmpty byweekday
          && (let simpleWeekdays := simpleWeekdaysOf byweekday in
              nonEmpty simpleWeekdays
              && negb (includesWeekday simpleWeekdays (getWeekday cursor))) then []
  else [cursor].

Definition expandWeekly (cursor : DateValue) (options : ParsedRRuleOptions)
  : list DateValue :=
  let byweekday := orEmpty (byweekday options) in
  let bymonth := orEmpty (bymonth options) in
  let bymonthday := orEmpty (bymonthday options) in
  let startOfWeek := getStartOfWeek cursor (wkst options) in
  let targetWeekdays :=
    if nonEmpty byweekday
    then uniqueBy Weekday_eqb [] (map weekdayOf byweekday)
    else [getWeekday cursor] in
  let results :=
    flat_map
      (fun i =>
         let date := addDuration startOfWeek (Calendar.ofDays i) in
         if includesWeekday targetWeekdays (getWeekday date) then
           if nonEmpty bymonth && negb (includes bymonth (Calendar.month date))
           then []
           else if nonEmpty bymonthday
                   && negb (includes
                              (normalizeMonthDays (getDaysInMonth date) bymonthday)
                              (Calendar.day date))
           then []
           else [date]
         else [])
      [0; 1; 2; 3; 4; 5; 6] in
  sortWith compareDates results.

Definition dayField (day : Z) : Calendar.DateTimeFields :=
  Calendar.mkFields None None (Some day) None None None None.

(** The [Map<Weekday, DateValue[]>] of [expandByWeekdayInMonth], filled
    through [addToMap]: a key is added with an empty array when it is first
    seen, and the date is pushed onto the array of its key. *)
Fixpoint bucketPush (buckets : list (Weekday * list DateValue)) (weekday : Weekday)
  (date : DateValue) : list (Weekday * list DateValue) :=
  match buckets with
  | [] => [(weekday, [date])]
  | (k, dates) :: r =>
      if Weekday_eqb k weekday then (k, dates ++ [date]) :: r
      else (k, dates) :: bucketPush r weekday date
  end.

Fixpoint bucketGet (buckets : list (Weekday * list DateValue)) (weekday : Weekday)
  : option (list DateValue) :=
  match buckets with
  | [] => None
  | (k, dates) :: r => if Weekday_eqb k weekday then Some dates else bucketGet r weekday
  end.

(** The integers [lo, lo+1, ...], [n] of them. *)
Fixpoint countFrom (lo : Z) (n : nat) : list Z :=
  match n with
  | O => []
  | S n' => lo :: countFrom (lo + 1) n'
  end.

Definition expandByWeekdayInMonth (cursor : DateValue) (byweekday : list WeekdayValue)
  : list DateValue :=
  let daysInMonth := getDaysInMonth cursor in
  let buckets :=
    fold_left
      (fun buckets day =>
         let date := setFields cursor (dayField day) in
         bucketPush buckets (getWeekday date) date)
      (countFrom 1 (Z.to_nat daysInMonth)) [] in
  flat_map
    (fun day =>
       match day with
       | Bare w =>
           match bucketGet buckets w with
           | Some dates => dates
           | None => []
           end
       | Nth w n =>
           match bucketGet buckets w with
           | Some dates =>
               if nonEmpty dates then
                 let len := Z.of_nat (List.length dates) in
                 let idx := if 0 <? n then n - 1 else len + n in
                 if (0 <=? idx) && (idx <? len)
                 then match nth_error dates (Z.to_nat idx) with
                      | Some d => [d]
                      | None => []
                      end
                 else []
               else []
           | None => []
           end
       end)
    byweekday.

(** [Set.add] keeping insertion order. *)
Definition setAdd (s : list Z) (x : Z) : list Z :=
  if includes s x then s else s ++ [x].

Definition expandMonthly (cursor : DateValue) (options : ParsedRRuleOptions)
  : list DateValue :=
  let bymonth := orEmpty (bymonth options) in
  let bymonthday := orEmpty (bymonthday options) in
  let byweekday := orEmpty (byweekday options) in
  if nonEmpty bymonth && negb (includes bymonth (Calendar.month cursor)) then []
  else if negb (nonEmpty byweekday) && negb (nonEmpty bymonthday) then [cursor]
  else
    let daysInMonth := getDaysInMonth cursor in
    let byMonthDayHits :=
      fold_left
        (fun hits d =>
           let normalized := if 0 <? d then d else daysInMonth + d + 1 in
           if (1 <=? normalized) && (normalized <=? daysInMonth)
           then setAdd hits normalized else hits)
        bymonthday [] in
    if nonEmpty byMonthDayHits && negb (nonEmpty byweekday) then
      sortWith compareDates
        (map (fun day => setFields cursor (dayField day)) byMonthDayHits)
    else
      let results :=
        if nonEmpty byweekday then
          let byDayHits := expandByWeekdayInMonth cursor byweekday in
          if nonEmpty byMonthDayHits
          then filter (fun date => includes byMonthDayHits (Calendar.day date)) byDayHits
          else byDayHits
        else [] in
      sortWith compareDates results.

Definition isCalendarDate (date : DateValue) : bool :=
  match date with CalendarDate _ _ _ => true | _ => false end.

Definition hasHour (date : DateValue) : bool :=
  match Calendar.timeOf date with Some _ => true | None => false end.

(** Copy the time fields of [cursor] onto [date] when both have them, and
    bring the result back to a [CalendarDate] when the cursor is one. *)
Definition likeCursor (cursor date : DateValue) : DateValue :=
  let date :=
    match Calendar.timeOf cursor with
    | Some (h, mi, s, ms) =>
        if hasHour date
        then setFields date (Calendar.mkFields None None None
                               (Some h) (Some mi) (Some s) (Some ms))
        else date
    | None => date
    end in
  if isCalendarDate cursor && hasHour date then Calendar.toCalendarDate date
  else date.

Definition expandByYearDay (cursor : DateValue) (byyearday : list Z)
  : list DateValue :=
  let startOfYear := getStartOfYear cursor in
  let endOfYear := getEndOfYear cursor in
  let daysInYear := calculateDifferenceInDays startOfYear endOfYear + 1 in
  let results :=
    flat_map
      (fun yearDay =>
         let dayNum := if 0 <? yearDay then yearDay else daysInYear + yearDay + 1 in
         if (dayNum <=? 0) || (daysInYear <? dayNum) then []
         else
           let date := addDuration startOfYear (Calendar.ofDays (dayNum - 1)) in
           let date := likeCursor cursor date in
           if Calendar.year date =? Calendar.year cursor then [date] else [])
      byyearday in
  sortWith compareDates results.

Definition expandOrdinalByDayInYear (cursor : DateValue)
  (byweekday : list WeekdayValue) : list DateValue :=
  flat_map
    (fun day =>
       match day with
       | Bare _ => []
       | Nth weekday n =>
           let weekdayNum := getWeekdayIndex weekday in
           let date :=
             if 0 <? n then
               let startOfYear := getStartOfYear cursor in
               let firstWeekdayIndex := getWeekdayIndex (getWeekday startOfYear) in
               let delta := Z.rem (weekdayNum - firstWeekdayIndex + 7) 7 in
               addDuration startOfYear (Calendar.ofDays (delta + 7 * (n - 1)))
             else
               let endOfYear := getEndOfYear cursor in
               let lastWeekdayIndex := getWeekdayIndex (getWeekday endOfYear) in
               let delta := Z.rem (lastWeekdayIndex - weekdayNum + 7) 7 in
               subtractDuration endOfYear (Calendar.ofDays (delta + 7 * (- n - 1))) in
           let date := likeCursor cursor date in
           if Calendar.year date =? Calendar.year cursor then [date] else []
       end)
    byweekday.

Definition expandByWeekNo (cursor : DateValue) (byweekno : list Z)
  (byweekday : list WeekdayValue) (wkst : option Weekday) : list DateValue :=
  let weeksInYear := getWeeksInYear cursor wkst in
  let targetWeekdays :=
    if nonEmpty byweekday then map weekdayOf byweekday
    else [MO; TU; WE; TH; FR; SA; SU] in
  flat_map
    (fun weekNo =>
       let normalizedWeekNo := if 0 <? weekNo then weekNo else weeksInYear + weekNo + 1 in
       if (normalizedWeekNo <=? 0) || (weeksInYear <? normalizedWeekNo) then []
       else
         let startOfYear := getStartOfYear cursor in
         let jan4 := setFields startOfYear
                       (Calendar.mkFields None (Some 1) (Some 4) None None None None) in
         let week1Monday := getStartOfWeek jan4 wkst in
         let weekStartDate :=
           addDuration week1Monday (Calendar.ofWeeks (normalizedWeekNo - 1)) in
         flat_map
           (fun i =>
              let date := addDuration weekStartDate (Calendar.ofDays i) in
              if includesWeekday targetWeekdays (getWeekday date)
                 && (Calendar.year date =? Calendar.year cursor)
              then [likeCursor cursor date] else [])
           [0; 1; 2; 3; 4; 5; 6])
    byweekno.

Definition expandYearly (cursor : DateValue) (options : ParsedRRuleOptions)
  : list DateValue :=
  let bymonth := orEmpty (bymonth options) in
  let bymonthday := orEmpty (bymonthday options) in
  let byweekday := orEmpty (byweekday options) in
  let byyearday := orEmpty (byyearday options) in
  let byweekno := orEmpty (byweekno options) in
  let hasOrdinalByDay := existsb (fun day => negb (isWeekday day)) byweekday in
  if hasOrdinalByDay && negb (nonEmpty bymonth) then
    sortWith compareDates (expandOrdinalByDayInYear cursor byweekday)
  else
    let results1 :=
      if nonEmpty byyearday then
        let yearDayResults := expandByYearDay cursor byyearday in
        if nonEmpty bymonth
        then filter (fun date => includes bymonth (Calendar.month date)) yearDayResults
        else yearDayResults
      else [] in
    let results2 :=
      if nonEmpty byweekno
      then results1 ++ expandByWeekNo cursor byweekno byweekday (wkst options)
      else results1 in
    let results3 :=
      if negb (nonEmpty byyearday) && negb (nonEmpty byweekno) then
        let targetMonths :=
          if nonEmpty bymonth then bymonth
          else if nonEmpty bymonthday || nonEmpty byweekday
               then [1; 2; 3; 4; 5; 6; 7; 8; 9; 10; 11; 12]
               else [Calendar.month cursor] in
        results2 ++
        flat_map
          (fun month =>
             if nonEmpty byweekday || nonEmpty bymonthday then
               let monthCursor :=
                 setFields cursor
                   (Calendar.mkFields None (Some month) (Some 1) None None None None) in
               expandMonthly monthCursor options
             else
               [setFields cursor
                  (Calendar.mkFields None (Some month) None None None None None)])
          targetMonths
      else results2 in
    sortWith compareDates results3.

Definition expandHourly (cursor : DateValue) (options : ParsedRRuleOptions)
  : list DateValue :=
  let bymonth := orEmpty (bymonth options) in
  let bymonthday := orEmpty (bymonthday options) in
  let byweekday := orEmpty (byweekday options) in
  if nonEmpty bymonth && negb (includes bymonth (Calendar.month cursor)) then []
  else if nonEmpty bymonthday
          && negb (includes (normalizeMonthDays (getDaysInMonth cursor) bymonthday)
                            (Calendar.day cursor)) then []
  else if nonEmpty byweekday
          && (let simpleWeekdays := simpleWeekdaysOf byweekday in
              nonEmpty simpleWeekdays
              && negb (includesWeekday simpleWeekdays (getWeekday cursor))) then []
  else [cursor].

Definition expandMinutely := expandHourly.
Definition expandSecondly := expandHourly.

Definition getFrequencyExpander (freq : Frequency)
  : DateValue -> ParsedRRuleOptions -> list DateValue :=
  match freq with
  | YEARLY => expandYearly
  | MONTHLY => expandMonthly
  | WEEKLY => expandWeekly
  | DAILY => expandDaily
  | HOURLY => expandHourly
  | MINUTELY => expandMinutely
  | SECONDLY => expandSecondly
  end.

Definition getPeriodStart (date : DateValue) (freq : Frequency) : DateValue := date.

Definition expandByTime (date : DateValue) (options : ParsedRRuleOptions)
  : list DateValue :=
  let byhour := orEmpty (byhour options) in
  let byminute := orEmpty (byminute options) in
  let bysecond := orEmpty (bysecond options) in
  if negb (nonEmpty byhour) && negb (nonEmpty byminute) && negb (nonEmpty bysecond)
  then [date]
  else
    match Calendar.timeOf date with
    | None => [date]
    | Some (h, mi, s, _) =>
        let hours := if nonEmpty byhour then byhour else [h] in
        let minutes := if nonEmpty byminute then byminute else [mi] in
        let seconds := if nonEmpty bysecond then bysecond else [s] in
        flat_map
          (fun hour =>
             flat_map
               (fun minute =>
                  map (fun second =>
                         setFields date
                           (Calendar.mkFields None None None
                              (Some hour) (Some minute) (Some second) None))
                      seconds)
               minutes)
          hours
    end.

(** [applyBySetPos]: the positions of [bysetpos] taken from the sorted
    candidates, pushed in the order of [bysetpos], then sorted. *)
Definition applyBySetPos (dates : list DateValue) (bysetpos : option (list Z))
  : list DateValue :=
  let bysetpos := orEmpty bysetpos in
  if negb (nonEmpty bysetpos) then dates
  else
    let sorted := sortWith compareDates dates in
    let len := Z.of_nat (List.length sorted) in
    let results :=
      flat_map
        (fun position =>
           let index := if 0 <? position then position - 1 else len + position in
           if (0 <=? index) && (index <? len)
           then match nth_error sorted (Z.to_nat index) with
                | Some d => [d]
                | None => []
                end
           else [])
        bysetpos in
    sortWith compareDates results.

(* ===================================================================== *)
(** * Errors and results *)
(* ===================================================================== *)

(** The [Error]s the library throws, by message. *)
Inductive Error :=
| DtstartRequired            (* DTSTART is required for generating occurrences *)
| MaxIterationsExceeded (maxIterations : Z)
                             (* Max iterations (n) exceeded. ... *)
| CountUntilExclusive        (* COUNT and UNTIL are mutually exclusive *)
| UntilBeforeDtstart         (* UNTIL must be greater than or equal to DTSTART *)
| BySetPosAlone              (* BYSETPOS must be used with another BYxxx rule *)
| MaxIterationsTooSmall      (* maxIterations must be greater than 0 *)
| UntilNotBeforeDtstart      (* UNTIL must not be before DTSTART *)
| InvalidText (what : string) (* the parse errors, by the key they name *)
| OutOfFuel.                 (* artefact of the model, never produced: see
                                [generateDates_finishes] *)

Inductive Result (A : Type) :=
| Ok (a : A)
| Err (e : Error).
Arguments Ok {A} a.
Arguments Err {A} e.

Definition bind {A B} (r : Result A) (k : A -> Result B) : Result B :=
  match r with Ok a => k a | Err e => Err e end.

Notation "x <- r ;; k" := (bind r (fun x => k))
  (at level 61, r at next level, right associativity).

(* ===================================================================== *)
(** * generator.ts: the generator *)
(* ===================================================================== *)

(** How a generator ends once it is pulled to the end. *)
Inductive Outcome :=
| Returned
| Threw (e : Error)
| Running.

(** What a generator does when its consumer keeps pulling: the values it
    yields, in order, and how it ends.  A consumer that stops early sees a
    prefix of [yields] and never the outcome.  [advances] counts how many
    times the loop has run [cursor = advancePeriod(cursor, freq, interval)]
    by the time the generator ends. *)
Record Trace := mkTrace {
  yields : list DateValue;
  outcome : Outcome;
  advances : Z }.

Definition isSome {A} (o : option A) : bool :=
  match o with Some _ => true | None => false end.

(** The [for (const date of filtered)] loop of one period.  Returns the
    dates yielded, the new [emitted], [yieldedThisPeriod], and whether the
    generator returned inside the loop. *)
Fixpoint emitPeriod (dtstart : DateValue) (until : option DateValue)
  (count : option Z) (filtered : list DateValue) (emitted : Z)
  (yieldedThisPeriod : bool) : list DateValue * Z * bool * bool :=
  match filtered with
  | [] => ([], emitted, yieldedThisPeriod, false)
  | date :: rest =>
      if compareDates date dtstart <? 0
      then emitPeriod dtstart until count rest emitted yieldedThisPeriod
      else if match until with
              | Some u => 0 <? compareDates date u
              | None => false
              end
      then ([], emitted, yieldedThisPeriod, true)
      else
        let emitted := emitted + 1 in
        if match count with Some c => c <=? emitted | None => false end
        then ([date], emitted, true, true)
        else
          let '(ys, e, y, r) := emitPeriod dtstart until count rest emitted true in
          (date :: ys, e, y, r)
  end.

(** The [while (true)] loop.  [fuel] bounds the number of periods the model
    unfolds; [generateDates] gives enough of it. *)
Fixpoint generateLoop (fuel : nat) (options : ParsedRRuleOptions)
  (maxIterations : Z) (dtstart : DateValue) (interval : Z)
  (cursor : DateValue) (emitted iterations consecutiveEmptyPeriods : Z) : Trace :=
  match fuel with
  | O => mkTrace [] Running iterations
  | S fuel' =>
      if maxIterations <? iterations
      then mkTrace [] (Threw (MaxIterationsExceeded maxIterations)) iterations
      else
        let advanced := iterations in
        let iterations := iterations + 1 in
        let candidates := getFrequencyExpander (freq options) cursor options in
        let expanded := flat_map (fun date => expandByTime date options) candidates in
        let filtered := applyBySetPos expanded (bysetpos options) in
        let '(ys, emitted, yieldedThisPeriod, returned) :=
          emitPeriod dtstart (until options) (count options) filtered emitted false in
        if returned then mkTrace ys Returned advanced
        else
          let consecutiveEmptyPeriods :=
            if yieldedThisPeriod then 0 else consecutiveEmptyPeriods + 1 in
          if negb yieldedThisPeriod && (1000 <=? consecutiveEmptyPeriods)
             && (emitted =? 0)
          then mkTrace ys Returned advanced
          else
            let t := generateLoop fuel' options maxIterations dtstart interval
                       (advancePeriod cursor (freq options) interval)
                       emitted iterations consecutiveEmptyPeriods in
            mkTrace (ys ++ yields t) (outcome t) (advances t)
  end.

Definition defaultMaxIterations : Z := 10000.

Definition generateDates (options : ParsedRRuleOptions)
  (maxIterations : option Z) (after : option DateValue) : Trace :=
  let maxIterations :=
    match maxIterations with Some m => m | None => defaultMaxIterations end in
  match dtstart options with
  | None => mkTrace [] (Threw DtstartRequired) 0
  | Some dtstart =>
      let interval := match interval options with Some i => i | None => 1 end in
      if interval =? 0 then mkTrace [] Returned 0
      else if match until options with
              | Some u => compareDates u dtstart <? 0
              | None => false
              end
      then mkTrace [] Returned 0
      else
        let cursor := getPeriodStart dtstart (freq options) in
        let cursor :=
          match after with
          | Some a =>
              if 0 <? compareDates a dtstart
              then advanceCursorToDate cursor a (freq options) interval
              else cursor
          | None => cursor
          end in
        generateLoop (S (S (Z.to_nat maxIterations))) options maxIterations
                     dtstart interval cursor 0 0 0
  end.

(* ===================================================================== *)
(** * rrule.ts: the query surface *)
(* ===================================================================== *)

Record RRule := mkRRule {
  _options : ParsedRRuleOptions;
  _maxIterations : option Z }.

(** What a consumer loop gets when the generator has nothing more to
    yield: the end of the loop, or the error the generator raised. *)
Definition atEnd {A} (o : Outcome) (done : A) : Result A :=
  match o with
  | Returned => Ok done
  | Threw e => Err e
  | Running => Err OutOfFuel
  end.

(** [limit && n >= limit] *)
Definition reached (limit : option Z) (n : Z) : bool :=
  match limit with
  | Some l => negb (l =? 0) && (l <=? n)
  | None => false
  end.

Fixpoint allLoop (limit : option Z) (out : Outcome) (ys : list DateValue)
  (count : Z) : Result (list DateValue) :=
  match ys with
  | [] => atEnd out []
  | date :: rest =>
      if reached limit (count + 1) then Ok [date]
      else r <- allLoop limit out rest (count + 1) ;; Ok (date :: r)
  end.

Definition all (r : RRule) (limit : option Z) : Result (list DateValue) :=
  let t := generateDates (_options r) (_maxIterations r) None in
  allLoop limit (outcome t) (yields t) 0.

(** The loop of [after] over a generator: skip what is before [date] (or
    equal to it unless [inclusive]), collect up to [limit]. *)
Fixpoint afterLoop (date : DateValue) (inclusive : bool) (limit : option Z)
  (out : Outcome) (ys : list DateValue) (len : Z) : Result (list DateValue) :=
  match ys with
  | [] => atEnd out []
  | current :: rest =>
      let cmp := Calendar.compare current date in
      if cmp <? 0 then afterLoop date inclusive limit out rest len
      else if (cmp =? 0) && negb inclusive
      then afterLoop date inclusive limit out rest len
      else if reached limit (len + 1) then Ok [current]
      else r <- afterLoop date inclusive limit out rest (len + 1) ;; Ok (current :: r)
  end.

Definition after (r : RRule) (date : DateValue) (inclusive : bool)
  (limit : option Z) : Result (list DateValue) :=
  let t := generateDates (_options r) (_maxIterations r) (Some date) in
  afterLoop date inclusive limit (outcome t) (yields t) 0.

Fixpoint nextLoop (date : DateValue) (inclusive : bool) (out : Outcome)
  (ys : list DateValue) : Result (option DateValue) :=
  match ys with
  | [] => atEnd out None
  | current :: rest =>
      let cmp := Calendar.compare current date in
      if cmp <? 0 then nextLoop date inclusive out rest
      else if (cmp =? 0) && negb inclusive then nextLoop date inclusive out rest
      else Ok (Some current)
  end.

Definition next (r : RRule) (date : DateValue) (inclusive : bool)
  : Result (option DateValue) :=
  let t := generateDates (_options r) (_maxIterations r) None in
  nextLoop date inclusive (outcome t) (yields t).

(** The setter of [maxIterations]. *)
Definition set_maxIterations (r : RRule) (value : option Z) : Result RRule :=
  match value with
  | Some v => if v <? 1 then Err MaxIterationsTooSmall
              else Ok (mkRRule (_options r) value)
  | None => Ok (mkRRule (_options r) value)
  end.

Definition withDtstart (o : ParsedRRuleOptions) (value : option DateValue)
  : ParsedRRuleOptions :=
  mkOptions (freq o) value (interval o) (count o) (until o) (wkst o)
            (bysetpos o) (bymonth o) (bymonthday o) (byyearday o)
            (byweekday o) (byweekno o) (byhour o) (byminute o) (bysecond o).

(** The setter of [dtstart]: a plain assignment. *)
Definition set_dtstart (r : RRule) (value : option DateValue) : RRule :=
  mkRRule (withDtstart (_options r) value) (_maxIterations r).

(* ===================================================================== *)
(** * Text *)
(* ===================================================================== *)

(** JavaScript strings, as lists of characters. *)
Definition text := list ascii.

Definition str (s : string) : text := list_ascii_of_string s.

Definition text_eqb (a b : text) : bool :=
  String.eqb (string_of_list_ascii a) (string_of_list_ascii b).

Definition isWhite (c : ascii) : bool :=
  let n := nat_of_ascii c in
  (Nat.eqb n 32 || (Nat.leb 9 n && Nat.leb n 13) || Nat.eqb n 160)%bool.

Definition isDigit (c : ascii) : bool :=
  let n := nat_of_ascii c in (Nat.leb 48 n && Nat.leb n 57)%bool.

Definition isUpper (c : ascii) : bool :=
  let n := nat_of_ascii c in (Nat.leb 65 n && Nat.leb n 90)%bool.

Definition toUpper (c : ascii) : ascii :=
  let n := nat_of_ascii c in
  if (Nat.leb 97 n && Nat.leb n 122)%bool then ascii_of_nat (n - 32) else c.

Definition toUpperCase (s : text) : text := map toUpper s.

Fixpoint trimStart (s : text) : text :=
  match s with
  | [] => []
  | c :: r => if isWhite c then trimStart r else s
  end.

Definition trimEnd (s : text) : text := rev (trimStart (rev s)).

Definition trim (s : text) : text := trimEnd (trimStart s).

(** [value.split(separator)] for a one-character separator. *)
Fixpoint split (sep : ascii) (s : text) : list text :=
  match s with
  | [] => [[]]
  | c :: r =>
      if Ascii.eqb c sep then [] :: split sep r
      else match split sep r with
           | p :: ps => (c :: p) :: ps
           | [] => [[c]]
           end
  end.

Fixpoint join (sep : ascii) (parts : list text) : text :=
  match parts with
  | [] => []
  | [p] => p
  | p :: ps => p ++ sep :: join sep ps
  end.

Fixpoint takeWhile {A} (f : A -> bool) (l : list A) : list A :=
  match l with
  | [] => []
  | x :: r => if f x then x :: takeWhile f r else []
  end.

Fixpoint dropWhile {A} (f : A -> bool) (l : list A) : list A :=
  match l with
  | [] => []
  | x :: r => if f x then dropWhile f r else l
  end.

Definition digitValue (c : ascii) : Z := Z.of_nat (nat_of_ascii c) - 48.

Definition digitsValue (ds : text) : Z :=
  fold_left (fun acc c => acc * 10 + digitValue c) ds 0.

Definition digitChar (d : Z) : ascii := ascii_of_nat (Z.to_nat (d + 48)).

(** The decimal digits of a non-negative integer, most significant first. *)
Fixpoint digitsOf (fuel : nat) (n : Z) : text :=
  match fuel with
  | O => [digitChar (n mod 10)]
  | S f =>
      if n <? 10 then [digitChar n]
      else digitsOf f (n / 10) ++ [digitChar (n mod 10)]
  end.

(** The decimal digits of a non-negative integer. *)
Definition decimalDigits (n : Z) : text := digitsOf (Z.to_nat (Z.log2 n)) n.

(** The decimal digits of an integer, after its sign. *)
Definition decimal (n : Z) : text :=
  if n <? 0 then "-"%char :: decimalDigits (- n) else decimalDigits n.

(** [Number.isSafeInteger]: below 2^53 in absolute value, where every
    integer is a Number value. *)
Definition isSafeInteger (n : Z) : bool := Z.abs n <? 2 ^ 53.

(** The Number value nearest to a non-negative integer: its 53 leading
    bits, rounded to nearest, ties to even. *)
Definition nearestNumber (v : Z) : Z :=
  let bits := Z.log2 v + 1 in
  if bits <=? 53 then v
  else
    let shift := bits - 53 in
    let q := Z.shiftr v shift in
    let r := v - Z.shiftl q shift in
    let half := Z.shiftl 1 (shift - 1) in
    let q' := if r <? half then q
              else if half <? r then q + 1
              else if Z.even q then q else q + 1 in
    Z.shiftl q' shift.

(** The digits [s] and the exponent [n] that [Number::toString] takes for
    the Number value [x] of [n] decimal digits, when [k] digits are enough:
    [s * 10^(n-k)] is read back as [x]; of two such [s] the nearer to [x],
    and of two equally near the even one. *)
Definition digitsAt (x n k : Z) : option (Z * Z) :=
  let p := 10 ^ (n - k) in
  let lo := x / p in
  let hi := lo + 1 in
  let okLo := nearestNumber (lo * p) =? x in
  let okHi := nearestNumber (hi * p) =? x in
  let pick (s : Z) := if s =? 10 ^ k then (10 ^ (k - 1), n + 1) else (s, n) in
  if okLo && okHi then
    if x - lo * p <? hi * p - x then Some (pick lo)
    else if hi * p - x <? x - lo * p then Some (pick hi)
    else Some (pick (if Z.even lo then lo else hi))
  else if okLo then Some (pick lo)
  else if okHi then Some (pick hi)
  else None.

(** The least number of digits from [k] on that is enough, [fuel] of them
    tried; all the digits of [x] when none is. *)
Fixpoint shortestDigits (fuel : nat) (x n k : Z) : Z * Z :=
  match fuel with
  | O => (x, n)
  | S fuel' =>
      match digitsAt x n k with
      | Some found => found
      | None => shortestDigits fuel' x n (k + 1)
      end
  end.

(** [Number::toString] for a Number value [x] of 2^53 or more: the fewest
    digits that are read back as [x], filled up with zeros up to 21
    digits, and in exponent form from there on. *)
Definition numberText (x : Z) : text :=
  let n := Z.of_nat (List.length (decimalDigits x)) in
  let '(s, n) := shortestDigits (Z.to_nat (Z.min 17 n)) x n 1 in
  let digits := decimalDigits s in
  let k := Z.of_nat (List.length digits) in
  if n <=? 21 then digits ++ repeat "0"%char (Z.to_nat (n - k))
  else
    match digits with
    | [] => []
    | [d] => d :: "e"%char :: "+"%char :: decimalDigits (n - 1)
    | d :: rest =>
        d :: "."%char :: rest ++ "e"%char :: "+"%char :: decimalDigits (n - 1)
    end.

(** [String(n)] for an integer: all its digits for a safe integer, and
    the text of the nearest Number value beyond ([String(2 ** 64)] is
    [18446744073709552000], [String(1e21)] is [1e+21], and what rounds to
    [2^1024] is [Infinity]). *)
Definition String_ (n : Z) : text :=
  if isSafeInteger n then decimal n
  else
    (if n <? 0 then ["-"%char] else [])
    ++ (let x := nearestNumber (Z.abs n) in
        if isFiniteNumber x then numberText x else str "Infinity").

(** [n] is a Number value: the nearest Number value is [n] itself. *)
Definition isNumber (n : Z) : bool := nearestNumber (Z.abs n) =? Z.abs n.

(** A number that [String] writes with all its digits: a Number value
    below [10^21] in absolute value.  Every safe integer is one. *)
Definition writtenInFull (n : Z) : bool := isNumber n && (Z.abs n <? 10 ^ 21).

(** [String(value).padStart(length, '0')] *)
Definition padZero (value : Z) (length : nat) : text :=
  let s := String_ value in
  repeat "0"%char (length - List.length s) ++ s.

(* ===================================================================== *)
(** * parse.ts *)
(* ===================================================================== *)

(** [Number.parseInt(value, 10)]: the Number value nearest to the integer
    the digits write ([Infinity] from [2^1024] on); [None] is [NaN]. *)
Definition parseInteger (value : text) : option Z :=
  let s := trimStart value in
  let '(neg, s) :=
    match s with
    | "-"%char :: r => (true, r)
    | "+"%char :: r => (false, r)
    | _ => (false, s)
    end in
  match takeWhile isDigit s with
  | [] => None
  | ds =>
      let number := nearestNumber (digitsValue ds) in
      Some (if neg then - number else number)
  end.

Definition parsePositiveInteger (value : text) : Result Z :=
  match parseInteger value with
  | Some number =>
      if isPositiveInteger number then Ok number
      else Err (InvalidText "positive integer")
  | None => Err (InvalidText "positive integer")
  end.

Definition parseList (value : text) (separator : ascii) : list text :=
  match trim value with
  | [] => []
  | _ => filter (fun item => nonEmpty item) (map trim (split separator value))
  end.

Definition parseIntegerList (value : text) (separator : ascii) : list Z :=
  flat_map (fun number => match parseInteger number with
                          | Some n => [n]
                          | None => []
                          end)
           (parseList value separator).

Definition weekdayText (w : Weekday) : text :=
  match w with
  | MO => str "MO" | TU => str "TU" | WE => str "WE" | TH => str "TH"
  | FR => str "FR" | SA => str "SA" | SU => str "SU"
  end.

(** [isWeekday(value)] on a string: the weekday it names, if any. *)
Definition asWeekday (value : text) : option Weekday :=
  find (fun w => text_eqb (weekdayText w) value) WEEKDAYS.

Definition frequencyText (f : Frequency) : text :=
  match f with
  | YEARLY => str "YEARLY" | MONTHLY => str "MONTHLY" | WEEKLY => str "WEEKLY"
  | DAILY => str "DAILY" | HOURLY => str "HOURLY" | MINUTELY => str "MINUTELY"
  | SECONDLY => str "SECONDLY"
  end.

Definition asFrequency (value : text) : option Frequency :=
  find (fun f => text_eqb (frequencyText f) value)
       [YEARLY; MONTHLY; WEEKLY; DAILY; HOURLY; MINUTELY; SECONDLY].

Definition parseFrequency (value : text) : Result Frequency :=
  let value := toUpperCase (trim value) in
  match asFrequency value with
  | Some f => Ok f
  | None => Err (InvalidText "frequency")
  end.

Definition parseWeekday (value : text) : Result Weekday :=
  let value := toUpperCase (trim value) in
  match asWeekday value with
  | Some w => Ok w
  | None => Err (InvalidText "weekday")
  end.

(** The match of [/^([+-]?\d{1,2})?([A-Z]{2})$/]: the optional first group
    and the second group. *)
Definition matchWeekdayValue (value : text) : option (option text * text) :=
  let '(sign, rest) :=
    match value with
    | "-"%char :: r => (["-"%char], r)
    | "+"%char :: r => (["+"%char], r)
    | _ => ([], value)
    end in
  let isCode (w : text) :=
    match w with
    | [a; b] => isUpper a && isUpper b
    | _ => false
    end in
  match rest with
  | d1 :: d2 :: w =>
      if isDigit d1 && isDigit d2 && isCode w then Some (Some (sign ++ [d1; d2]), w)
      else if isDigit d1 && isCode (d2 :: w) then Some (Some (sign ++ [d1]), d2 :: w)
      else if nonEmpty sign then None
      else if isCode rest then Some (None, rest)
      else None
  | _ => None
  end.

Definition parseWeekdayValue (value : text) : Result WeekdayValue :=
  let value := toUpperCase (trim value) in
  match value with
  | [] => Err (InvalidText "weekday")
  | _ =>
      match matchWeekdayValue value with
      | None => Err (InvalidText "weekday format")
      | Some (occurrence, weekday) =>
          match asWeekday weekday with
          | None => Err (InvalidText "weekday")
          | Some weekday =>
              match occurrence with
              | None => Ok (Bare weekday)
              | Some occurrence =>
                  match parseInteger occurrence with
                  | None => Err (InvalidText "weekday occurrence")
                  | Some n =>
                      if n =? 0 then Err (InvalidText "weekday occurrence 0")
                      else if (n <? -53) || (53 <? n)
                      then Err (InvalidText "weekday occurrence range")
                      else Ok (Nth weekday n)
                  end
              end
          end
      end
  end.

(* ===================================================================== *)
(** * sanitize.ts *)
(* ===================================================================== *)

(** The options a caller passes in ([RRuleOptions]). *)
Module Raw.

(** An entry of [byweekday]: a string (a weekday constant such as
    ['MO'], or a token such as ['+1WE']) or a record [{ weekday, n }]. *)
Inductive WeekdayInput :=
| Token (s : text)
| Rec (weekday : Weekday) (n : Z).

Record RRuleOptions := mk {
  freq : option Frequency;
  dtstart : option DateValue;
  interval : option Z;
  count : option Z;
  until : option DateValue;
  wkst : option text;
  bysetpos : option (list Z);
  bymonth : option (list Z);
  bymonthday : option (list Z);
  byyearday : option (list Z);
  byweekday : option (list WeekdayInput);
  byweekno : option (list Z);
  byhour : option (list Z);
  byminute : option (list Z);
  bysecond : option (list Z) }.

End Raw.

Definition sanitizeFrequency (value : option Frequency) : Frequency :=
  match value with
  | None => YEARLY
  | Some f => f
  end.

(** [sanitizeNumber(value, min)], as it is called: no [max], zero not
    allowed. *)
Definition sanitizeNumber (value : option Z) (min : Z) : option Z :=
  match value with
  | None => None
  | Some v => if v =? 0 then None else Some (if v <? min then min else v)
  end.

Definition sanitizeNumberArray (values : option (list Z)) (min max : Z)
  (allowZero : bool) : option (list Z) :=
  match values with
  | None => None
  | Some values =>
      Some (unique
              (filter (fun value =>
                         if negb allowZero && (value =? 0) then false
                         else if max <? value then false
                         else if value <? min then false
                         else true)
                      values))
  end.

Definition sanitizeUntilDate (value start : option DateValue)
  : Result (option DateValue) :=
  match start with
  | None => Ok value
  | Some start =>
      match value with
      | Some v => if Calendar.compare v start <? 0 then Err UntilBeforeDtstart
                  else Ok value
      | None => Ok value
      end
  end.

Definition sanitizeWeekday (value : option text) : option Weekday :=
  match value with
  | None => None
  | Some s =>
      match asWeekday s with
      | Some w => Some w
      | None => match parseWeekday s with
                | Ok w => Some w
                | Err _ => None
                end
      end
  end.

(** [isWeekdayValue] on an entry of [byweekday]. *)
Definition isWeekdayValue (value : Raw.WeekdayInput) : bool :=
  match value with
  | Raw.Token s => isSome (asWeekday s)
  | Raw.Rec _ n => (-53 <? n) && (n <? 53)
  end.

Definition sanitizeWeekdayValue (value : Raw.WeekdayInput) : option WeekdayValue :=
  if isWeekdayValue value then
    match value with
    | Raw.Token s => option_map Bare (asWeekday s)
    | Raw.Rec weekday n => Some (Nth weekday n)
    end
  else
    match value with
    | Raw.Token s =>
        match parseWeekdayValue s with
        | Ok v => Some v
        | Err _ => None
        end
    | Raw.Rec _ _ => None
    end.

Definition sanitizeWeekdayValueArray (values : option (list Raw.WeekdayInput))
  : option (list WeekdayValue) :=
  match values with
  | None => None
  | Some values =>
      Some (uniqueWeekdayValues
              (flat_map (fun value => match sanitizeWeekdayValue value with
                                      | Some parsed => [parsed]
                                      | None => []
                                      end)
                        values))
  end.

Definition validateBySetPos (parsed : ParsedRRuleOptions) : bool :=
  match bysetpos parsed with
  | None => true
  | Some [] => true
  | Some _ =>
      nonEmpty (orEmpty (bymonth parsed))
      || nonEmpty (orEmpty (bymonthday parsed))
      || nonEmpty (orEmpty (byyearday parsed))
      || nonEmpty (orEmpty (byweekday parsed))
      || nonEmpty (orEmpty (byweekno parsed))
      || nonEmpty (orEmpty (byhour parsed))
      || nonEmpty (orEmpty (byminute parsed))
      || nonEmpty (orEmpty (bysecond parsed))
  end.

Definition sanitizeRRuleOptions (options : Raw.RRuleOptions)
  : Result ParsedRRuleOptions :=
  sanitizedUntil <- sanitizeUntilDate (Raw.until options) (Raw.dtstart options) ;;
  let parsed :=
    mkOptions
      (sanitizeFrequency (Raw.freq options))
      (Raw.dtstart options)
      (sanitizeNumber (Raw.interval options) 1)
      (sanitizeNumber (Raw.count options) 1)
      sanitizedUntil
      (sanitizeWeekday (Raw.wkst options))
      (sanitizeNumberArray (Raw.bysetpos options) (-366) 366 false)
      (sanitizeNumberArray (Raw.bymonth options) 1 12 false)
      (sanitizeNumberArray (Raw.bymonthday options) (-31) 31 false)
      (sanitizeNumberArray (Raw.byyearday options) (-366) 366 false)
      (sanitizeWeekdayValueArray (Raw.byweekday options))
      (sanitizeNumberArray (Raw.byweekno options) (-53) 53 false)
      (sanitizeNumberArray (Raw.byhour options) 0 23 true)
      (sanitizeNumberArray (Raw.byminute options) 0 59 true)
      (sanitizeNumberArray (Raw.bysecond options) 0 59 true) in
  if isSome (count parsed) && isSome (until parsed) then Err CountUntilExclusive
  else if negb (validateBySetPos parsed) then Err BySetPosAlone
  else Ok parsed.

(* ===================================================================== *)
(** * format.ts *)
(* ===================================================================== *)

Definition isUTC (timeZone : string) : bool := String.eqb timeZone "UTC".

Definition formatICSDateValue (value : DateValue) : text :=
  let date := padZero (Calendar.year value) 4 ++ padZero (Calendar.month value) 2
              ++ padZero (Calendar.day value) 2 in
  match value with
  | CalendarDate _ _ _ => date
  | CalendarDateTime _ _ _ h mi s _ =>
      date ++ "T"%char :: padZero h 2 ++ padZero mi 2 ++ padZero s 2
  | ZonedDateTime _ _ _ h mi s _ timeZone _ =>
      let time := padZero h 2 ++ padZero mi 2 ++ padZero s 2 in
      if isUTC timeZone then date ++ "T"%char :: time ++ ["Z"%char]
      else date ++ "T"%char :: time
  end.

(** The conversion of UNTIL to the form of DTSTART. *)
Definition untilLike (value start : DateValue) : DateValue :=
  match start with
  | CalendarDate _ _ _ => Calendar.toCalendarDate value
  | CalendarDateTime _ _ _ _ _ _ _ => Calendar.toCalendarDateTime value
  | ZonedDateTime _ _ _ _ _ _ _ _ _ =>
      match value with
      | ZonedDateTime _ _ _ _ _ _ _ timeZone _ =>
          if isUTC timeZone then value else Calendar.toUTC value
      | _ => Calendar.toUTC value
      end
  end.

Definition formatUntilICSDateValue (value : DateValue) (start : option DateValue)
  : Result text :=
  match start with
  | None => Ok (formatICSDateValue value)
  | Some start =>
      if Calendar.compare value start <? 0 then Err UntilNotBeforeDtstart
      else Ok (formatICSDateValue (untilLike value start))
  end.

Definition formatWeekdayValue (value : WeekdayValue) : text :=
  match value with
  | Bare w => weekdayText w
  | Nth weekday n =>
      if n =? 0 then weekdayText weekday
      else String_ n ++ weekdayText weekday
  end.

(** One [KEY=value] part. *)
Definition part (key : string) (value : text) : text :=
  str key ++ "="%char :: value.

Definition numbers (l : list Z) : text := join ","%char (map String_ l).

(** The part of a selector list: pushed when the list is there and not
    empty. *)
Definition listPart (key : string) (l : option (list Z)) : list text :=
  match l with
  | Some ((_ :: _) as values) => [part key (numbers values)]
  | _ => []
  end.

Definition formatRRule (options : ParsedRRuleOptions) : Result text :=
  untilPart <-
    match until options with
    | Some u =>
        untilValue <- formatUntilICSDateValue u (dtstart options) ;;
        Ok [part "UNTIL" untilValue]
    | None => Ok []
    end ;;
  let parts :=
    [part "FREQ" (frequencyText (freq options))]
    ++ match interval options with
       | Some i => if i =? 1 then [] else [part "INTERVAL" (String_ i)]
       | None => []
       end
    ++ match count options with
       | Some c => [part "COUNT" (String_ c)]
       | None => []
       end
    ++ untilPart
    ++ match wkst options with
       | Some w => [part "WKST" (weekdayText w)]
       | None => []
       end
    ++ listPart "BYMONTH" (bymonth options)
    ++ listPart "BYMONTHDAY" (bymonthday options)
    ++ listPart "BYYEARDAY" (byyearday options)
    ++ listPart "BYWEEKNO" (byweekno options)
    ++ match byweekday options with
       | Some ((_ :: _) as days) =>
           [part "BYDAY" (join ","%char (map formatWeekdayValue days))]
       | _ => []
       end
    ++ listPart "BYHOUR" (byhour options)
    ++ listPart "BYMINUTE" (byminute options)
    ++ listPart "BYSECOND" (bysecond options)
    ++ listPart "BYSETPOS" (bysetpos options) in
  Ok (str "RRULE:" ++ join ";"%char parts).

(* ===================================================================== *)
(** * parse.ts: date values *)
(* ===================================================================== *)

(** Modelled from the spec: the ISO 8601 parsers of the host date library
    ([parseDate], [parseDateTime], [parseAbsolute]) are not part of the
    repository.  They build the value of spec 4.3 for the three DTSTART
    forms and fail on a field out of its range. *)
Definition hostParse (zulu : bool) (year month day : Z) (time : option (Z * Z * Z))
  : Result DateValue :=
  if negb ((1 <=? year) && (year <=? 9999) && (1 <=? month) && (month <=? 12)
           && (1 <=? day) && (day <=? Calendar.daysInMonthOf year month))
  then Err (InvalidText "ISO 8601 date")
  else
    match time with
    | None => Ok (CalendarDate year month day)
    | Some (h, mi, s) =>
        if negb ((0 <=? h) && (h <=? 23) && (0 <=? mi) && (mi <=? 59)
                 && (0 <=? s) && (s <=? 59))
        then Err (InvalidText "ISO 8601 time")
        else if zulu then Ok (ZonedDateTime year month day h mi s 0 "UTC" 0)
        else Ok (CalendarDateTime year month day h mi s 0)
    end.

(** [value.slice(from, to)] *)
Definition slice (value : text) (from to : nat) : text :=
  firstn (to - from) (skipn from value).

(** [/^\d{8}(?:T\d{6}Z?)?$/.test(value)] *)
Definition matchICSDate (value : text) : bool :=
  forallb isDigit (firstn 8 value) && Nat.eqb (List.length (firstn 8 value)) 8
  && match skipn 8 value with
     | [] => true
     | t :: rest =>
         Ascii.eqb t "T" && forallb isDigit (firstn 6 rest)
         && Nat.eqb (List.length (firstn 6 rest)) 6
         && match skipn 6 rest with
            | [] => true
            | [z] => Ascii.eqb z "Z"
            | _ => false
            end
     end.

Definition endsWithZ (value : text) : bool :=
  match rev value with
  | z :: _ => Ascii.eqb z "Z"
  | [] => false
  end.

Definition parseICSDateValue (value : text) : Result DateValue :=
  let value := trim value in
  if negb (matchICSDate value) then Err (InvalidText "ICS date format")
  else
    match parseInteger (slice value 0 4), parseInteger (slice value 4 6),
          parseInteger (slice value 6 8) with
    | Some year, Some month, Some day =>
        match parseInteger (slice value 9 11), parseInteger (slice value 11 13),
              parseInteger (slice value 13 15) with
        | Some hour, Some minute, Some second =>
            hostParse (endsWithZ value) year month day (Some (hour, minute, second))
        | _, _, _ => hostParse false year month day None
        end
    | _, _, _ => Err (InvalidText "ICS date format")
    end.

(* ===================================================================== *)
(** * parser.ts *)
(* ===================================================================== *)

Definition CR : ascii := ascii_of_nat 13.
Definition LF : ascii := ascii_of_nat 10.

Definition isBlank (c : ascii) : bool :=
  Ascii.eqb c " " || Ascii.eqb c (ascii_of_nat 9).

Definition headBlank (s : text) : bool :=
  match s with c :: _ => isBlank c | [] => false end.

(** The length of the match of [/\r?\n([ \t])(?![ \t])/] at the head of
    [s], if it matches there. *)
Definition foldAt (s : text) : option nat :=
  match s with
  | c :: r =>
      if Ascii.eqb c CR then
        match r with
        | l :: w :: rest =>
            if Ascii.eqb l LF && isBlank w && negb (headBlank rest)
            then Some 3%nat else None
        | _ => None
        end
      else if Ascii.eqb c LF then
        match r with
        | w :: rest => if isBlank w && negb (headBlank rest) then Some 2%nat else None
        | _ => None
        end
      else None
  | [] => None
  end.

(** [value.replace(/\r?\n([ \t])(?![ \t])/g, '')]: [skip] characters of a
    match are still to be dropped. *)
Fixpoint unfoldFrom (skip : nat) (s : text) : text :=
  match s with
  | [] => []
  | c :: r =>
      match skip with
      | S k => unfoldFrom k r
      | O =>
          match foldAt s with
          | Some (S k) => unfoldFrom k r
          | _ => c :: unfoldFrom 0 r
          end
      end
  end.

Definition unfoldLine (value : text) : text := unfoldFrom 0 value.

Definition isLineEnd (c : ascii) : bool := Ascii.eqb c CR || Ascii.eqb c LF.

(** The group of [/^RRULE:(.+)$/i]. *)
Definition matchRRule (s : text) : option text :=
  if text_eqb (toUpperCase (firstn 6 s)) (str "RRULE:") then
    let rest := skipn 6 s in
    if nonEmpty rest && forallb (fun c => negb (isLineEnd c)) rest
    then Some rest else None
  else None.

(** [splitOnce]: the first two pieces of [value.split(separator, 2)]. *)
Definition splitOnce (value : text) (separator : ascii) : text * option text :=
  match split separator value with
  | before :: after :: _ => (before, Some after)
  | [before] => (before, None)
  | [] => ([], None)
  end.

Definition parseRRuleFrequency (value : text) (strict : bool) : Result Frequency :=
  match parseFrequency value with
  | Ok f => Ok f
  | Err _ => if strict then Err (InvalidText "FREQ") else Ok YEARLY
  end.

Definition parseRRuleInterval (value : text) (strict : bool) : Result Z :=
  match parsePositiveInteger value with
  | Ok n => Ok n
  | Err _ => if strict then Err (InvalidText "INTERVAL") else Ok 1
  end.

Definition parseRRuleCount (value : text) (strict : bool) : Result (option Z) :=
  match parsePositiveInteger value with
  | Ok n => Ok (Some n)
  | Err _ => if strict then Err (InvalidText "COUNT") else Ok None
  end.

Definition parseRRuleUntil (value : text) (strict : bool)
  : Result (option DateValue) :=
  match parseICSDateValue (trim value) with
  | Ok d => Ok (Some d)
  | Err _ => if strict then Err (InvalidText "UNTIL") else Ok None
  end.

Definition parseRRuleWkst (value : text) (strict : bool) : Result (option Weekday) :=
  match trim value with
  | [] => Ok None
  | _ =>
      match parseWeekday value with
      | Ok w => Ok (Some w)
      | Err _ => if strict then Err (InvalidText "WKST") else Ok None
      end
  end.

Fixpoint parseWeekdayValues (days : list text) (strict : bool)
  : Result (list WeekdayValue) :=
  match days with
  | [] => Ok []
  | day :: rest =>
      match parseWeekdayValue day with
      | Ok v => r <- parseWeekdayValues rest strict ;; Ok (v :: r)
      | Err _ => if strict then Err (InvalidText "BYDAY")
                 else parseWeekdayValues rest strict
      end
  end.

Definition parseRRuleByDay (value : text) (strict : bool)
  : Result (list WeekdayValue) :=
  match parseList value ","%char with
  | [] => Ok []
  | weekdays =>
      weekdayValues <- parseWeekdayValues weekdays strict ;;
      Ok (uniqueWeekdayValues weekdayValues)
  end.

Fixpoint checkNumbers (key : string) (numbers : list Z) (min max : Z)
  (excludeZero strict : bool) : Result (list Z) :=
  match numbers with
  | [] => Ok []
  | number :: rest =>
      if excludeZero && (number =? 0) then
        if strict then Err (InvalidText key)
        else checkNumbers key rest min max excludeZero strict
      else if negb (isNumberInRange number min max) then
        if strict then Err (InvalidText key)
        else checkNumbers key rest min max excludeZero strict
      else r <- checkNumbers key rest min max excludeZero strict ;; Ok (number :: r)
  end.

Definition parseRRuleNumberList (key : string) (value : text) (min max : Z)
  (excludeZero strict : bool) : Result (list Z) :=
  match parseIntegerList value ","%char with
  | [] => Ok []
  | numbers =>
      values <- checkNumbers key numbers min max excludeZero strict ;;
      Ok (unique values)
  end.

(** The options object [parseRRule] fills: [freq] is absent until a FREQ
    part is read. *)
Definition ParseState : Type := option Frequency * ParsedRRuleOptions.

Definition noOptions : ParsedRRuleOptions :=
  mkOptions YEARLY None None None None None None None None None None None None None None.

Definition withFreq (o : ParsedRRuleOptions) (v : Frequency) :=
  mkOptions v (dtstart o) (interval o) (count o) (until o) (wkst o)
            (bysetpos o) (bymonth o) (bymonthday o) (byyearday o)
            (byweekday o) (byweekno o) (byhour o) (byminute o) (bysecond o).
Definition withInterval (o : ParsedRRuleOptions) (v : option Z) :=
  mkOptions (freq o) (dtstart o) v (count o) (until o) (wkst o)
            (bysetpos o) (bymonth o) (bymonthday o) (byyearday o)
            (byweekday o) (byweekno o) (byhour o) (byminute o) (bysecond o).
Definition withCount (o : ParsedRRuleOptions) (v : option Z) :=
  mkOptions (freq o) (dtstart o) (interval o) v (until o) (wkst o)
            (bysetpos o) (bymonth o) (bymonthday o) (byyearday o)
            (byweekday o) (byweekno o) (byhour o) (byminute o) (bysecond o).
Definition withUntil (o : ParsedRRuleOptions) (v : option DateValue) :=
  mkOptions (freq o) (dtstart o) (interval o) (count o) v (wkst o)
            (bysetpos o) (bymonth o) (bymonthday o) (byyearday o)
            (byweekday o) (byweekno o) (byhour o) (byminute o) (bysecond o).
Definition withWkst (o : ParsedRRuleOptions) (v : option Weekday) :=
  mkOptions (freq o) (dtstart o) (interval o) (count o) (until o) v
            (bysetpos o) (bymonth o) (bymonthday o) (byyearday o)
            (byweekday o) (byweekno o) (byhour o) (byminute o) (bysecond o).
Definition withBysetpos (o : ParsedRRuleOptions) (v : option (list Z)) :=
  mkOptions (freq o) (dtstart o) (interval o) (count o) (until o) (wkst o)
            v (bymonth o) (bymonthday o) (byyearday o)
            (byweekday o) (byweekno o) (byhour o) (byminute o) (bysecond o).
Definition withBymonth (o : ParsedRRuleOptions) (v : option (list Z)) :=
  mkOptions (freq o) (dtstart o) (interval o) (count o) (until o) (wkst o)
            (bysetpos o) v (bymonthday o) (byyearday o)
            (byweekday o) (byweekno o) (byhour o) (byminute o) (bysecond o).
Definition withBymonthday (o : ParsedRRuleOptions) (v : option (list Z)) :=
  mkOptions (freq o) (dtstart o) (interval o) (count o) (until o) (wkst o)
            (bysetpos o) (bymonth o) v (byyearday o)
            (byweekday o) (byweekno o) (byhour o) (byminute o) (bysecond o).
Definition withByyearday (o : ParsedRRuleOptions) (v : option (list Z)) :=
  mkOptions (freq o) (dtstart o) (interval o) (count o) (until o) (wkst o)
            (bysetpos o) (bymonth o) (bymonthday o) v
            (byweekday o) (byweekno o) (byhour o) (byminute o) (bysecond o).
Definition withByweekday (o : ParsedRRuleOptions) (v : option (list WeekdayValue)) :=
  mkOptions (freq o) (dtstart o) (interval o) (count o) (until o) (wkst o)
            (bysetpos o) (bymonth o) (bymonthday o) (byyearday o)
            v (byweekno o) (byhour o) (byminute o) (bysecond o).
Definition withByweekno (o : ParsedRRuleOptions) (v : option (list Z)) :=
  mkOptions (freq o) (dtstart o) (interval o) (count o) (until o) (wkst o)
            (bysetpos o) (bymonth o) (bymonthday o) (byyearday o)
            (byweekday o) v (byhour o) (byminute o) (bysecond o).
Definition withByhour (o : ParsedRRuleOptions) (v : option (list Z)) :=
  mkOptions (freq o) (dtstart o) (interval o) (count o) (until o) (wkst o)
            (bysetpos o) (bymonth o) (bymonthday o) (byyearday o)
            (byweekday o) (byweekno o) v (byminute o) (bysecond o).
Definition withByminute (o : ParsedRRuleOptions) (v : option (list Z)) :=
  mkOptions (freq o) (dtstart o) (interval o) (count o) (until o) (wkst o)
            (bysetpos o) (bymonth o) (bymonthday o) (byyearday o)
            (byweekday o) (byweekno o) (byhour o) v (bysecond o).
Definition withBysecond (o : ParsedRRuleOptions) (v : option (list Z)) :=
  mkOptions (freq o) (dtstart o) (interval o) (count o) (until o) (wkst o)
            (bysetpos o) (bymonth o) (bymonthday o) (byyearday o)
            (byweekday o) (byweekno o) (byhour o) (byminute o) v.

Definition keyIs (key : text) (name : string) : bool := text_eqb key (str name).

(** The [switch (key.toUpperCase())] of [parseRRule]. *)
Definition readParam (strict : bool) (st : ParseState) (key value : text)
  : Result ParseState :=
  let '(f, o) := st in
  let key := toUpperCase key in
  if keyIs key "FREQ" then
    v <- parseRRuleFrequency value strict ;; Ok (Some v, o)
  else if keyIs key "INTERVAL" then
    v <- parseRRuleInterval value strict ;; Ok (f, withInterval o (Some v))
  else if keyIs key "COUNT" then
    v <- parseRRuleCount value strict ;; Ok (f, withCount o v)
  else if keyIs key "UNTIL" then
    v <- parseRRuleUntil value strict ;; Ok (f, withUntil o v)
  else if keyIs key "WKST" then
    v <- parseRRuleWkst value strict ;; Ok (f, withWkst o v)
  else if keyIs key "BYDAY" || keyIs key "BYWEEKDAY" then
    v <- parseRRuleByDay value strict ;; Ok (f, withByweekday o (Some v))
  else if keyIs key "BYMONTH" then
    v <- parseRRuleNumberList "BYMONTH" value 1 12 true strict ;;
    Ok (f, withBymonth o (Some v))
  else if keyIs key "BYMONTHDAY" then
    v <- parseRRuleNumberList "BYMONTHDAY" value (-31) 31 true strict ;;
    Ok (f, withBymonthday o (Some v))
  else if keyIs key "BYYEARDAY" then
    v <- parseRRuleNumberList "BYYEARDAY" value (-366) 366 true strict ;;
    Ok (f, withByyearday o (Some v))
  else if keyIs key "BYWEEKNO" then
    v <- parseRRuleNumberList "BYWEEKNO" value (-53) 53 true strict ;;
    Ok (f, withByweekno o (Some v))
  else if keyIs key "BYHOUR" then
    v <- parseRRuleNumberList "BYHOUR" value 0 23 false strict ;;
    Ok (f, withByhour o (Some v))
  else if keyIs key "BYMINUTE" then
    v <- parseRRuleNumberList "BYMINUTE" value 0 59 false strict ;;
    Ok (f, withByminute o (Some v))
  else if keyIs key "BYSECOND" then
    v <- parseRRuleNumberList "BYSECOND" value 0 59 false strict ;;
    Ok (f, withBysecond o (Some v))
  else if keyIs key "BYSETPOS" then
    v <- parseRRuleNumberList "BYSETPOS" value (-366) 366 true strict ;;
    Ok (f, withBysetpos o (Some v))
  else Err (InvalidText "unknown RRULE parameter").

(** The body of the loop over the parameters, with its [try]/[catch]. *)
Definition applyParam (strict : bool) (st : ParseState) (param : text)
  : Result ParseState :=
  let attempt :=
    match splitOnce param "="%char with
    | (key, Some value) =>
        if nonEmpty key && nonEmpty value then readParam strict st key value
        else Err (InvalidText "RRULE parameter")
    | (_, None) => Err (InvalidText "RRULE parameter")
    end in
  match attempt with
  | Ok st' => Ok st'
  | Err e => if strict then Err e else Ok st
  end.

Fixpoint parseParams (strict : bool) (params : list text) (st : ParseState)
  : Result ParseState :=
  match params with
  | [] => Ok st
  | param :: rest =>
      st' <- applyParam strict st param ;; parseParams strict rest st'
  end.

Definition parseRRule (rruleString : text) (strict : bool)
  : Result ParsedRRuleOptions :=
  let unfolded := unfoldLine (trim rruleString) in
  match matchRRule unfolded with
  | None => Err (InvalidText "RRULE string")
  | Some rrule =>
      st <- parseParams strict (parseList rrule ";"%char) (None, noOptions) ;;
      let '(f, o) := st in
      match f with
      | None => Err (InvalidText "FREQ is required")
      | Some f =>
          if isSome (count o) && isSome (until o)
          then Err (InvalidText "COUNT and UNTIL are mutually exclusive")
          else Ok (withFreq o f)
      end
  end.


(* ===================================================================== *)
(** * format.ts and parser.ts: the block with DTSTART *)
(* ===================================================================== *)

Definition formatDTStart (value : DateValue) : text :=
  match value with
  | ZonedDateTime _ _ _ _ _ _ _ timeZone _ =>
      if isUTC timeZone then str "DTSTART:" ++ formatICSDateValue value
      else str "DTSTART;TZID=" ++ str timeZone ++ ":"%char :: formatICSDateValue value
  | _ => str "DTSTART:" ++ formatICSDateValue value
  end.

Definition formatICS (options : ParsedRRuleOptions) : Result text :=
  rrule <- formatRRule options ;;
  match dtstart options with
  | None => Ok rrule
  | Some d => Ok (formatDTStart d ++ LF :: rrule)
  end.

Definition startsWith (prefix : string) (s : text) : bool :=
  text_eqb (toUpperCase (firstn (List.length (str prefix)) s)) (str prefix).

Definition notColon (c : ascii) : bool := negb (Ascii.eqb c ":").

(** The match of [new RegExp(`;${key}=([^;:]+)`, 'i')] in the parameters
    of a DTSTART line: the group of the first match. *)
Fixpoint parseDTStartParam (params : text) (key : string) : option text :=
  match params with
  | [] => None
  | c :: r =>
      if Ascii.eqb c ";"
         && text_eqb (toUpperCase (firstn (List.length (str key) + 1) r))
                     (str key ++ ["="%char])
      then
        match takeWhile (fun x => negb (Ascii.eqb x ";") && notColon x)
                        (skipn (List.length (str key) + 1) r) with
        | [] => parseDTStartParam r key
        | v => Some v
        end
      else parseDTStartParam r key
  end.

(** The two groups of the DTSTART pattern: after the word DTSTART, read
    without regard to case, the parameters up to the first colon, and the
    value after it, which is not empty and stays on the line. *)
Definition matchDTStart (s : text) : option (text * text) :=
  if startsWith "DTSTART" s then
    let rest := skipn 7 s in
    match dropWhile notColon rest with
    | _ :: dateValue =>
        if nonEmpty dateValue && forallb (fun c => negb (isLineEnd c)) dateValue
        then Some (takeWhile notColon rest, dateValue)
        else None
    | [] => None
    end
  else None.

Section HostZones.

(** The host's conversion of a wall-clock date-time to a zone
    ([toZoned(date, tzid)]), a collaborator the library treats as a black
    box (spec 6). *)
Variable toZoned : DateValue -> text -> DateValue.

Definition parseDTStart (value : text) (strict : bool) : Result (option DateValue) :=
  let value := trim value in
  match matchDTStart value with
  | None => if strict then Err (InvalidText "DTSTART") else Ok None
  | Some (params, dateValue) =>
      let tzid := parseDTStartParam params "TZID" in
      date <- parseICSDateValue dateValue ;;
      let date :=
        match tzid, date with
        | Some zone, CalendarDateTime _ _ _ _ _ _ _ => toZoned date zone
        | _, _ => date
        end in
      if strict
         && match tzid, date with
            | Some _, CalendarDate _ _ _ => true
            | Some _, ZonedDateTime _ _ _ _ _ _ _ timeZone _ => isUTC timeZone
            | _, _ => false
            end
      then Err (InvalidText "DTSTART: TZID is not compatible")
      else Ok (Some date)
  end.

(** [unfolded.split(/\r?\n/)]: the pieces between line feeds, a carriage
    return before a line feed belonging to the separator. *)
Definition splitLines (s : text) : list text :=
  let pieces := split LF s in
  let dropCR (p : text) :=
    match rev p with
    | c :: r => if Ascii.eqb c CR then rev r else p
    | [] => p
    end in
  match rev pieces with
  | last :: before => map dropCR (rev before) ++ [last]
  | [] => []
  end.

(** The loop of [parseICS] over the lines. *)
Fixpoint scanLines (lines : list text) (strict : bool)
  (start : option DateValue) (rruleLine : option text)
  : Result (option DateValue * option text) :=
  match lines with
  | [] => Ok (start, rruleLine)
  | line :: rest =>
      if startsWith "DTSTART" line then
        d <- parseDTStart line strict ;; scanLines rest strict d rruleLine
      else if startsWith "RRULE:" line then scanLines rest strict start (Some line)
      else scanLines rest strict start rruleLine
  end.

Definition parseICS (icsString : text) (strict : bool) : Result ParsedRRuleOptions :=
  let unfolded := unfoldLine (trim icsString) in
  let lines :=
    filter (fun line => nonEmpty line) (map trim (splitLines unfolded)) in
  found <- scanLines lines strict None None ;;
  match snd found with
  | None => Err (InvalidText "RRULE line not found")
  | Some rruleLine =>
      rruleOptions <- parseRRule rruleLine strict ;;
      match fst found with
      | Some d => Ok (withDtstart rruleOptions (Some d))
      | None => Ok rruleOptions
      end
  end.


End HostZones.

(* ===================================================================== *)
(** * Periods of a generator run *)
(* ===================================================================== *)

(** The dates of one period, after time expansion and BYSETPOS. *)
Definition periodDates (options : ParsedRRuleOptions) (cursor : DateValue)
  : list DateValue :=
  applyBySetPos
    (flat_map (fun date => expandByTime date options)
              (getFrequencyExpander (freq options) cursor options))
    (bysetpos options).

(** A period yields nothing when the generator has emitted nothing so far. *)
Definition emitsNothing (options : ParsedRRuleOptions) (start cursor : DateValue)
  : bool :=
  match emitPeriod start (until options) (count options)
                   (periodDates options cursor) 0 false with
  | ([], _, _, _) => true
  | _ => false
  end.

(** The next [n] periods from [cursor] all yield nothing. *)
Fixpoint emptyPeriods (n : nat) (options : ParsedRRuleOptions)
  (start : DateValue) (step : Z) (cursor : DateValue) : bool :=
  match n with
  | O => true
  | S n' =>
      emitsNothing options start cursor
      && emptyPeriods n' options start step
           (advancePeriod cursor (freq options) step)
  end.

(** What one period does when the generator goes on after it: the dates
    it yields, and [emitted] and [consecutiveEmptyPeriods] as they are
    after it.  [None] when the generator returns in the period: on COUNT,
    on UNTIL, or on the thousandth empty period in a row with nothing
    emitted. *)
Definition periodStep (options : ParsedRRuleOptions) (start cursor : DateValue)
  (emitted empties : Z) : option (list DateValue * Z * Z) :=
  let '(ys, emitted, yieldedThisPeriod, returned) :=
    emitPeriod start (until options) (count options)
               (periodDates options cursor) emitted false in
  if returned then None
  else
    let empties := if yieldedThisPeriod then 0 else empties + 1 in
    if negb yieldedThisPeriod && (1000 <=? empties) && (emitted =? 0) then None
    else Some (ys, emitted, empties).

(** The rule taken through [n] periods from [cursor], with no cap on the
    iterations: the dates yielded when none of the periods makes the
    generator return, that is, when a consumer that keeps pulling has the
    cursor advanced [n] times. *)
Fixpoint uncappedRun (n : nat) (options : ParsedRRuleOptions) (start : DateValue)
  (step : Z) (cursor : DateValue) (emitted empties : Z) : option (list DateValue) :=
  match n with
  | O => Some []
  | S n' =>
      match periodStep options start cursor emitted empties with
      | None => None
      | Some (ys, emitted, empties) =>
          match uncappedRun n' options start step
                  (advancePeriod cursor (freq options) step) emitted empties with
          | Some rest => Some (ys ++ rest)
          | None => None
          end
      end
  end.

(** The cursor the generator starts from, given the seek target. *)
Definition firstCursor (options : ParsedRRuleOptions) (start : DateValue)
  (step : Z) (target : option DateValue) : DateValue :=
  match target with
  | Some a =>
      if 0 <? compareDates a start
      then advanceCursorToDate (getPeriodStart start (freq options)) a
             (freq options) step
      else getPeriodStart start (freq options)
  | None => getPeriodStart start (freq options)
  end.

(** The configured maximum: the override, or the default. *)
Definition effectiveMax (configured : option Z) : Z :=
  match configured with Some m => m | None => defaultMaxIterations end.

(** The interval the generator steps by. *)
Definition effectiveInterval (options : ParsedRRuleOptions) : Z :=
  match interval options with Some i => i | None => 1 end.

(** The generator runs its loop: DTSTART is there, the interval is not 0
    and UNTIL is not before DTSTART. *)
Definition entersLoop (options : ParsedRRuleOptions) (start : DateValue) : Prop :=
  dtstart options = Some start
  /\ effectiveInterval options <> 0
  /\ match until options with
     | Some u => compareDates u start <? 0
     | None => false
     end = false.

(** [MONTHLY;BYMONTH=4;BYMONTHDAY=31] with the given start, interval
    and WKST left open. *)
Definition april31 (start : DateValue) (step : option Z) : ParsedRRuleOptions :=
  mkOptions MONTHLY (Some start) step None None None
            None (Some [4]) (Some [31]) None None None None None None.

(** The reading of [after] that spec 4.4 and 4.5 give: the loop of [after]
    run over the generator without a seek target. *)
Definition afterUnseeked (r : RRule) (date : DateValue) (inclusive : bool)
  (limit : option Z) : Result (list DateValue) :=
  let t := generateDates (_options r) (_maxIterations r) None in
  afterLoop date inclusive limit (outcome t) (yields t) 0.

(** [MONTHLY;COUNT=4] from 31 January 2025, no BY* selector. *)
Definition monthlyFrom31 : ParsedRRuleOptions :=
  mkOptions MONTHLY (Some (CalendarDate 2025 1 31)) None (Some 4) None None
            None None None None None None None None None.

(** [MONTHLY;COUNT=4;BYMONTHDAY=15;BYSETPOS=1,-1] from 15 January 2025. *)
Definition firstAndLastOfOne : ParsedRRuleOptions :=
  mkOptions MONTHLY (Some (CalendarDate 2025 1 15)) None (Some 4) None None
            (Some [1; -1]) None (Some [15]) None None None None None None.

(** [MONTHLY;COUNT=3;BYDAY=MO,1MO] from 1 January 2025. *)
Definition mondayTwice : ParsedRRuleOptions :=
  mkOptions MONTHLY (Some (CalendarDate 2025 1 1)) None (Some 3) None None
            None None None None (Some [Bare MO; Nth MO 1]) None None None None.

(** [DAILY;COUNT=3;BYHOUR=10,9] from 1 January 2025, 09:00. *)
Definition hoursOutOfOrder : ParsedRRuleOptions :=
  mkOptions DAILY (Some (CalendarDateTime 2025 1 1 9 0 0 0)) None (Some 3) None None
            None None None None None None (Some [10; 9]) None None.

(** [DAILY;COUNT=3] from 1 January 2025. *)
Definition threeDays : ParsedRRuleOptions :=
  mkOptions DAILY (Some (CalendarDate 2025 1 1)) None (Some 3) None None
            None None None None None None None None None.

(** [DAILY;BYMONTH=2;BYMONTHDAY=29] from 29 February 2024. *)
Definition leapDays : ParsedRRuleOptions :=
  mkOptions DAILY (Some (CalendarDate 2024 2 29)) None None None None
            None (Some [2]) (Some [29]) None None None None None None.

(* ===================================================================== *)
(** * Inputs of the sanitizer, for the statements below *)
(* ===================================================================== *)

(** A [byweekday] token with an ordinal, as a caller writes it: the
    decimal ordinal, with a [+] in front of a non-negative one when [plus]
    is set, then the weekday. *)
Definition ordinalToken (plus : bool) (n : Z) (w : Weekday) : text :=
  (if plus && (0 <=? n) then ["+"%char] else []) ++ String_ n ++ weekdayText w.

(** A numeric selector value the sanitizer keeps. *)
Definition inRange (min max : Z) (allowZero : bool) (value : Z) : bool :=
  (allowZero || negb (value =? 0)) && (min <=? value) && (value <=? max).

(** A selector list has a value the sanitizer keeps. *)
Definition hasKept (min max : Z) (allowZero : bool) (values : option (list Z)) : bool :=
  existsb (inRange min max allowZero) (orEmpty values).

Definition hasKeptWeekday (values : option (list Raw.WeekdayInput)) : bool :=
  existsb (fun value => isSome (sanitizeWeekdayValue value)) (orEmpty values).

(** The three structural violations, on the values that survive the
    filters. *)
Definition untilBeforeDtstart (o : Raw.RRuleOptions) : Prop :=
  exists u d, Raw.until o = Some u /\ Raw.dtstart o = Some d
              /\ Calendar.compare u d < 0.

Definition countAndUntil (o : Raw.RRuleOptions) : Prop :=
  exists c u, Raw.count o = Some c /\ c <> 0 /\ Raw.until o = Some u.

Definition bySetPosAlone (o : Raw.RRuleOptions) : Prop :=
  hasKept (-366) 366 false (Raw.bysetpos o) = true
  /\ hasKept 1 12 false (Raw.bymonth o) = false
  /\ hasKept (-31) 31 false (Raw.bymonthday o) = false
  /\ hasKept (-366) 366 false (Raw.byyearday o) = false
  /\ hasKeptWeekday (Raw.byweekday o) = false
  /\ hasKept (-53) 53 false (Raw.byweekno o) = false
  /\ hasKept 0 23 true (Raw.byhour o) = false
  /\ hasKept 0 59 true (Raw.byminute o) = false
  /\ hasKept 0 59 true (Raw.bysecond o) = false.

Definition structuralViolation (o : Raw.RRuleOptions) : Prop :=
  untilBeforeDtstart o \/ countAndUntil o \/ bySetPosAlone o.

(** What the sanitizer leaves of a numeric selector: the values in range,
    each once. *)
Definition keptOf (min max : Z) (allowZero : bool)
  (given : option (list Z)) (result : option (list Z)) : Prop :=
  match given, result with
  | None, None => True
  | Some values, Some kept =>
      NoDup kept
      /\ forall v, In v kept <-> In v values /\ inRange min max allowZero v = true
  | _, _ => False
  end.

(** [BYSETPOS=1;BYMONTH=13]: the only other selector loses its one value. *)
Definition setposWithBadMonth : Raw.RRuleOptions :=
  Raw.mk (Some DAILY) (Some (CalendarDate 2025 1 1)) None None None None
         (Some [1]) (Some [13]) None None None None None None None.

(** [COUNT=0] together with UNTIL. *)
Definition countZeroWithUntil : Raw.RRuleOptions :=
  Raw.mk (Some DAILY) (Some (CalendarDate 2025 1 1)) None (Some 0)
         (Some (CalendarDate 2025 12 31)) None
         None None None None None None None None None.

Definition WeekdayValue_eqb (a b : WeekdayValue) : bool :=
  match a, b with
  | Bare x, Bare y => Weekday_eqb x y
  | Nth x n, Nth y m => Weekday_eqb x y && (n =? m)
  | _, _ => false
  end.

Definition optionWeekdayValue_eqb (a b : option WeekdayValue) : bool :=
  match a, b with
  | Some x, Some y => WeekdayValue_eqb x y
  | None, None => true
  | _, _ => false
  end.

(** What the sanitizer makes of a token with ordinal [n]. *)
Definition tokenVerdict (n : Z) (w : Weekday) : option WeekdayValue :=
  if (1 <=? Z.abs n) && (Z.abs n <=? 53) then Some (Nth w n) else None.

(** The check of one token, for the ordinals of at most two digits. *)
Definition tokenChecked (n : Z) : bool :=
  forallb (fun w =>
             forallb (fun plus =>
                        optionWeekdayValue_eqb
                          (sanitizeWeekdayValue (Raw.Token (ordinalToken plus n w)))
                          (tokenVerdict n w))
                     [true; false])
          WEEKDAYS.

(** What the sanitizer leaves of [byweekday]: the entries it can read,
    each once. *)
Definition keptWeekdaysOf (given : option (list Raw.WeekdayInput))
  (result : option (list WeekdayValue)) : Prop :=
  match given, result with
  | None, None => True
  | Some values, Some kept =>
      NoDup kept
      /\ forall v, In v kept <->
                   exists raw, In raw values /\ sanitizeWeekdayValue raw = Some v
  | _, _ => False
  end.

(* ===================================================================== *)
(** * Rules in the form the RRULE line can carry *)
(* ===================================================================== *)

(** A date value the RRULE line can carry: fields in range, no
    milliseconds, and a zoned value in UTC. *)
Definition carriedDate (u : DateValue) : bool :=
  let dateOk :=
    (1 <=? Calendar.year u) && (Calendar.year u <=? 9999)
    && (1 <=? Calendar.month u) && (Calendar.month u <=? 12)
    && (1 <=? Calendar.day u)
    && (Calendar.day u <=? Calendar.daysInMonthOf (Calendar.year u) (Calendar.month u)) in
  let timeOk h mi s ms :=
    (0 <=? h) && (h <=? 23) && (0 <=? mi) && (mi <=? 59)
    && (0 <=? s) && (s <=? 59) && (ms =? 0) in
  match u with
  | CalendarDate _ _ _ => dateOk
  | CalendarDateTime _ _ _ h mi s ms => dateOk && timeOk h mi s ms
  | ZonedDateTime _ _ _ h mi s ms timeZone offset =>
      dateOk && timeOk h mi s ms && String.eqb timeZone "UTC" && (offset =? 0)
  end.




(** A rule with most parts present, as the caller gives it. *)
Definition busyRule : Raw.RRuleOptions :=
  Raw.mk (Some MONTHLY) None (Some 2) None
         (Some (ZonedDateTime 2026 12 31 23 59 59 0 "UTC" 0)) (Some (str "su"))
         (Some [1; -1]) (Some [1; 6; 12]) (Some [-1; 15]) None
         (Some [Raw.Token (str "MO"); Raw.Token (str "+2tu"); Raw.Rec FR (-1)])
         None (Some [0; 23]) (Some [30]) None.

(** The characters the formatter writes in keys and values: upper-case
    letters, digits, the minus sign and the comma. *)
Definition plainChar (c : ascii) : bool :=
  isUpper c || isDigit c || Ascii.eqb c "-" || Ascii.eqb c ",".

(** The characters of one item of a list value: no comma. *)
Definition itemChar (c : ascii) : bool :=
  isUpper c || isDigit c || Ascii.eqb c "-".

Definition noChar (sep : ascii) (s : text) : bool :=
  forallb (fun c => negb (Ascii.eqb c sep)) s.

Definition noWhite (s : text) : bool := forallb (fun c => negb (isWhite c)) s.

(** The check of one zero-padded field: the width, the digits, and the
    number read back. *)
Definition padChecked (width : nat) (v : Z) : bool :=
  let s := padZero v width in
  Nat.eqb (List.length s) width && forallb isDigit s
  && match parseInteger s with Some x => x =? v | None => false end.

(** The record the sanitizer builds. *)
Definition sanitizedRecord (o : Raw.RRuleOptions) : ParsedRRuleOptions :=
  mkOptions
    (sanitizeFrequency (Raw.freq o))
    (Raw.dtstart o)
    (sanitizeNumber (Raw.interval o) 1)
    (sanitizeNumber (Raw.count o) 1)
    (Raw.until o)
    (sanitizeWeekday (Raw.wkst o))
    (sanitizeNumberArray (Raw.bysetpos o) (-366) 366 false)
    (sanitizeNumberArray (Raw.bymonth o) 1 12 false)
    (sanitizeNumberArray (Raw.bymonthday o) (-31) 31 false)
    (sanitizeNumberArray (Raw.byyearday o) (-366) 366 false)
    (sanitizeWeekdayValueArray (Raw.byweekday o))
    (sanitizeNumberArray (Raw.byweekno o) (-53) 53 false)
    (sanitizeNumberArray (Raw.byhour o) 0 23 true)
    (sanitizeNumberArray (Raw.byminute o) 0 59 true)
    (sanitizeNumberArray (Raw.bysecond o) 0 59 true).



(** What the sanitizer guarantees about a weekday term. *)
Definition termInRange (v : WeekdayValue) : Prop :=
  match v with Bare _ => True | Nth _ n => -53 <= n <= 53 end.

(** What the sanitizer guarantees about a numeric selector. *)
Definition keptList (min max : Z) (excludeZero : bool) (l : option (list Z)) : Prop :=
  match l with
  | Some values =>
      NoDup values
      /\ forall v, In v values -> inRange min max (negb excludeZero) v = true
  | None => True
  end.

(** The inputs of the rules above, as a caller gives them. *)
Definition rawRule (f : Frequency) (start : DateValue) (n : option Z)
  (setpos months monthdays : option (list Z))
  (days : option (list Raw.WeekdayInput)) (hours : option (list Z))
  : Raw.RRuleOptions :=
  Raw.mk (Some f) (Some start) None n None None
         setpos months monthdays None days None hours None None.






(** A host all of whose zones are [offset] milliseconds from UTC. *)
Definition fixedOffsetHost (offset : Z) (d : DateValue) (zone : text) : DateValue :=
  match d with
  | CalendarDateTime y m dd h mi s ms =>
      ZonedDateTime y m dd h mi s ms (string_of_list_ascii zone) offset
  | _ => d
  end.











(** A DTSTART in UTC. *)
Definition utcStart : DateValue := ZonedDateTime 2025 1 31 9 0 0 0 "UTC" 0.

(** [busyRule] with a DTSTART. *)
Definition busyRuleFrom (d : DateValue) : Raw.RRuleOptions :=
  Raw.mk (Raw.freq busyRule) (Some d) (Raw.interval busyRule) (Raw.count busyRule)
         (Raw.until busyRule) (Raw.wkst busyRule) (Raw.bysetpos busyRule)
         (Raw.bymonth busyRule) (Raw.bymonthday busyRule) (Raw.byyearday busyRule)
         (Raw.byweekday busyRule) (Raw.byweekno busyRule) (Raw.byhour busyRule)
         (Raw.byminute busyRule) (Raw.bysecond busyRule).


(* ===================================================================== *)
(** * rrule.ts: the other queries *)
(* ===================================================================== *)

(** The loop of [before] over the generator: collect until an occurrence
    is after [date] (or equal to it unless [inclusive]), up to [limit]. *)
Fixpoint beforeLoop (date : DateValue) (inclusive : bool) (limit : option Z)
  (out : Outcome) (ys : list DateValue) (len : Z) : Result (list DateValue) :=
  match ys with
  | [] => atEnd out []
  | current :: rest =>
      let cmp := Calendar.compare current date in
      if 0 <? cmp then Ok []
      else if (cmp =? 0) && negb inclusive then Ok []
      else if reached limit (len + 1) then Ok [current]
      else r <- beforeLoop date inclusive limit out rest (len + 1) ;; Ok (current :: r)
  end.

Definition before (r : RRule) (date : DateValue) (inclusive : bool)
  (limit : option Z) : Result (list DateValue) :=
  let t := generateDates (_options r) (_maxIterations r) None in
  beforeLoop date inclusive limit (outcome t) (yields t) 0.

(** The loop of [between]. *)
Fixpoint betweenLoop (start end_ : DateValue) (inclusive : bool)
  (out : Outcome) (ys : list DateValue) : Result (list DateValue) :=
  match ys with
  | [] => atEnd out []
  | date :: rest =>
      let cmpStart := Calendar.compare date start in
      let cmpEnd := Calendar.compare date end_ in
      if (cmpStart <? 0) || (negb inclusive && (cmpStart =? 0))
      then betweenLoop start end_ inclusive out rest
      else if (0 <? cmpEnd) || (negb inclusive && (cmpEnd =? 0)) then Ok []
      else r <- betweenLoop start end_ inclusive out rest ;; Ok (date :: r)
  end.

Definition between (r : RRule) (start end_ : DateValue) (inclusive : bool)
  : Result (list DateValue) :=
  let t := generateDates (_options r) (_maxIterations r) None in
  betweenLoop start end_ inclusive (outcome t) (yields t).

(** The loop of [previous]; [result] is the last occurrence seen. *)
Fixpoint previousLoop (date : DateValue) (inclusive : bool) (out : Outcome)
  (ys : list DateValue) (result : option DateValue) : Result (option DateValue) :=
  match ys with
  | [] => atEnd out result
  | current :: rest =>
      let cmp := Calendar.compare current date in
      if 0 <? cmp then Ok result
      else if (cmp =? 0) && negb inclusive then Ok result
      else previousLoop date inclusive out rest (Some current)
  end.

Definition previous (r : RRule) (date : DateValue) (inclusive : bool)
  : Result (option DateValue) :=
  let t := generateDates (_options r) (_maxIterations r) None in
  previousLoop date inclusive (outcome t) (yields t) None.

(** The occurrence [current] is past [date] for [before] and [previous]. *)
Definition pastDate (date : DateValue) (inclusive : bool) (current : DateValue) : bool :=
  let cmp := Calendar.compare current date in
  (0 <? cmp) || ((cmp =? 0) && negb inclusive).

(** The occurrence [current] is not yet at [date] for [after] and [next]. *)
Definition shortOfDate (date : DateValue) (inclusive : bool) (current : DateValue) : bool :=
  let cmp := Calendar.compare current date in
  (cmp <? 0) || ((cmp =? 0) && negb inclusive).

(** The last element of a list, if any. *)
Definition lastOf {A} (l : list A) : option A :=
  match rev l with x :: _ => Some x | [] => None end.

(** The sub-lists of a list, in its order. *)
Inductive Sublist {A} : list A -> list A -> Prop :=
| sub_nil : forall l, Sublist [] l
| sub_keep : forall x s l, Sublist s l -> Sublist (x :: s) (x :: l)
| sub_skip : forall x s l, Sublist s l -> Sublist s (x :: l).

(* ===================================================================== *)
(** * Sanitized options given back to the sanitizer *)
(* ===================================================================== *)

(** A [WeekdayValue] where a caller's [byweekday] entry is expected: the
    bare constant is its string, the record is the record. *)
Definition asWeekdayInput (v : WeekdayValue) : Raw.WeekdayInput :=
  match v with
  | Bare w => Raw.Token (weekdayText w)
  | Nth weekday n => Raw.Rec weekday n
  end.

(** [ParsedRRuleOptions] where [RRuleOptions] is expected: every key is
    passed on as it is. *)
Definition asOptions (R : ParsedRRuleOptions) : Raw.RRuleOptions :=
  Raw.mk (Some (freq R)) (dtstart R) (interval R) (count R) (until R)
         (option_map weekdayText (wkst R))
         (bysetpos R) (bymonth R) (bymonthday R) (byyearday R)
         (option_map (map asWeekdayInput) (byweekday R))
         (byweekno R) (byhour R) (byminute R) (bysecond R).

(** [clone()] without overrides: [new RRule({ ...this.toObject() })].  The
    new rule is built by the constructor, which leaves [_maxIterations]
    unset. *)
Definition clone (r : RRule) : Result RRule :=
  options <- sanitizeRRuleOptions (asOptions (_options r)) ;;
  Ok (mkRRule options None).

(** [RRule.fromString(icsString, strict)]. *)
Definition fromString (toZoned : DateValue -> text -> DateValue)
  (icsString : text) (strict : bool) : Result RRule :=
  options <- parseICS toZoned icsString strict ;;
  options <- sanitizeRRuleOptions (asOptions options) ;;
  Ok (mkRRule options None).

(** [toString()]. *)
Definition toString (r : RRule) : Result text := formatICS (_options r).

(** The ranges every selector of a rule is kept in, by the sanitizer and
    by the parser alike. *)
Definition selectorsInRange (R : ParsedRRuleOptions) : Prop :=
  (forall i, interval R = Some i -> 1 <= i)
  /\ (forall c, count R = Some c -> 1 <= c)
  /\ keptList (-366) 366 true (bysetpos R)
  /\ keptList 1 12 true (bymonth R)
  /\ keptList (-31) 31 true (bymonthday R)
  /\ keptList (-366) 366 true (byyearday R)
  /\ keptList (-53) 53 true (byweekno R)
  /\ keptList 0 23 false (byhour R)
  /\ keptList 0 59 false (byminute R)
  /\ keptList 0 59 false (bysecond R)
  /\ match byweekday R with
     | Some days => NoDup days /\ forall v, In v days -> termInRange v
     | None => True
     end.

(** A rule with its selectors in range and not both COUNT and UNTIL. *)
Definition wellFormed (R : ParsedRRuleOptions) : Prop :=
  selectorsInRange R /\ isSome (count R) && isSome (until R) = false.

(** No weekday term has the ordinal 53 or -53. *)
Definition ordinalsBelow53 (R : ParsedRRuleOptions) : bool :=
  forallb (fun v => match v with
                    | Bare _ => true
                    | Nth _ n => (-53 <? n) && (n <? 53)
                    end)
          (orEmpty (byweekday R)).

(** UNTIL is before DTSTART. *)
Definition untilPrecedes (R : ParsedRRuleOptions) : bool :=
  match until R, dtstart R with
  | Some u, Some d => Calendar.compare u d <? 0
  | _, _ => false
  end.

(** What the sanitizer makes of options whose selectors are in range:
    the three cross-field checks, in its order. *)
Definition crossChecked (R : ParsedRRuleOptions) : Result ParsedRRuleOptions :=
  if untilPrecedes R then Err UntilBeforeDtstart
  else if isSome (count R) && isSome (until R) then Err CountUntilExclusive
  else if validateBySetPos R then Ok R
  else Err BySetPosAlone.

(** What the loop of [parseRRule] keeps true of the options it fills. *)
Definition parsedSoFar (o : ParsedRRuleOptions) : Prop :=
  selectorsInRange o
  /\ dtstart o = None
  /\ forall days v, byweekday o = Some days -> In v days ->
       match v with Bare _ => True | Nth _ n => n <> 0 end.

(* ===================================================================== *)
(** * utils.ts: the other helpers *)
(* ===================================================================== *)

(** [[...value].sort((a, b) => a - b)] *)
Definition sortNumbers (value : list Z) : list Z :=
  sortWith (fun a b => a - b) value.

(** [Array.prototype.findIndex]; [None] is [-1]. *)
Fixpoint findIndex {A} (p : A -> bool) (l : list A) : option nat :=
  match l with
  | [] => None
  | x :: r => if p x then Some O else option_map S (findIndex p r)
  end.

(** [Array.prototype.filter] with the index passed to the callback. *)
Fixpoint filterWithIndex {A} (f : A -> nat -> bool) (index : nat) (l : list A)
  : list A :=
  match l with
  | [] => []
  | x :: r =>
      if f x index then x :: filterWithIndex f (S index) r
      else filterWithIndex f (S index) r
  end.

(** [uniqueWeekdayValues] as the source writes it: an entry is kept when
    the first entry equal to it is the entry itself. *)
Definition uniqueWeekdayValuesByIndex (values : list WeekdayValue)
  : list WeekdayValue :=
  filterWithIndex
    (fun value index =>
       match findIndex (fun v => WeekdayValue_same value v) values with
       | Some first => Nat.eqb first index
       | None => false
       end)
    O values.

(** The test of [splitOnce] for its separator. *)
Definition notSeparator (separator : ascii) (c : ascii) : bool :=
  negb (Ascii.eqb c separator).


(* ===================================================================== *)
(** * rrule.ts: the setters *)
(* ===================================================================== *)

Definition set_interval (r : RRule) (value : option Z) : RRule :=
  mkRRule (withInterval (_options r) (sanitizeNumber value 1)) (_maxIterations r).

Definition set_count (r : RRule) (value : option Z) : Result RRule :=
  if isSome value && isSome (until (_options r)) then Err CountUntilExclusive
  else Ok (mkRRule (withCount (_options r) (sanitizeNumber value 1))
                   (_maxIterations r)).

Definition set_until (r : RRule) (value : option DateValue) : Result RRule :=
  if isSome value && isSome (count (_options r)) then Err CountUntilExclusive
  else
    until <- sanitizeUntilDate value (dtstart (_options r)) ;;
    Ok (mkRRule (withUntil (_options r) until) (_maxIterations r)).



(** The occurrence [current] is one that [after] collects. *)
Definition atOrAfter (date : DateValue) (inclusive : bool) (current : DateValue) : Prop :=
  0 <= Calendar.compare current date
  /\ (inclusive = false -> 0 < Calendar.compare current date).


(** [INTERVAL=-3;COUNT=-2], as the caller gives it. *)
Definition negativeInterval : Raw.RRuleOptions :=
  Raw.mk (Some DAILY) (Some (CalendarDate 2025 1 1)) (Some (-3)) (Some (-2)) None None
         None None None None None None None None None.

(** What [sanitizeNumber(value, 1)] makes of a number. *)
Definition clampedFrom1 (v : Z) : option Z :=
  if v =? 0 then None else Some (Z.max 1 v).

Lemma Weekday_eqb_eq (a b : Weekday) : Weekday_eqb a b = true <-> a = b.
Proof. destruct a, b; simpl; split; intro H; congruence. Qed.

Lemma Weekday_eqb_refl (a : Weekday) : Weekday_eqb a a = true.
Proof. now destruct a. Qed.

(* ===================================================================== *)
(** * Checks of the calendar model *)
(* ===================================================================== *)

Example add_month_constrains :
  addDuration (CalendarDate 2025 1 31) (Calendar.ofMonths 1) = CalendarDate 2025 2 28.
Proof. reflexivity. Qed.

Example weekday_2025_01_01 : getWeekday (CalendarDate 2025 1 1) = WE.
Proof. reflexivity. Qed.

Example add_days_over_year :
  addDuration (CalendarDate 2024 12 30) (Calendar.ofDays 3) = CalendarDate 2025 1 2.
Proof. reflexivity. Qed.

Example start_of_week_su :
  getStartOfWeek (CalendarDateTime 1997 9 2 9 0 0 0) (Some SU)
  = CalendarDateTime 1997 8 31 9 0 0 0.
Proof. reflexivity. Qed.


(* ===================================================================== *)
(** * The safety bound of the generator *)
(* ===================================================================== *)

Section SafetyBound.

Variable options : ParsedRRuleOptions.
Variable maxIterations : Z.
Variable start : DateValue.
Variable step : Z.

Local Abbreviation loop fuel :=
  (generateLoop fuel options maxIterations start step).

(** With enough fuel the model of the loop always ends, and it ends in
    the iteration error exactly when the cursor has been advanced more
    often than the maximum allows. *)
Lemma generateLoop_cap (fuel : nat) :
  forall cursor emitted iterations empties,
    (1 <= fuel)%nat ->
    maxIterations + 2 <= iterations + Z.of_nat fuel ->
    let t := loop fuel cursor emitted iterations empties in
    outcome t <> Running
    /\ (outcome t = Threw (MaxIterationsExceeded maxIterations)
        <-> maxIterations < advances t)
    /\ (forall e, outcome t = Threw e -> e = MaxIterationsExceeded maxIterations).
Proof.
  induction fuel as [|fuel IH]; intros cursor emitted iterations empties Hf Hb.
  - lia.
  - cbn [generateLoop].
    destruct (maxIterations <? iterations) eqn:Hcap.
    + apply Z.ltb_lt in Hcap. cbn. repeat split; try congruence; try lia.
    + apply Z.ltb_ge in Hcap.
      destruct (emitPeriod _ _ _ _ _ _) as [[[ys e] y] r].
      destruct r.
      * cbn. repeat split; try congruence; try lia.
      * destruct (negb y && (1000 <=? (if y then 0 else empties + 1)) && (e =? 0)).
        -- cbn. repeat split; try congruence; try lia.
        -- cbn [outcome advances]. apply IH; lia.
Qed.

End SafetyBound.

(** The model never runs out of fuel: every generator, pulled to its end,
    returns or throws. *)
Lemma generateDates_finishes options maxIterations target :
  outcome (generateDates options maxIterations target) <> Running.
Proof.
  unfold generateDates.
  destruct (dtstart options) as [d|]; [|cbn; discriminate].
  destruct (_ =? 0); [cbn; discriminate|].
  destruct (match until options with Some _ => _ | None => _ end);
    [cbn; discriminate|].
  apply generateLoop_cap; lia.
Qed.

(** The last item a period yields, if it yields nothing, leaves the
    counters as they were. *)
Lemma emitPeriod_nothing start untilDate countLimit filtered emitted yielded :
  forall e y r,
    emitPeriod start untilDate countLimit filtered emitted yielded = ([], e, y, r) ->
    e = emitted /\ y = yielded.
Proof.
  induction filtered as [|date rest IH]; intros e y r; cbn [emitPeriod].
  - intros H; inversion H; auto.
  - destruct (compareDates date start <? 0); [apply IH|].
    destruct (match untilDate with Some u => _ | None => false end).
    + intros H; inversion H; auto.
    + destruct (match countLimit with Some c => _ | None => false end).
      * discriminate.
      * destruct (emitPeriod _ _ _ rest (emitted + 1) true) as [[[ys e'] y'] r'].
        discriminate.
  Qed.

Lemma emptyPeriods_stop options maxIterations start step (n : nat) :
  forall fuel cursor iterations empties,
    (n <= fuel)%nat -> (1 <= n)%nat ->
    iterations + Z.of_nat n - 1 <= maxIterations ->
    1000 <= empties + Z.of_nat n ->
    emptyPeriods n options start step cursor = true ->
    let t := generateLoop fuel options maxIterations start step
               cursor 0 iterations empties in
    yields t = [] /\ outcome t = Returned.
Proof.
  induction n as [|n IH]; intros fuel cursor iterations empties Hf Hn Hm He Hp.
  - lia.
  - destruct fuel as [|fuel]; [lia|].
    cbn [emptyPeriods] in Hp. apply andb_true_iff in Hp as [Hnow Hlater].
    cbn [generateLoop].
    assert (Hcap : (maxIterations <? iterations) = false) by (apply Z.ltb_ge; lia).
    rewrite Hcap.
    unfold emitsNothing, periodDates in Hnow.
    destruct (emitPeriod _ _ _ _ _ _) as [[[ys e] y] r] eqn:Hemit.
    destruct ys; [|discriminate].
    apply emitPeriod_nothing in Hemit as [-> ->].
    destruct r; [cbn; auto|].
    cbn [negb andb].
    destruct (1000 <=? empties + 1) eqn:Hd; cbn [andb Z.eqb]; [cbn; auto|].
    apply Z.leb_gt in Hd.
    cbn [yields outcome app].
    apply IH; try lia. exact Hlater.
Qed.

(** A rule that goes through the periods the cap leaves it, without
    returning in any, has its generator raise at the top of the next
    iteration. *)
Lemma generateLoop_raises options maxIterations start step (n : nat) :
  forall fuel cursor emitted iterations empties ys,
    (n < fuel)%nat ->
    iterations + Z.of_nat n = maxIterations + 1 ->
    uncappedRun n options start step cursor emitted empties = Some ys ->
    generateLoop fuel options maxIterations start step cursor emitted iterations empties
    = mkTrace ys (Threw (MaxIterationsExceeded maxIterations)) (maxIterations + 1).
Proof.
  induction n as [|n IH]; intros fuel cursor emitted iterations empties ys Hf Hi Hrun.
  - destruct fuel as [|fuel]; [lia|]. cbn in Hrun. inversion Hrun; subst.
    cbn [generateLoop].
    assert (Hcap : (maxIterations <? iterations) = true) by (apply Z.ltb_lt; lia).
    rewrite Hcap. f_equal. lia.
  - destruct fuel as [|fuel]; [lia|]. cbn [uncappedRun] in Hrun.
    cbn [generateLoop].
    assert (Hcap : (maxIterations <? iterations) = false) by (apply Z.ltb_ge; lia).
    rewrite Hcap.
    unfold periodStep, periodDates in Hrun.
    destruct (emitPeriod _ _ _ _ _ _) as [[[ys1 e] y] r].
    destruct r; [discriminate|].
    destruct (negb y && (1000 <=? (if y then 0 else empties + 1)) && (e =? 0));
      [discriminate|].
    destruct (uncappedRun n _ _ _ _ _ _) as [rest|] eqn:Hrest; [|discriminate].
    inversion Hrun; subst.
    rewrite (IH fuel _ _ _ _ rest); [reflexivity | lia | lia | exact Hrest].
Qed.

(** A rule that returns in one of the periods the cap leaves it never
    has its generator raise. *)
Lemma generateLoop_returns options maxIterations start step (n : nat) :
  forall fuel cursor emitted iterations empties,
    (n <= fuel)%nat ->
    iterations + Z.of_nat n <= maxIterations + 1 ->
    uncappedRun n options start step cursor emitted empties = None ->
    let t := generateLoop fuel options maxIterations start step
               cursor emitted iterations empties in
    outcome t = Returned /\ advances t <= maxIterations.
Proof.
  induction n as [|n IH]; intros fuel cursor emitted iterations empties Hf Hi Hrun.
  - discriminate.
  - destruct fuel as [|fuel]; [lia|]. cbn [uncappedRun] in Hrun.
    cbn [generateLoop].
    assert (Hcap : (maxIterations <? iterations) = false) by (apply Z.ltb_ge; lia).
    rewrite Hcap.
    unfold periodStep, periodDates in Hrun.
    destruct (emitPeriod _ _ _ _ _ _) as [[[ys1 e] y] r].
    destruct r; [cbn; split; [reflexivity|lia]|].
    destruct (negb y && (1000 <=? (if y then 0 else empties + 1)) && (e =? 0));
      [cbn; split; [reflexivity|lia]|].
    destruct (uncappedRun n _ _ _ _ _ _) as [rest|] eqn:Hrest; [discriminate|].
    cbn [outcome advances]. apply IH; [lia | lia | exact Hrest].
Qed.

Lemma allLoop_unlimited out ys count :
  allLoop None out ys count
  = match out with
    | Returned => Ok ys
    | Threw e => Err e
    | Running => Err OutOfFuel
    end.
Proof.
  revert count; induction ys as [|d ys IH]; intros count; cbn.
  - now destruct out.
  - rewrite IH. now destruct out.
Qed.

(** C7.  Take a rule whose generator runs its loop, and a consumer that
    keeps pulling.  If the rule goes through the first [maximum + 1]
    periods without returning in any of them (the cursor is then advanced
    [maximum + 1] times, one more than the configured maximum, which is
    10,000 when there is no override), the generator yields the dates of
    these periods and then raises the iteration error, and this is what a
    consumer that pulls without a limit receives; if it returns in one of
    them, it never raises.  With a maximum below 0, which the setter does
    not let through, it raises at once.  The setter of [maxIterations]
    rejects every value below 1 and stores every value from 1 on. *)
Theorem max_iterations_cap :
  forall (options : ParsedRRuleOptions) (configured : option Z)
         (target : option DateValue) (start : DateValue),
    entersLoop options start ->
    let maximum := effectiveMax configured in
    let run tg :=
      uncappedRun (Z.to_nat (maximum + 1)) options start (effectiveInterval options)
        (firstCursor options start (effectiveInterval options) tg) 0 0 in
    effectiveMax None = 10000
    /\ (0 <= maximum ->
        forall ys, run target = Some ys ->
          generateDates options configured target
          = mkTrace ys (Threw (MaxIterationsExceeded maximum)) (maximum + 1))
    /\ (0 <= maximum ->
        forall ys, run None = Some ys ->
          all (mkRRule options configured) None
          = Err (MaxIterationsExceeded maximum))
    /\ (0 <= maximum ->
        run target = None ->
        outcome (generateDates options configured target) = Returned
        /\ advances (generateDates options configured target) <= maximum)
    /\ (maximum < 0 ->
        generateDates options configured target
        = mkTrace [] (Threw (MaxIterationsExceeded maximum)) 0)
    /\ (forall r value, value < 1 ->
          set_maxIterations r (Some value) = Err MaxIterationsTooSmall)
    /\ (forall r value, 1 <= value ->
          set_maxIterations r (Some value) = Ok (mkRRule (_options r) (Some value))).
Proof.
  intros options configured target start (Hs & Hstep & Huntil) maximum run.
  assert (Hgen : forall tg,
             generateDates options configured tg
             = generateLoop (S (S (Z.to_nat maximum))) options maximum start
                 (effectiveInterval options)
                 (firstCursor options start (effectiveInterval options) tg) 0 0 0).
  { intros tg. unfold generateDates. fold (effectiveMax configured). fold maximum.
    rewrite Hs. fold (effectiveInterval options).
    apply Z.eqb_neq in Hstep. rewrite Hstep, Huntil. reflexivity. }
  assert (Hraise : 0 <= maximum -> forall tg ys, run tg = Some ys ->
             generateDates options configured tg
             = mkTrace ys (Threw (MaxIterationsExceeded maximum)) (maximum + 1)).
  { intros Hmax tg ys Hrun. rewrite Hgen.
    apply (generateLoop_raises options maximum start (effectiveInterval options)
             (Z.to_nat (maximum + 1))); [lia | lia | exact Hrun]. }
  split; [reflexivity|].
  split; [intros Hmax; now apply Hraise|].
  split.
  { intros Hmax ys Hrun. unfold all. cbn [_options _maxIterations].
    rewrite (Hraise Hmax None ys Hrun). cbn [outcome yields].
    now rewrite allLoop_unlimited. }
  split.
  { intros Hmax Hrun. rewrite Hgen.
    apply (generateLoop_returns options maximum start (effectiveInterval options)
             (Z.to_nat (maximum + 1))); [lia | lia | exact Hrun]. }
  split.
  { intros Hneg. rewrite Hgen. cbn [generateLoop].
    assert (Hcap : (maximum <? 0) = true) by now apply Z.ltb_lt.
    now rewrite Hcap. }
  split; intros r value Hv; unfold set_maxIterations.
  - apply Z.ltb_lt in Hv. now rewrite Hv.
  - apply Z.ltb_ge in Hv. now rewrite Hv.
Qed.

(** A daily rule without COUNT or UNTIL and a maximum of 10: eleven days
    are yielded, then the generator raises. *)
Lemma max_iterations_cap_witness :
  let daily := plainRule DAILY (CalendarDate 2025 1 1) in
  exists ys,
    List.length ys = 11%nat
    /\ generateDates daily (Some 10) None
       = mkTrace ys (Threw (MaxIterationsExceeded 10)) 11
    /\ all (mkRRule daily (Some 10)) None = Err (MaxIterationsExceeded 10).
Proof.
  intro daily.
  destruct (max_iterations_cap daily (Some 10) None (CalendarDate 2025 1 1))
    as (_ & Hraise & Hall & _).
  - split; [reflexivity | split; [vm_compute; discriminate | reflexivity]].
  - assert (Hmax : 0 <= effectiveMax (Some 10)) by (vm_compute; discriminate).
    eexists. split; [|split].
    + shelve.
    + apply (Hraise Hmax). vm_compute. reflexivity.
    + eapply (Hall Hmax). vm_compute. reflexivity.
    Unshelve. reflexivity.
Defined.

(** The test of the repository: a daily rule without COUNT or UNTIL and a
    maximum of 10 yields eleven days and then raises. *)
Example daily_unbounded_max_10 :
  let r := mkRRule (plainRule DAILY (CalendarDate 2025 1 1)) (Some 10) in
  let t := generateDates (_options r) (_maxIterations r) None in
  List.length (yields t) = 11%nat
  /\ outcome t = Threw (MaxIterationsExceeded 10)
  /\ advances t = 11
  /\ all r None = Err (MaxIterationsExceeded 10)
  /\ all r (Some 5) = Ok [CalendarDate 2025 1 1; CalendarDate 2025 1 2;
                          CalendarDate 2025 1 3; CalendarDate 2025 1 4;
                          CalendarDate 2025 1 5].
Proof. vm_compute. repeat split. Qed.

(** C10.  Once the setter of [dtstart] has moved the start past [until]
    (the setter is a plain assignment), the generator yields nothing and
    returns, whatever the seek target and the maximum; a consumer gets the
    empty list. *)
Theorem until_before_dtstart_is_empty :
  forall (r : RRule) (value u : DateValue) (target : option DateValue)
         (limit : option Z),
    until (_options r) = Some u ->
    compareDates u value < 0 ->
    let r' := set_dtstart r (Some value) in
    dtstart (_options r') = Some value
    /\ until (_options r') = Some u
    /\ generateDates (_options r') (_maxIterations r') target = mkTrace [] Returned 0
    /\ all r' limit = Ok [].
Proof.
  intros r value u target limit Hu Hlt r'.
  assert (Hgen : forall tg,
             generateDates (_options r') (_maxIterations r') tg = mkTrace [] Returned 0).
  { intros tg. unfold generateDates. cbn [r' set_dtstart _options withDtstart dtstart interval until].
    rewrite Hu. apply Z.ltb_lt in Hlt. rewrite Hlt.
    now destruct (_ =? 0). }
  repeat split; try assumption; try apply Hgen.
  unfold all. now rewrite Hgen.
Qed.

Lemma until_before_dtstart_is_empty_witness :
  let r := mkRRule (mkOptions DAILY (Some (CalendarDate 2025 1 1)) None None
                      (Some (CalendarDate 2025 6 1)) None
                      None None None None None None None None None) None in
  let r' := set_dtstart r (Some (CalendarDate 2025 12 1)) in
  generateDates (_options r') (_maxIterations r') None = mkTrace [] Returned 0
  /\ all r' None = Ok [].
Proof.
  intros r r'.
  destruct (until_before_dtstart_is_empty r (CalendarDate 2025 12 1)
              (CalendarDate 2025 6 1) None None) as (_ & _ & Hg & Ha).
  - reflexivity.
  - vm_compute. reflexivity.
  - split; assumption.
Defined.

(** A shared step: when the first thousand periods yield nothing and the
    maximum lets the generator reach the thousandth, it returns with
    nothing yielded. *)
Lemma detector_returns options configured target start :
  dtstart options = Some start ->
  999 <= effectiveMax configured ->
  emptyPeriods 1000 options start (effectiveInterval options)
    (firstCursor options start (effectiveInterval options) target) = true ->
  let t := generateDates options configured target in
  yields t = [] /\ outcome t = Returned.
Proof.
  intros Hs Hmax Hempty.
  unfold generateDates. fold (effectiveMax configured). rewrite Hs.
  fold (effectiveInterval options).
  destruct (_ =? 0); [cbn; auto|].
  destruct (match until options with Some _ => _ | None => _ end); [cbn; auto|].
  fold (firstCursor options start (effectiveInterval options) target).
  apply (emptyPeriods_stop options (effectiveMax configured) start
           (effectiveInterval options) 1000); try lia; try assumption.
Qed.

(** No April has a 31st: every period of the rule is empty. *)
Lemma april31_expands_to_nothing start step cursor :
  expandMonthly cursor (april31 start step) = [].
Proof.
  unfold expandMonthly, april31; cbn [bymonth bymonthday byweekday orEmpty nonEmpty
                                      negb andb includes existsb orb].
  destruct (Calendar.month cursor =? 4) eqn:Hm; cbn [negb]; [|reflexivity].
  apply Z.eqb_eq in Hm.
  assert (Hd : getDaysInMonth cursor = 30).
  { unfold getDaysInMonth, Calendar.getDaysInMonth, Calendar.daysInMonthOf.
    rewrite Hm. now destruct (Calendar.isLeapYear _). }
  rewrite Hd. reflexivity.
Qed.

Lemma april31_emptyPeriods start step s (n : nat) :
  forall cursor, emptyPeriods n (april31 start step) start s cursor = true.
Proof.
  induction n as [|n IH]; intros cursor; cbn [emptyPeriods]; [reflexivity|].
  rewrite IH, andb_true_r.
  unfold emitsNothing, periodDates.
  change (freq (april31 start step)) with MONTHLY.
  cbn [getFrequencyExpander]. rewrite april31_expands_to_nothing.
  reflexivity.
Qed.

(** The example of the claim: [MONTHLY;BYMONTHDAY=31;BYMONTH=4], from any
    start and with any interval, yields nothing and returns, as long as
    the maximum is at least 999. *)
Lemma april31_is_empty start step configured target :
  999 <= effectiveMax configured ->
  let t := generateDates (april31 start step) configured target in
  yields t = [] /\ outcome t = Returned.
Proof.
  intros Hmax.
  apply (detector_returns (april31 start step) configured target start);
    [reflexivity | assumption | apply april31_emptyPeriods].
Qed.

(** With a maximum below 999 the example rule, whose periods all yield
    nothing, has the cap come before the thousandth empty period. *)
Lemma april31_raises start step maximum (fuel : nat) :
  forall cursor iterations empties,
    (1 <= fuel)%nat ->
    maximum + 2 <= iterations + Z.of_nat fuel ->
    maximum < iterations \/ empties + (maximum + 1 - iterations) < 1000 ->
    let t := generateLoop fuel (april31 start step) maximum start
               (effectiveInterval (april31 start step)) cursor 0 iterations empties in
    yields t = [] /\ outcome t = Threw (MaxIterationsExceeded maximum).
Proof.
  induction fuel as [|fuel IH]; intros cursor iterations empties Hf Hb Hinv; [lia|].
  cbn [generateLoop].
  destruct (maximum <? iterations) eqn:Hcap; [cbn; auto|].
  apply Z.ltb_ge in Hcap.
  change (freq (april31 start step)) with MONTHLY.
  cbn [getFrequencyExpander]. rewrite april31_expands_to_nothing.
  cbn [flat_map]. change (bysetpos (april31 start step)) with (@None (list Z)).
  cbn [applyBySetPos orEmpty nonEmpty negb emitPeriod andb].
  assert (Hd : (1000 <=? empties + 1) = false) by (apply Z.leb_gt; lia).
  rewrite Hd. cbn [andb yields outcome app].
  apply IH; lia.
Qed.

(** C8, as amended.  If the first 1,000 periods of a rule each yield
    nothing and the configured maximum is at least 999 (as the default
    10,000 is), the generator returns normally with nothing yielded; so
    does the example rule [MONTHLY;BYMONTHDAY=31;BYMONTH=4], from any
    start.  With a maximum below 999 the example rule, stepping by an
    interval that is not 0, raises the iteration error instead. *)
Theorem empty_period_detector :
  forall (configured : option Z) (target : option DateValue),
    (forall (options : ParsedRRuleOptions) (start : DateValue),
        dtstart options = Some start ->
        999 <= effectiveMax configured ->
        emptyPeriods 1000 options start (effectiveInterval options)
          (firstCursor options start (effectiveInterval options) target) = true ->
        let t := generateDates options configured target in
        yields t = [] /\ outcome t = Returned)
    /\ (forall (start : DateValue) (step : option Z),
          999 <= effectiveMax configured ->
          let t := generateDates (april31 start step) configured target in
          yields t = [] /\ outcome t = Returned)
    /\ (forall (start : DateValue) (step : option Z),
          step <> Some 0 ->
          effectiveMax configured < 999 ->
          let t := generateDates (april31 start step) configured target in
          yields t = []
          /\ outcome t = Threw (MaxIterationsExceeded (effectiveMax configured))).
Proof.
  intros configured target. split; [|split].
  - intros options start Hs Hmax Hempty.
    exact (detector_returns options configured target start Hs Hmax Hempty).
  - intros start step Hmax.
    apply (detector_returns (april31 start step) configured target start);
      [reflexivity | assumption | apply april31_emptyPeriods].
  - intros start step Hstep Hmax.
    unfold generateDates. fold (effectiveMax configured).
    change (dtstart (april31 start step)) with (Some start).
    change (until (april31 start step)) with (@None DateValue).
    change (interval (april31 start step)) with step.
    assert (Hz : (match step with Some i => i | None => 1 end =? 0) = false).
    { destruct step as [i|]; [|reflexivity]. apply Z.eqb_neq. congruence. }
    rewrite Hz.
    apply (april31_raises start step (effectiveMax configured)); lia.
Qed.

Lemma empty_period_detector_witness :
  let rule := april31 (CalendarDate 2025 1 1) None in
  let t := generateDates rule None None in
  yields t = [] /\ outcome t = Returned.
Proof.
  intro rule.
  apply (proj1 (empty_period_detector None None) rule (CalendarDate 2025 1 1)).
  - reflexivity.
  - vm_compute. discriminate.
  - vm_compute. reflexivity.
Defined.

(** C8, the claim as stated fails: with a maximum below 999 the same rule,
    whose periods all yield nothing, ends in the iteration error before
    the detector can fire. *)
Lemma empty_periods_below_cap_raise :
  let rule := april31 (CalendarDate 2025 1 1) None in
  emptyPeriods 1000 rule (CalendarDate 2025 1 1) 1 (CalendarDate 2025 1 1) = true
  /\ outcome (generateDates rule (Some 10) None) = Threw (MaxIterationsExceeded 10)
  /\ all (mkRRule rule (Some 10)) None = Err (MaxIterationsExceeded 10).
Proof. vm_compute. repeat split. Qed.

(* ===================================================================== *)
(** * Where the generator departs from the specification *)
(* ===================================================================== *)

(** The rules used below are what the sanitizer returns for the evident
    inputs. *)
Example defect_rules_are_sanitized :
  sanitizeRRuleOptions
    (rawRule MONTHLY (CalendarDate 2025 1 31) (Some 4) None None None None None)
  = Ok monthlyFrom31
  /\ sanitizeRRuleOptions
       (rawRule MONTHLY (CalendarDate 2025 1 15) (Some 4) (Some [1; -1]) None
                (Some [15]) None None)
     = Ok firstAndLastOfOne
  /\ sanitizeRRuleOptions
       (rawRule MONTHLY (CalendarDate 2025 1 1) (Some 3) None None None
                (Some [Raw.Token (str "MO"); Raw.Rec MO 1]) None)
     = Ok mondayTwice
  /\ sanitizeRRuleOptions
       (rawRule DAILY (CalendarDateTime 2025 1 1 9 0 0 0) (Some 3) None None None
                None (Some [10; 9]))
     = Ok hoursOutOfOrder
  /\ sanitizeRRuleOptions
       (rawRule DAILY (CalendarDate 2025 1 1) (Some 3) None None None None None)
     = Ok threeDays
  /\ sanitizeRRuleOptions
       (rawRule DAILY (CalendarDate 2024 2 29) None None (Some [2]) (Some [29])
                None None)
     = Ok leapDays.
Proof. vm_compute. repeat split. Qed.

(** C1.  [MONTHLY] from 31 January with no BY* selector: the generator
    yields 28 February, the day constrained by the month addition, and
    stays on the 28th from then on; the claim asks for the 31st only and
    for nothing in February. *)
Theorem monthly_from_31_drifts :
  generateDates monthlyFrom31 None None
  = mkTrace [CalendarDate 2025 1 31; CalendarDate 2025 2 28;
             CalendarDate 2025 3 28; CalendarDate 2025 4 28] Returned 3.
Proof. vm_compute. reflexivity. Qed.

(** The sibling path: with [BYMONTHDAY=31] the same rule skips the short
    months, as the tests of the repository expect. *)
Example monthly_bymonthday_31_skips :
  yields (generateDates
            (mkOptions MONTHLY (Some (CalendarDate 2025 1 31)) None (Some 5) None None
                       None None (Some [31]) None None None None None None)
            None None)
  = [CalendarDate 2025 1 31; CalendarDate 2025 3 31; CalendarDate 2025 5 31;
     CalendarDate 2025 7 31; CalendarDate 2025 8 31].
Proof. vm_compute. reflexivity. Qed.

(** C2.  The generator yields the same moment twice in a row when two
    positions of BYSETPOS, or two terms of BYDAY, pick the same candidate,
    and it yields the hours of BYHOUR in the order they were given. *)
Theorem emissions_not_strictly_increasing :
  yields (generateDates firstAndLastOfOne None None)
  = [CalendarDate 2025 1 15; CalendarDate 2025 1 15;
     CalendarDate 2025 2 15; CalendarDate 2025 2 15]
  /\ yields (generateDates mondayTwice None None)
     = [CalendarDate 2025 1 6; CalendarDate 2025 1 6; CalendarDate 2025 1 13]
  /\ yields (generateDates hoursOutOfOrder None None)
     = [CalendarDateTime 2025 1 1 10 0 0 0; CalendarDateTime 2025 1 1 9 0 0 0;
        CalendarDateTime 2025 1 2 10 0 0 0]
  /\ compareDates (CalendarDate 2025 1 15) (CalendarDate 2025 1 15) = 0
  /\ compareDates (CalendarDateTime 2025 1 1 10 0 0 0)
                  (CalendarDateTime 2025 1 1 9 0 0 0) = 1.
Proof. vm_compute. repeat split. Qed.

(** C3.  [applyBySetPos] keeps a candidate once for every position that
    selects it: on a single candidate, positions 1 and -1 give it twice. *)
Theorem applyBySetPos_keeps_duplicates :
  applyBySetPos [CalendarDate 2025 1 15] (Some [1; -1])
  = [CalendarDate 2025 1 15; CalendarDate 2025 1 15].
Proof. vm_compute. reflexivity. Qed.

(** C4.  With a seek target the generator counts COUNT from the target's
    period, so [after] returns moments the rule never has; and started in
    a long run of empty periods it gives up after 1,000 of them, missing
    occurrences that the generator without a target yields. *)
Theorem seeking_changes_the_sequence :
  let r := mkRRule threeDays None in
  let T := CalendarDate 2025 1 10 in
  after r T false None = Ok [CalendarDate 2025 1 11; CalendarDate 2025 1 12]
  /\ afterUnseeked r T false None = Ok []
  /\ next r T false = Ok None
  /\ yields (generateDates threeDays None None)
     = [CalendarDate 2025 1 1; CalendarDate 2025 1 2; CalendarDate 2025 1 3]
  /\ (let T' := CalendarDate 2024 3 1 in
      let seeked := generateDates leapDays None (Some T') in
      let plain := generateDates leapDays None None in
      yields seeked = [] /\ outcome seeked = Returned
      /\ nth_error (yields plain) 1 = Some (CalendarDate 2028 2 29)
      /\ 0 < compareDates (CalendarDate 2028 2 29) T'
      /\ after (mkRRule leapDays None) T' false (Some 1) = Ok []
      /\ afterUnseeked (mkRRule leapDays None) T' false (Some 1)
         = Ok [CalendarDate 2028 2 29]).
Proof. vm_compute. repeat split. Qed.

(* ===================================================================== *)
(** * Text: decimal numbers, trimming, upper case *)
(* ===================================================================== *)

Lemma digitChar_value d : 0 <= d <= 9 -> digitValue (digitChar d) = d.
Proof.
  intros H.
  assert (Hc : d = 0 \/ d = 1 \/ d = 2 \/ d = 3 \/ d = 4 \/ d = 5 \/ d = 6
               \/ d = 7 \/ d = 8 \/ d = 9) by lia.
  repeat (destruct Hc as [-> | Hc]; [reflexivity|]). subst; reflexivity.
Qed.

Lemma digitChar_isDigit d : 0 <= d <= 9 -> isDigit (digitChar d) = true.
Proof.
  intros H.
  assert (Hc : d = 0 \/ d = 1 \/ d = 2 \/ d = 3 \/ d = 4 \/ d = 5 \/ d = 6
               \/ d = 7 \/ d = 8 \/ d = 9) by lia.
  repeat (destruct Hc as [-> | Hc]; [reflexivity|]). subst; reflexivity.
Qed.

Lemma digitsValue_snoc ds c :
  digitsValue (ds ++ [c]) = digitsValue ds * 10 + digitValue c.
Proof. unfold digitsValue. now rewrite fold_left_app. Qed.

Lemma digitsOf_value (fuel : nat) :
  forall n, 0 <= n < 2 ^ (Z.of_nat fuel + 1) -> digitsValue (digitsOf fuel n) = n.
Proof.
  induction fuel as [|fuel IH]; intros n Hn.
  - cbn in Hn. cbn [digitsOf]. rewrite Z.mod_small by lia.
    unfold digitsValue; cbn [fold_left]. rewrite digitChar_value; lia.
  - cbn [digitsOf]. destruct (n <? 10) eqn:H10.
    + apply Z.ltb_lt in H10. unfold digitsValue; cbn [fold_left].
      rewrite digitChar_value; lia.
    + apply Z.ltb_ge in H10. rewrite digitsValue_snoc.
      rewrite digitChar_value by (pose proof (Z.mod_pos_bound n 10); lia).
      rewrite IH.
      * pose proof (Z.div_mod n 10). lia.
      * split; [apply Z.div_pos; lia|].
        replace (Z.of_nat (S fuel) + 1) with (Z.succ (Z.of_nat fuel + 1)) in Hn by lia.
        rewrite Z.pow_succ_r in Hn by lia.
        apply Z.div_lt_upper_bound; lia.
Qed.

Lemma digitsOf_digits (fuel : nat) :
  forall n, 0 <= n -> forallb isDigit (digitsOf fuel n) = true.
Proof.
  induction fuel as [|fuel IH]; intros n Hn; cbn [digitsOf].
  - cbn [forallb]. rewrite digitChar_isDigit; [reflexivity|].
    pose proof (Z.mod_pos_bound n 10); lia.
  - destruct (n <? 10) eqn:H10.
    + apply Z.ltb_lt in H10. cbn [forallb]. rewrite digitChar_isDigit; [reflexivity|lia].
    + rewrite forallb_app, IH by (apply Z.div_pos; lia).
      cbn [forallb]. rewrite digitChar_isDigit; [reflexivity|].
      pose proof (Z.mod_pos_bound n 10); lia.
Qed.

Lemma digitsOf_nonempty fuel n : digitsOf fuel n <> [].
Proof.
  destruct fuel; cbn [digitsOf]; [discriminate|].
  destruct (n <? 10); [discriminate|].
  intros H. apply app_eq_nil in H as [_ H]. discriminate.
Qed.

Lemma log2_fuel n : 0 <= n -> 0 <= n < 2 ^ (Z.of_nat (Z.to_nat (Z.log2 n)) + 1).
Proof.
  intros Hn. rewrite Z2Nat.id by apply Z.log2_nonneg.
  destruct (Z.eq_dec n 0) as [->|Hz]; [cbn; lia|].
  pose proof (Z.log2_spec n ltac:(lia)) as [_ H].
  replace (Z.log2 n + 1) with (Z.succ (Z.log2 n)) by lia. lia.
Qed.

Lemma takeWhile_all {A} (f : A -> bool) l :
  forallb f l = true -> takeWhile f l = l.
Proof.
  induction l as [|x l IH]; cbn; [reflexivity|].
  intros H. apply andb_true_iff in H as [Hx Hl]. now rewrite Hx, IH.
Qed.

Lemma isDigit_not_white c : isDigit c = true -> isWhite c = false.
Proof.
  unfold isDigit, isWhite. intros H.
  apply andb_true_iff in H as [H1 H2].
  apply Nat.leb_le in H1. apply Nat.leb_le in H2.
  repeat (apply orb_false_iff; split).
  - apply Nat.eqb_neq. lia.
  - apply andb_false_iff. right. apply Nat.leb_gt. lia.
  - apply Nat.eqb_neq. lia.
Qed.

Lemma isDigit_not_sign c :
  isDigit c = true -> c <> "-"%char /\ c <> "+"%char.
Proof. intros H; split; intros ->; discriminate. Qed.

(** Below 2^53 every integer is a Number value. *)
Lemma nearestNumber_safe v : 0 <= v < 2 ^ 53 -> nearestNumber v = v.
Proof.
  intros H. unfold nearestNumber.
  assert (Hb : (Z.log2 v + 1 <=? 53) = true).
  { apply Z.leb_le. destruct (Z.eq_dec v 0) as [->|Hne]; [cbn; lia|].
    assert (Z.log2 v < 53) by (apply Z.log2_lt_pow2; lia). lia. }
  now rewrite Hb.
Qed.

Lemma safe_finite n : isSafeInteger n = true -> isFiniteNumber n = true.
Proof.
  unfold isSafeInteger, isFiniteNumber. intros H. apply Z.ltb_lt in H.
  apply Z.ltb_lt. assert (2 ^ 53 < 2 ^ 1024) by (vm_compute; reflexivity). lia.
Qed.

Lemma isSafeInteger_spec n : isSafeInteger n = true <-> Z.abs n < 2 ^ 53.
Proof. unfold isSafeInteger. apply Z.ltb_lt. Qed.

Lemma small_safe n :
  -9007199254740992 < n < 9007199254740992 -> isSafeInteger n = true.
Proof.
  intros H. apply isSafeInteger_spec. change (2 ^ 53) with 9007199254740992. lia.
Qed.


(** A safe integer is written with all its digits. *)
Lemma String_safe n : isSafeInteger n = true -> String_ n = decimal n.
Proof. intros H. unfold String_. now rewrite H. Qed.

(** Digits are read back as the Number value nearest to what they
    write. *)
Lemma parseInteger_digits ds :
  ds <> [] -> forallb isDigit ds = true ->
  parseInteger ds = Some (nearestNumber (digitsValue ds)).
Proof.
  intros Hne Hd. unfold parseInteger.
  destruct ds as [|c r]; [congruence|].
  cbn [forallb] in Hd. apply andb_true_iff in Hd as [Hc Hr].
  cbn [trimStart]. rewrite (isDigit_not_white c Hc).
  destruct (isDigit_not_sign c Hc) as [Hm Hp].
  destruct c as [[] [] [] [] [] [] [] []]; try discriminate;
    try (exfalso; apply Hm; reflexivity); try (exfalso; apply Hp; reflexivity);
    cbv iota beta; cbn [takeWhile]; rewrite ?Hc; cbn [takeWhile];
    rewrite (takeWhile_all _ _ Hr); reflexivity.
Qed.

(** [parseInt(String(n), 10)] is [n], for a safe integer. *)
Lemma parseInteger_String n :
  isSafeInteger n = true -> parseInteger (String_ n) = Some n.
Proof.
  intros Hs. rewrite (String_safe n Hs). apply isSafeInteger_spec in Hs.
  unfold decimal, decimalDigits. destruct (n <? 0) eqn:Hneg.
  - apply Z.ltb_lt in Hneg.
    unfold parseInteger. cbn [trimStart].
    change (isWhite "-") with false. cbv iota.
    rewrite takeWhile_all by (apply digitsOf_digits; lia).
    pose proof (digitsOf_nonempty (Z.to_nat (Z.log2 (- n))) (- n)) as Hne.
    destruct (digitsOf _ _) eqn:Hd; [congruence|].
    rewrite <- Hd, digitsOf_value by (apply log2_fuel; lia).
    cbv zeta. rewrite nearestNumber_safe by lia.
    f_equal; lia.
  - apply Z.ltb_ge in Hneg.
    rewrite parseInteger_digits.
    + rewrite digitsOf_value by (apply log2_fuel; lia).
      now rewrite nearestNumber_safe by lia.
    + apply digitsOf_nonempty.
    + apply digitsOf_digits; lia.
Qed.

(* ===================================================================== *)
(** * The sanitizer of [byweekday] *)
(* ===================================================================== *)

Lemma text_eqb_eq a b : text_eqb a b = true -> a = b.
Proof.
  unfold text_eqb. intros H. apply String.eqb_eq in H.
  rewrite <- (list_ascii_of_string_of_list_ascii a),
          <- (list_ascii_of_string_of_list_ascii b).
  now rewrite H.
Qed.

Lemma asWeekday_text value w : asWeekday value = Some w -> value = weekdayText w.
Proof.
  unfold asWeekday. intros H. apply find_some in H as [_ H].
  symmetry. now apply text_eqb_eq.
Qed.

Lemma asWeekday_weekdayText w : asWeekday (weekdayText w) = Some w.
Proof. now destruct w. Qed.

Lemma asWeekday_long value : (3 <= List.length value)%nat -> asWeekday value = None.
Proof.
  intros Hl. destruct (asWeekday value) as [w|] eqn:H; [|reflexivity].
  apply asWeekday_text in H. subst. destruct w; cbn in Hl; lia.
Qed.

Lemma WeekdayValue_eqb_eq a b : WeekdayValue_eqb a b = true -> a = b.
Proof.
  destruct a, b; cbn; try discriminate.
  - intros H. apply Weekday_eqb_eq in H. now subst.
  - intros H. apply andb_true_iff in H as [H1 H2].
    apply Weekday_eqb_eq in H1. apply Z.eqb_eq in H2. now subst.
Qed.

Lemma optionWeekdayValue_eqb_eq a b : optionWeekdayValue_eqb a b = true -> a = b.
Proof.
  destruct a, b; cbn; try discriminate; [|reflexivity].
  intros H. f_equal. now apply WeekdayValue_eqb_eq.
Qed.

Lemma countFrom_In (n : nat) : forall lo x,
  lo <= x < lo + Z.of_nat n -> In x (countFrom lo n).
Proof.
  induction n as [|n IH]; intros lo x Hx; [lia|].
  cbn [countFrom]. destruct (Z.eq_dec lo x) as [->|Hne]; [now left|].
  right. apply IH. lia.
Qed.

(** Every ordinal of at most two digits, for every weekday, with and
    without the plus sign: by evaluation. *)
Lemma tokens_two_digits_checked :
  forallb tokenChecked (countFrom (-99) 199) = true.
Proof. vm_compute. reflexivity. Qed.

Lemma token_two_digits plus n w :
  -99 <= n <= 99 ->
  sanitizeWeekdayValue (Raw.Token (ordinalToken plus n w)) = tokenVerdict n w.
Proof.
  intros Hn.
  pose proof tokens_two_digits_checked as H.
  rewrite forallb_forall in H.
  specialize (H n (countFrom_In 199 (-99) n ltac:(lia))).
  unfold tokenChecked in H. rewrite forallb_forall in H.
  assert (Hw : In w WEEKDAYS) by (destruct w; cbn; tauto).
  specialize (H w Hw). rewrite forallb_forall in H.
  apply optionWeekdayValue_eqb_eq, H.
  destruct plus; cbn; tauto.
Qed.

Lemma digitsOf_three (fuel : nat) n :
  (2 <= fuel)%nat -> 100 <= n -> (3 <= List.length (digitsOf fuel n))%nat.
Proof.
  intros Hf Hn.
  destruct fuel as [|[|fuel]]; try lia.
  cbn [digitsOf].
  assert (H1 : (n <? 10) = false) by (apply Z.ltb_ge; lia).
  assert (H2 : (n / 10 <? 10) = false).
  { apply Z.ltb_ge. apply Z.div_le_lower_bound; lia. }
  rewrite H1, H2, !length_app. cbn [List.length].
  pose proof (digitsOf_nonempty fuel (n / 10 / 10)) as Hne.
  destruct (digitsOf fuel (n / 10 / 10)); [congruence|cbn [List.length]; lia].
Qed.

Lemma nearestNumber_lower v : 2 ^ 53 <= v -> 2 ^ 53 <= nearestNumber v.
Proof.
  intros H. unfold nearestNumber.
  assert (Hlog : 53 <= Z.log2 v) by (apply Z.log2_le_pow2; lia).
  assert (Hb : (Z.log2 v + 1 <=? 53) = false) by (apply Z.leb_gt; lia).
  rewrite Hb. cbv zeta.
  set (shift := Z.log2 v + 1 - 53).
  assert (Hs : 1 <= shift) by (unfold shift; lia).
  set (q := Z.shiftr v shift).
  assert (Hq : 2 ^ 52 <= q).
  { unfold q. rewrite Z.shiftr_div_pow2 by lia.
    apply Z.div_le_lower_bound; [apply Z.pow_pos_nonneg; lia|].
    rewrite Z.mul_comm, <- Z.pow_add_r by lia.
    replace (52 + shift) with (Z.log2 v) by (unfold shift; lia).
    apply Z.log2_spec. lia. }
  match goal with
  | |- _ <= Z.shiftl ?q' shift => assert (Hq' : q <= q')
  end.
  { repeat match goal with |- context [if ?b then _ else _] => destruct b end; lia. }
  match goal with
  | |- _ <= Z.shiftl ?q' shift => generalize dependent q'
  end.
  intros q' Hq'. rewrite Z.shiftl_mul_pow2 by lia.
  assert (Hp : 2 <= 2 ^ shift).
  { change 2 with (2 ^ 1) at 1. apply Z.pow_le_mono_r; lia. }
  change (2 ^ 53) with (2 ^ 52 * 2). nia.
Qed.

Lemma digitsAt_facts x n k s n' :
  0 <= x -> digitsAt x n k = Some (s, n') -> 0 <= s /\ (n' = n \/ n' = n + 1).
Proof.
  intros Hx. unfold digitsAt. cbv zeta.
  assert (Hlo : 0 <= x / 10 ^ (n - k)).
  { destruct (Z.eq_dec (10 ^ (n - k)) 0) as [->|Hne].
    - now rewrite Z.div_0_r.
    - apply Z.div_pos; [assumption|]. pose proof (Z.pow_nonneg 10 (n - k)). lia. }
  assert (Hpow : 0 <= 10 ^ (k - 1)) by (apply Z.pow_nonneg; lia).
  intros H.
  repeat match type of H with
         | (if ?b then _ else _) = _ => destruct b
         | Some (if ?b then _ else _) = _ => destruct b
         end;
    inversion H; subst; split; auto; try lia; destruct (Z.even _); lia.
Qed.

Lemma shortestDigits_facts (fuel : nat) x n :
  0 <= x ->
  forall k s n', shortestDigits fuel x n k = (s, n') ->
                 0 <= s /\ (n' = n \/ n' = n + 1).
Proof.
  intros Hx. induction fuel as [|fuel IH]; intros k s n' H; cbn [shortestDigits] in H.
  - inversion H; subst. auto.
  - destruct (digitsAt x n k) as [[s0 n0]|] eqn:E.
    + inversion H; subst. eapply digitsAt_facts; eassumption.
    + eapply IH; eassumption.
Qed.

Lemma decimalDigits_digits s :
  0 <= s -> forallb isDigit (decimalDigits s) = true /\ decimalDigits s <> [].
Proof.
  intros H. split; [now apply digitsOf_digits|apply digitsOf_nonempty].
Qed.

Lemma decimalDigits_three x : 100 <= x -> (3 <= List.length (decimalDigits x))%nat.
Proof.
  intros Hx. apply digitsOf_three; [|assumption].
  pose proof (Z.log2_le_mono 100 x Hx) as Hl.
  change (Z.log2 100) with 6 in Hl. lia.
Qed.

Lemma digits_noWhite ds : forallb isDigit ds = true -> noWhite ds = true.
Proof.
  unfold noWhite. rewrite !forallb_forall. intros H c Hc.
  now rewrite (isDigit_not_white c (H c Hc)).
Qed.

(** The text of a Number value of three digits or more: a digit first,
    no white space, three characters or more. *)
Lemma numberText_shape x :
  100 <= x ->
  exists d ds, numberText x = d :: ds /\ isDigit d = true
               /\ noWhite (d :: ds) = true /\ (2 <= List.length ds)%nat.
Proof.
  intros Hx. unfold numberText.
  pose proof (decimalDigits_three x Hx) as Hn.
  set (n := Z.of_nat (List.length (decimalDigits x))) in *.
  destruct (shortestDigits _ x n 1) as [s n'] eqn:E.
  destruct (shortestDigits_facts _ x n ltac:(lia) _ _ _ E) as [Hs Hn'].
  destruct (decimalDigits_digits s Hs) as [Hd Hne].
  destruct (decimalDigits s) as [|d rest] eqn:Eds; [congruence|].
  cbn [forallb] in Hd. apply andb_true_iff in Hd as [Hd Hrest].
  pose proof (digits_noWhite _ Hrest) as Hwr.
  pose proof (isDigit_not_white d Hd) as Hwd.
  destruct (n' <=? 21) eqn:Hb.
  - exists d, (rest ++ repeat "0"%char (Z.to_nat (n' - Z.of_nat (List.length (d :: rest))))).
    split; [reflexivity|]. split; [assumption|]. split.
    + unfold noWhite in *. cbn [forallb]. rewrite Hwd, forallb_app, Hwr.
      cbn [negb andb]. apply forallb_forall. intros c Hc.
      apply repeat_spec in Hc. now subst.
    + rewrite length_app, repeat_length. cbn [List.length]. unfold n in Hn'. lia.
  - apply Z.leb_gt in Hb.
    destruct (decimalDigits_digits (n' - 1) ltac:(lia)) as [He _].
    pose proof (digits_noWhite _ He) as Hwe.
    destruct rest as [|d2 rest].
    + eexists d, _. split; [reflexivity|]. split; [assumption|]. split.
      * unfold noWhite in *. cbn [forallb]. rewrite Hwd.
        change (isWhite "e") with false. change (isWhite "+") with false.
        cbn [negb andb]. exact Hwe.
      * cbn [List.length]. lia.
    + eexists d, _. split; [reflexivity|]. split; [assumption|]. split.
      * unfold noWhite in *. cbn [forallb app]. rewrite Hwd.
        change (isWhite ".") with false. cbn [negb andb].
        cbn [forallb] in Hwr. apply andb_true_iff in Hwr as [Hw2 Hwr].
        rewrite Hw2, forallb_app, Hwr. cbn [forallb].
        change (isWhite "e") with false. change (isWhite "+") with false.
        cbn [negb andb]. exact Hwe.
      * cbn [List.length]. rewrite length_app. cbn [List.length]. lia.
Qed.

(** What [String] writes for a number of three digits or more. *)
Lemma String_three n :
  100 <= n ->
  isFiniteNumber (nearestNumber n) = true ->
  exists d ds, String_ n = d :: ds /\ isDigit d = true
               /\ noWhite (d :: ds) = true /\ (2 <= List.length ds)%nat.
Proof.
  intros Hn Hfin. unfold String_.
  destruct (isSafeInteger n) eqn:Hsafe.
  - unfold decimal.
    assert (Hneg : (n <? 0) = false) by (apply Z.ltb_ge; lia). rewrite Hneg.
    pose proof (decimalDigits_three n Hn) as Hlen.
    destruct (decimalDigits_digits n ltac:(lia)) as [Hd _].
    destruct (decimalDigits n) as [|d ds]; [cbn in Hlen; lia|].
    exists d, ds. split; [reflexivity|]. split.
    + cbn [forallb] in Hd. now apply andb_true_iff in Hd as [? _].
    + split; [now apply digits_noWhite|]. cbn [List.length] in Hlen. lia.
  - assert (Hneg : (n <? 0) = false) by (apply Z.ltb_ge; lia). rewrite Hneg.
    cbn [app]. cbv zeta. rewrite (Z.abs_eq n) by lia. rewrite Hfin.
    apply numberText_shape. rewrite <- (Z.abs_eq n) at 1 by lia.
    assert (Hbig : 2 ^ 53 <= Z.abs n).
    { unfold isSafeInteger in Hsafe. now apply Z.ltb_ge in Hsafe. }
    pose proof (nearestNumber_lower _ Hbig) as Hl.
    assert (100 <= 2 ^ 53) by (cbv; discriminate). lia.
Qed.

(** The pattern needs one or two digits before the two letters: a text
    with five or more characters after the sign does not match. *)
Lemma matchWeekdayValue_digit_long d r :
  isDigit d = true -> (4 <= List.length r)%nat -> matchWeekdayValue (d :: r) = None.
Proof.
  intros Hd Hl.
  destruct r as [|d2 [|a [|b [|c w]]]]; cbn [List.length] in Hl; try lia.
  destruct d as [[] [] [] [] [] [] [] []]; try discriminate;
    cbn; now rewrite ?andb_false_r.
Qed.

Lemma matchWeekdayValue_signed_long s r :
  s = "-"%char \/ s = "+"%char -> (5 <= List.length r)%nat ->
  matchWeekdayValue (s :: r) = None.
Proof.
  intros Hs Hl.
  destruct r as [|d1 [|d2 [|a [|b [|c w]]]]]; cbn [List.length] in Hl; try lia.
  destruct Hs as [-> | ->]; cbn; now rewrite ?andb_false_r.
Qed.

Lemma trimStart_id c r : isWhite c = false -> trimStart (c :: r) = c :: r.
Proof. intros H. cbn. now rewrite H. Qed.

(** Trimming leaves a text alone whose first and last characters are not
    white space. *)
Lemma trim_id c body z :
  isWhite c = false -> isWhite z = false ->
  trim (c :: body ++ [z]) = c :: body ++ [z].
Proof.
  intros Hc Hz. unfold trim, trimEnd.
  rewrite (trimStart_id c _ Hc).
  change (c :: body ++ [z]) with ((c :: body) ++ [z]).
  rewrite rev_app_distr. cbn [rev app].
  rewrite (trimStart_id z _ Hz).
  change (z :: rev body ++ [c]) with ([z] ++ rev (c :: body)).
  rewrite rev_app_distr, rev_involutive. reflexivity.
Qed.

Lemma toUpper_digit c : isDigit c = true -> toUpper c = c.
Proof.
  unfold isDigit, toUpper. intros H.
  apply andb_true_iff in H as [H1 H2].
  apply Nat.leb_le in H1. apply Nat.leb_le in H2.
  assert (Hlow : Nat.leb 97 (nat_of_ascii c) = false) by (apply Nat.leb_gt; lia).
  now rewrite Hlow.
Qed.

Lemma toUpperCase_digits ds : forallb isDigit ds = true -> toUpperCase ds = ds.
Proof.
  unfold toUpperCase.
  induction ds as [|c ds IH]; cbn [map forallb]; [reflexivity|].
  intros H. apply andb_true_iff in H as [Hc Hds].
  now rewrite (toUpper_digit c Hc), (IH Hds).
Qed.

Lemma toUpperCase_weekdayText w : toUpperCase (weekdayText w) = weekdayText w.
Proof. now destruct w. Qed.

Lemma weekdayText_shape w :
  exists a b, weekdayText w = [a; b] /\ isWhite b = false.
Proof. destruct w; do 2 eexists; split; reflexivity. Qed.

Lemma text_shape (pre : text) a b :
  pre <> [] ->
  exists c body, pre ++ [a; b] = c :: body ++ [b] /\ c = hd a pre.
Proof.
  destruct pre as [|c r]; [congruence|]. intros _.
  exists c, (r ++ [a]). split; [|reflexivity].
  cbn [app]. now rewrite <- app_assoc.
Qed.

Lemma length_toUpperCase s : List.length (toUpperCase s) = List.length s.
Proof. apply length_map. Qed.

Lemma String_negative n :
  n < 0 -> String_ n = "-"%char :: String_ (- n).
Proof.
  intros Hn. unfold String_, isSafeInteger. rewrite Z.abs_opp.
  assert (Hneg : (n <? 0) = true) by (apply Z.ltb_lt; lia).
  assert (Hpos : (- n <? 0) = false) by (apply Z.ltb_ge; lia).
  rewrite Hneg, Hpos. unfold decimal. rewrite Hneg, Hpos.
  now destruct (Z.abs n <? 2 ^ 53).
Qed.

(** What [String] writes for a number that stands for [Infinity]. *)
Lemma String_infinite n :
  0 <= n -> isFiniteNumber (nearestNumber n) = false -> String_ n = str "Infinity".
Proof.
  intros Hn Hinf. unfold String_.
  destruct (isSafeInteger n) eqn:Hsafe.
  - pose proof (safe_finite n Hsafe) as Hf.
    apply isSafeInteger_spec in Hsafe.
    rewrite nearestNumber_safe in Hinf by lia. congruence.
  - assert (Hneg : (n <? 0) = false) by (apply Z.ltb_ge; lia). rewrite Hneg.
    cbv zeta. rewrite (Z.abs_eq n) by lia. now rewrite Hinf.
Qed.

(** A token with an ordinal of three or more digits is dropped. *)
Lemma token_three_digits plus n w :
  100 <= Z.abs n ->
  sanitizeWeekdayValue (Raw.Token (ordinalToken plus n w)) = None.
Proof.
  intros Hn.
  destruct (isFiniteNumber (nearestNumber (Z.abs n))) eqn:Hfin.
  2:{ (* the ordinal stands for Infinity *)
      unfold ordinalToken. destruct (n <? 0) eqn:Hneg.
      - apply Z.ltb_lt in Hneg.
        assert (H0 : (0 <=? n) = false) by (apply Z.leb_gt; lia).
        rewrite H0, andb_false_r, (String_negative n Hneg).
        rewrite (Z.abs_neq n) in Hfin by lia.
        rewrite (String_infinite (- n)) by (assumption || lia).
        now destruct w.
      - apply Z.ltb_ge in Hneg.
        assert (H0 : (0 <=? n) = true) by (apply Z.leb_le; lia).
        rewrite H0, andb_true_r.
        rewrite (Z.abs_eq n) in Hfin by lia.
        rewrite (String_infinite n) by assumption.
        now destruct plus, w. }
  (* the token is [sign ++ number ++ weekday], the number of three
     characters or more, a digit first *)
  assert (Hshape : exists (sign : text) d ds,
             ordinalToken plus n w = sign ++ (d :: ds) ++ weekdayText w
             /\ (sign = [] \/ sign = ["-"%char] \/ sign = ["+"%char])
             /\ isDigit d = true
             /\ noWhite (d :: ds) = true
             /\ (3 <= List.length (d :: ds))%nat).
  { unfold ordinalToken.
    destruct (n <? 0) eqn:Hneg.
    - apply Z.ltb_lt in Hneg.
      assert (H0 : (0 <=? n) = false) by (apply Z.leb_gt; lia).
      rewrite H0, andb_false_r.
      rewrite (Z.abs_neq n) in Hfin by lia.
      destruct (String_three (- n) ltac:(lia) Hfin) as (d & ds & E & Hd & Hw & Hlen).
      rewrite (String_negative n Hneg), E.
      exists ["-"%char], d, ds. cbn [List.length]. repeat split; auto; lia.
    - apply Z.ltb_ge in Hneg.
      assert (H0 : (0 <=? n) = true) by (apply Z.leb_le; lia).
      rewrite H0, andb_true_r.
      rewrite (Z.abs_eq n) in Hfin by lia.
      destruct (String_three n ltac:(lia) Hfin) as (d & ds & E & Hd & Hw & Hlen).
      rewrite E.
      destruct plus.
      + exists ["+"%char], d, ds. cbn [List.length]. repeat split; auto; lia.
      + exists [], d, ds. cbn [List.length]. repeat split; auto; lia. }
  destruct Hshape as (sign & d & ds & Htok & Hsign & Hd & Hwhite & Hlen).
  rewrite Htok. clear Htok.
  set (t := sign ++ (d :: ds) ++ weekdayText w).
  assert (Htlen : (5 <= List.length t)%nat).
  { unfold t. rewrite !length_app. destruct w; cbn [weekdayText str list_ascii_of_string List.length] in *; lia. }
  unfold sanitizeWeekdayValue, isWeekdayValue.
  rewrite asWeekday_long by lia. cbn [isSome].
  unfold parseWeekdayValue.
  (* trimming leaves the token as it is *)
  assert (Htrim : trim t = t).
  { assert (Hsplit : exists c body z,
               t = c :: body ++ [z] /\ isWhite c = false /\ isWhite z = false).
    { destruct (weekdayText_shape w) as (a & b & Hw & Hb).
      destruct (text_shape (sign ++ d :: ds) a b) as (c & body & Heq & Hhd).
      { destruct sign; discriminate. }
      exists c, body, b. split; [|split; [|exact Hb]].
      - unfold t. rewrite Hw, <- Heq, <- app_assoc. reflexivity.
      - rewrite Hhd. destruct Hsign as [-> | [-> | ->]]; cbn [app hd];
          [now apply isDigit_not_white | reflexivity | reflexivity]. }
    destruct Hsplit as (c & body & z & Ht & Hc & Hz).
    rewrite Ht. apply (trim_id c body z Hc Hz). }
  rewrite Htrim.
  (* upper-casing keeps the sign, the first digit and the length *)
  assert (Hupper : toUpperCase t
                   = sign ++ (d :: toUpperCase ds) ++ toUpperCase (weekdayText w)).
  { unfold t, toUpperCase. rewrite !map_app. cbn [map].
    rewrite (toUpper_digit d Hd).
    destruct Hsign as [-> | [-> | ->]]; reflexivity. }
  assert (Hmatch : matchWeekdayValue (toUpperCase t) = None).
  { rewrite Hupper. destruct Hsign as [-> | [-> | ->]]; cbn [app].
    - apply matchWeekdayValue_digit_long; [assumption|].
      rewrite length_app, !length_toUpperCase.
      destruct w; cbn [weekdayText str list_ascii_of_string List.length] in *; lia.
    - apply matchWeekdayValue_signed_long; [now left|].
      cbn [List.length]. rewrite length_app, !length_toUpperCase.
      destruct w; cbn [weekdayText str list_ascii_of_string List.length] in *; lia.
    - apply matchWeekdayValue_signed_long; [now right|].
      cbn [List.length]. rewrite length_app, !length_toUpperCase.
      destruct w; cbn [weekdayText str list_ascii_of_string List.length] in *; lia. }
  rewrite Hmatch.
  pose proof (length_toUpperCase t) as Hl.
  destruct (toUpperCase t); [cbn in Hl; lia | reflexivity].
Qed.

(** C9, as amended.  A bare weekday is kept.  A textual token with ordinal
    [n] is kept exactly when [1 <= |n| <= 53].  A record [{ weekday, n }]
    with [n <> 0] is kept exactly when [|n| <= 52]: the records with
    [n = 53] and [n = -53] are dropped. *)
Theorem byweekday_ordinal_bounds :
  forall (w : Weekday) (n : Z) (plus : bool),
    n <> 0 ->
    sanitizeWeekdayValue (Raw.Token (weekdayText w)) = Some (Bare w)
    /\ sanitizeWeekdayValue (Raw.Token (ordinalToken plus n w))
       = (if (1 <=? Z.abs n) && (Z.abs n <=? 53) then Some (Nth w n) else None)
    /\ sanitizeWeekdayValue (Raw.Token (ordinalToken plus 0 w)) = None
    /\ sanitizeWeekdayValue (Raw.Rec w n)
       = (if Z.abs n <=? 52 then Some (Nth w n) else None).
Proof.
  intros w n plus Hn. repeat split.
  - now destruct w.
  - destruct (Z_le_gt_dec (Z.abs n) 99) as [Hs|Hb].
    + rewrite token_two_digits by lia. reflexivity.
    + rewrite token_three_digits by lia.
      assert (H53 : (Z.abs n <=? 53) = false) by (apply Z.leb_gt; lia).
      now rewrite H53, andb_false_r.
  - rewrite token_two_digits by lia. reflexivity.
  - unfold sanitizeWeekdayValue, isWeekdayValue.
    destruct (Z.abs n <=? 52) eqn:H52.
    + apply Z.leb_le in H52.
      assert (H1 : (-53 <? n) = true) by (apply Z.ltb_lt; lia).
      assert (H2 : (n <? 53) = true) by (apply Z.ltb_lt; lia).
      now rewrite H1, H2.
    + apply Z.leb_gt in H52.
      destruct (-53 <? n) eqn:H1; [|reflexivity].
      destruct (n <? 53) eqn:H2; [|reflexivity].
      apply Z.ltb_lt in H1. apply Z.ltb_lt in H2. lia.
Qed.

Lemma byweekday_ordinal_bounds_witness :
  sanitizeWeekdayValue (Raw.Token (ordinalToken true 53 FR)) = Some (Nth FR 53)
  /\ sanitizeWeekdayValue (Raw.Rec FR 53) = None.
Proof.
  destruct (byweekday_ordinal_bounds FR 53 true) as (_ & Ht & _ & Hr).
  - lia.
  - split; [exact Ht | exact Hr].
Defined.

(** C9, the claim as stated fails: the records with [n = 53] and
    [n = -53] are dropped, as the tests of [isWeekdayValue] expect. *)
Lemma records_53_dropped :
  sanitizeWeekdayValue (Raw.Rec MO 53) = None
  /\ sanitizeWeekdayValue (Raw.Rec MO (-53)) = None
  /\ sanitizeWeekdayValueArray (Some [Raw.Rec MO 53; Raw.Rec FR (-53)]) = Some [].
Proof. vm_compute. repeat split. Qed.

(** The record with [n = 0] passes [isWeekdayValue], unlike the token
    ["0MO"]. *)
Example record_zero_kept :
  sanitizeWeekdayValue (Raw.Rec MO 0) = Some (Nth MO 0)
  /\ sanitizeWeekdayValue (Raw.Token (str "0MO")) = None.
Proof. vm_compute. split; reflexivity. Qed.

(* ===================================================================== *)
(** * Numbers written in full *)
(* ===================================================================== *)











(** A safe integer is written in full. *)
Lemma safe_full n : isSafeInteger n = true -> writtenInFull n = true.
Proof.
  intros H. apply isSafeInteger_spec in H.
  unfold writtenInFull, isNumber.
  rewrite nearestNumber_safe by lia. rewrite Z.eqb_refl. cbn [andb].
  apply Z.ltb_lt. assert (2 ^ 53 < 10 ^ 21) by (vm_compute; reflexivity). lia.
Qed.

(* ===================================================================== *)
(** * The sanitizer of the options record *)
(* ===================================================================== *)

Section Unique.

Context {A : Type} (eqb : A -> A -> bool).
Hypothesis eqb_spec : forall a b, eqb a b = true <-> a = b.

Lemma existsb_eqb_In x (seen : list A) : existsb (eqb x) seen = true <-> In x seen.
Proof.
  rewrite existsb_exists. split.
  - intros (y & Hy & He). apply eqb_spec in He. now subst.
  - intros H. exists x. split; [assumption|now apply eqb_spec].
Qed.

Lemma uniqueBy_In (l : list A) :
  forall seen x, In x (uniqueBy eqb seen l) <-> In x l /\ ~ In x seen.
Proof.
  induction l as [|x0 r IH]; intros seen x; cbn [uniqueBy In].
  - tauto.
  - destruct (existsb (eqb x0) seen) eqn:Hseen.
    + apply existsb_eqb_In in Hseen. rewrite IH.
      split; [tauto|]. intros [[-> | Hr] Hn]; tauto.
    + assert (Hx0 : ~ In x0 seen).
      { intros H. apply existsb_eqb_In in H. congruence. }
      cbn [In]. rewrite IH, in_app_iff. cbn [In].
      split.
      * intros [-> | (Hr & Hn)]; tauto.
      * intros [[-> | Hr] Hn]; [now left|].
        destruct (eqb x0 x) eqn:He.
        -- apply eqb_spec in He. now left.
        -- right. split; [assumption|]. intros [H | [H | []]]; [tauto|].
           subst. assert (eqb x x = true) by now apply eqb_spec. congruence.
Qed.

Lemma uniqueBy_NoDup (l : list A) : forall seen, NoDup (uniqueBy eqb seen l).
Proof.
  induction l as [|x0 r IH]; intros seen; cbn [uniqueBy]; [constructor|].
  destruct (existsb (eqb x0) seen); [apply IH|].
  constructor; [|apply IH].
  rewrite uniqueBy_In, in_app_iff. cbn [In]. tauto.
Qed.

Lemma uniqueBy_nonEmpty (l : list A) : nonEmpty (uniqueBy eqb [] l) = nonEmpty l.
Proof. now destruct l. Qed.

End Unique.

Lemma Z_eqb_spec a b : (a =? b) = true <-> a = b.
Proof. apply Z.eqb_eq. Qed.

Lemma WeekdayValue_same_spec a b : WeekdayValue_same a b = true <-> a = b.
Proof.
  destruct a as [x|x n], b as [y|y m]; cbn; split; intro H; try discriminate.
  - apply Weekday_eqb_eq in H. now subst.
  - inversion H. apply Weekday_eqb_refl.
  - apply andb_true_iff in H as [H1 H2].
    apply Weekday_eqb_eq in H1. apply Z.eqb_eq in H2. now subst.
  - inversion H. now rewrite Weekday_eqb_refl, Z.eqb_refl.
Qed.

Lemma nonEmpty_filter {A} (p : A -> bool) l : nonEmpty (filter p l) = existsb p l.
Proof.
  induction l as [|x l IH]; cbn; [reflexivity|].
  destruct (p x); cbn; [reflexivity|assumption].
Qed.

(** The filter of [sanitizeNumberArray] is the range check. *)
Lemma sanitize_filter_inRange min max allowZero value :
  (if negb allowZero && (value =? 0) then false
   else if max <? value then false
   else if value <? min then false else true)
  = inRange min max allowZero value.
Proof.
  unfold inRange.
  destruct allowZero, (value =? 0); cbn [negb andb orb];
    rewrite ?Z.leb_antisym; destruct (max <? value), (value <? min); reflexivity.
Qed.

Lemma sanitizeNumberArray_kept values min max allowZero :
  keptOf min max allowZero values (sanitizeNumberArray values min max allowZero).
Proof.
  destruct values as [values|]; cbn; [|exact I].
  split; [apply uniqueBy_NoDup, Z_eqb_spec|].
  intros v. unfold unique. rewrite (uniqueBy_In Z.eqb Z_eqb_spec), filter_In.
  rewrite sanitize_filter_inRange. cbn [In]. tauto.
Qed.

Lemma sanitizeNumberArray_nonEmpty values min max allowZero :
  nonEmpty (orEmpty (sanitizeNumberArray values min max allowZero))
  = hasKept min max allowZero values.
Proof.
  unfold hasKept. destruct values as [values|]; cbn [sanitizeNumberArray orEmpty];
    [|reflexivity].
  unfold unique. rewrite uniqueBy_nonEmpty, nonEmpty_filter.
  induction values as [|v values IH]; cbn [existsb]; [reflexivity|].
  now rewrite sanitize_filter_inRange, IH.
Qed.

Lemma sanitizeWeekdayValueArray_kept values :
  keptWeekdaysOf values (sanitizeWeekdayValueArray values).
Proof.
  destruct values as [values|]; cbn; [|exact I].
  split; [apply uniqueBy_NoDup, WeekdayValue_same_spec|].
  intros v. unfold uniqueWeekdayValues.
  rewrite (uniqueBy_In _ WeekdayValue_same_spec), in_flat_map. cbn [In].
  split.
  - intros [(raw & Hin & Hv) _]. exists raw. split; [assumption|].
    destruct (sanitizeWeekdayValue raw); cbn in Hv; [|tauto].
    destruct Hv as [-> | []]. reflexivity.
  - intros (raw & Hin & Hv). split; [|tauto].
    exists raw. split; [assumption|]. rewrite Hv. now left.
Qed.

Lemma sanitizeWeekdayValueArray_nonEmpty values :
  nonEmpty (orEmpty (sanitizeWeekdayValueArray values)) = hasKeptWeekday values.
Proof.
  unfold hasKeptWeekday.
  destruct values as [values|]; cbn [sanitizeWeekdayValueArray orEmpty]; [|reflexivity].
  unfold uniqueWeekdayValues. rewrite uniqueBy_nonEmpty.
  induction values as [|raw values IH]; cbn [flat_map existsb]; [reflexivity|].
  destruct (sanitizeWeekdayValue raw); cbn [isSome app orb]; [reflexivity|exact IH].
Qed.

Lemma validateBySetPos_spec parsed :
  validateBySetPos parsed
  = negb (nonEmpty (orEmpty (bysetpos parsed)))
    || (nonEmpty (orEmpty (bymonth parsed))
        || nonEmpty (orEmpty (bymonthday parsed))
        || nonEmpty (orEmpty (byyearday parsed))
        || nonEmpty (orEmpty (byweekday parsed))
        || nonEmpty (orEmpty (byweekno parsed))
        || nonEmpty (orEmpty (byhour parsed))
        || nonEmpty (orEmpty (byminute parsed))
        || nonEmpty (orEmpty (bysecond parsed))).
Proof.
  unfold validateBySetPos. destruct (bysetpos parsed) as [[|p ps]|]; reflexivity.
Qed.

Lemma sanitizeUntilDate_spec value start :
  (exists u d, value = Some u /\ start = Some d /\ Calendar.compare u d < 0)
  /\ sanitizeUntilDate value start = Err UntilBeforeDtstart
  \/ ~ (exists u d, value = Some u /\ start = Some d /\ Calendar.compare u d < 0)
     /\ sanitizeUntilDate value start = Ok value.
Proof.
  unfold sanitizeUntilDate.
  destruct start as [d|]; [destruct value as [u|]|].
  - destruct (Calendar.compare u d <? 0) eqn:Hc.
    + left. apply Z.ltb_lt in Hc. split; [now exists u, d | reflexivity].
    + right. apply Z.ltb_ge in Hc. split; [|reflexivity].
      intros (u' & d' & Hu & Hd & Hlt). inversion Hu; inversion Hd; subst. lia.
  - right. split; [|reflexivity]. intros (u' & d' & Hu & _). discriminate.
  - right. split; [|reflexivity]. intros (u' & d' & _ & Hd & _). discriminate.
Qed.

Lemma sanitizeNumber_isSome value min :
  isSome (sanitizeNumber value min) = true <-> exists c, value = Some c /\ c <> 0.
Proof.
  unfold sanitizeNumber. destruct value as [v|]; cbn.
  - destruct (v =? 0) eqn:Hz; cbn.
    + apply Z.eqb_eq in Hz. split; [discriminate|].
      intros (c & Hc & Hn). inversion Hc. lia.
    + apply Z.eqb_neq in Hz. split; [|reflexivity]. intros _. now exists v.
  - split; [discriminate|]. intros (c & Hc & _). discriminate.
Qed.

(** Either the input has a structural violation and the sanitizer raises,
    or it has none and the sanitizer returns the record of the kept
    values. *)
Lemma sanitize_cases (o : Raw.RRuleOptions) :
  (structuralViolation o /\ exists e, sanitizeRRuleOptions o = Err e)
  \/ (~ structuralViolation o /\ sanitizeRRuleOptions o = Ok (sanitizedRecord o)).
Proof.
  unfold sanitizedRecord.
 unfold sanitizeRRuleOptions.
    destruct (sanitizeUntilDate_spec (Raw.until o) (Raw.dtstart o))
      as [[Hv ->] | [Hnv ->]]; cbn [bind].
    { left. split; [now left | eexists; reflexivity]. }
    cbn [count until].
    destruct (isSome (sanitizeNumber (Raw.count o) 1) && isSome (Raw.until o)) eqn:Hcu.
    { left. split; [|eexists; reflexivity].
      right; left. apply andb_true_iff in Hcu as [Hc Hu].
      apply sanitizeNumber_isSome in Hc as (c & Hc & Hnz).
      destruct (Raw.until o) as [u|] eqn:Hu'; [|discriminate].
      now exists c, u. }
    rewrite validateBySetPos_spec.
    cbn [bysetpos bymonth bymonthday byyearday byweekday byweekno byhour byminute bysecond].
    rewrite !sanitizeNumberArray_nonEmpty, sanitizeWeekdayValueArray_nonEmpty.
    assert (Hnocu : ~ countAndUntil o).
    { intros (c & u & Hc & Hnz & Hu).
      assert (H1 : isSome (sanitizeNumber (Raw.count o) 1) = true)
        by (apply sanitizeNumber_isSome; now exists c).
      rewrite H1, Hu in Hcu. discriminate. }
    destruct (hasKept (-366) 366 false (Raw.bysetpos o)) eqn:Hsp; cbn [negb orb].
    2:{ right. split; [|reflexivity].
        intros [H | [H | H]]; [tauto | tauto |].
        destruct H as [H _]. congruence. }
    destruct (hasKept 1 12 false (Raw.bymonth o)) eqn:H1;
      [right; split; [|reflexivity]; intros [H | [H | H]]; [tauto | tauto |];
       unfold bySetPosAlone in H; intuition congruence|].
    destruct (hasKept (-31) 31 false (Raw.bymonthday o)) eqn:H2;
      [right; split; [|reflexivity]; intros [H | [H | H]]; [tauto | tauto |];
       unfold bySetPosAlone in H; intuition congruence|].
    destruct (hasKept (-366) 366 false (Raw.byyearday o)) eqn:H3;
      [right; split; [|reflexivity]; intros [H | [H | H]]; [tauto | tauto |];
       unfold bySetPosAlone in H; intuition congruence|].
    destruct (hasKeptWeekday (Raw.byweekday o)) eqn:H4;
      [right; split; [|reflexivity]; intros [H | [H | H]]; [tauto | tauto |];
       unfold bySetPosAlone in H; intuition congruence|].
    destruct (hasKept (-53) 53 false (Raw.byweekno o)) eqn:H5;
      [right; split; [|reflexivity]; intros [H | [H | H]]; [tauto | tauto |];
       unfold bySetPosAlone in H; intuition congruence|].
    destruct (hasKept 0 23 true (Raw.byhour o)) eqn:H6;
      [right; split; [|reflexivity]; intros [H | [H | H]]; [tauto | tauto |];
       unfold bySetPosAlone in H; intuition congruence|].
    destruct (hasKept 0 59 true (Raw.byminute o)) eqn:H7;
      [right; split; [|reflexivity]; intros [H | [H | H]]; [tauto | tauto |];
       unfold bySetPosAlone in H; intuition congruence|].
    destruct (hasKept 0 59 true (Raw.bysecond o)) eqn:H8;
      [right; split; [|reflexivity]; intros [H | [H | H]]; [tauto | tauto |];
       unfold bySetPosAlone in H; intuition congruence|].
    left. split; [|eexists; reflexivity].
    right; right. unfold bySetPosAlone. tauto.
Qed.

(** C6, as amended.  Sanitization fails exactly on a structural violation,
    where the violations are read on the values the filters keep: UNTIL
    earlier than DTSTART; COUNT (other than 0) together with UNTIL; or a
    BYSETPOS that keeps a value while no other BY* selector keeps one.  On
    every other input it succeeds, and each selector of the result holds
    exactly the values of the input that are in range (and not a forbidden
    zero), each once; [byweekday] holds the entries that can be read. *)
Theorem sanitize_fails_exactly_on_structural_violations :
  forall o : Raw.RRuleOptions,
    (structuralViolation o <-> exists e, sanitizeRRuleOptions o = Err e)
    /\ (~ structuralViolation o <-> exists parsed, sanitizeRRuleOptions o = Ok parsed)
    /\ (forall parsed,
          sanitizeRRuleOptions o = Ok parsed ->
          freq parsed = sanitizeFrequency (Raw.freq o)
          /\ dtstart parsed = Raw.dtstart o
          /\ until parsed = Raw.until o
          /\ keptOf (-366) 366 false (Raw.bysetpos o) (bysetpos parsed)
          /\ keptOf 1 12 false (Raw.bymonth o) (bymonth parsed)
          /\ keptOf (-31) 31 false (Raw.bymonthday o) (bymonthday parsed)
          /\ keptOf (-366) 366 false (Raw.byyearday o) (byyearday parsed)
          /\ keptWeekdaysOf (Raw.byweekday o) (byweekday parsed)
          /\ keptOf (-53) 53 false (Raw.byweekno o) (byweekno parsed)
          /\ keptOf 0 23 true (Raw.byhour o) (byhour parsed)
          /\ keptOf 0 59 true (Raw.byminute o) (byminute parsed)
          /\ keptOf 0 59 true (Raw.bysecond o) (bysecond parsed)).
Proof.
  intros o.
  destruct (sanitize_cases o) as [[Hv (e & He)] | [Hnv Hok]].
  - split; [|split].
    + split; [intros _; now exists e | intros _; exact Hv].
    + split; [tauto|]. intros (p & Hp). congruence.
    + intros p Hp. congruence.
  - split; [|split].
    + split; [tauto|]. intros (e & He). congruence.
    + split; [intros _; eexists; exact Hok | intros _; exact Hnv].
    + intros p Hp. rewrite Hok in Hp. inversion Hp; subst p. unfold sanitizedRecord.
      cbn [freq dtstart until bysetpos bymonth bymonthday byyearday byweekday
           byweekno byhour byminute bysecond].
      repeat split; try apply sanitizeNumberArray_kept;
        try apply sanitizeWeekdayValueArray_kept.
Qed.

(** C6, the claim as stated fails: BYSETPOS with a BYMONTH whose only
    value is out of range raises, although another BY* selector was given;
    and COUNT = 0 together with UNTIL is accepted. *)
Lemma sanitize_checks_after_filtering :
  Raw.bysetpos setposWithBadMonth = Some [1]
  /\ Raw.bymonth setposWithBadMonth = Some [13]
  /\ sanitizeRRuleOptions setposWithBadMonth = Err BySetPosAlone
  /\ Raw.count countZeroWithUntil = Some 0
  /\ Raw.until countZeroWithUntil = Some (CalendarDate 2025 12 31)
  /\ exists parsed, sanitizeRRuleOptions countZeroWithUntil = Ok parsed
                    /\ count parsed = None.
Proof.
  repeat split. eexists. split; vm_compute; reflexivity.
Qed.

(* ===================================================================== *)
(** * Text: splitting, joining, unfolding *)
(* ===================================================================== *)

Lemma split_none sep s : noChar sep s = true -> split sep s = [s].
Proof.
  induction s as [|c s IH]; cbn; [reflexivity|].
  intros H. apply andb_true_iff in H as [Hc Hs].
  apply negb_true_iff in Hc. now rewrite Hc, (IH Hs).
Qed.

Lemma split_cons sep a b :
  noChar sep a = true -> split sep (a ++ sep :: b) = a :: split sep b.
Proof.
  induction a as [|c a IH]; cbn [app split noChar forallb].
  - intros _. now rewrite Ascii.eqb_refl.
  - intros H. apply andb_true_iff in H as [Hc Ha].
    apply negb_true_iff in Hc. now rewrite Hc, (IH Ha).
Qed.

Lemma split_join sep parts :
  parts <> [] -> forallb (noChar sep) parts = true ->
  split sep (join sep parts) = parts.
Proof.
  induction parts as [|p ps IH]; [congruence|]. intros _ H.
  cbn [forallb] in H. apply andb_true_iff in H as [Hp Hps].
  destruct ps as [|q ps].
  - cbn [join]. now apply split_none.
  - change (join sep (p :: q :: ps)) with (p ++ sep :: join sep (q :: ps)).
    rewrite split_cons by assumption. f_equal. apply IH; [discriminate|assumption].
Qed.

Lemma noWhite_trimStart s : noWhite s = true -> trimStart s = s.
Proof.
  destruct s as [|c s]; [reflexivity|]. cbn. intros H.
  apply andb_true_iff in H as [Hc _]. apply negb_true_iff in Hc. now rewrite Hc.
Qed.

Lemma noWhite_rev s : noWhite s = true -> noWhite (rev s) = true.
Proof.
  unfold noWhite. rewrite !forallb_forall. intros H c Hc.
  apply H. now apply in_rev.
Qed.

Lemma noWhite_trim s : noWhite s = true -> trim s = s.
Proof.
  intros H. unfold trim, trimEnd.
  rewrite (noWhite_trimStart s H), (noWhite_trimStart _ (noWhite_rev s H)).
  apply rev_involutive.
Qed.

Lemma noWhite_app a b : noWhite (a ++ b) = noWhite a && noWhite b.
Proof. apply forallb_app. Qed.

Lemma noWhite_join sep parts :
  isWhite sep = false -> forallb noWhite parts = true ->
  noWhite (join sep parts) = true.
Proof.
  intros Hsep. induction parts as [|p ps IH]; [reflexivity|].
  cbn [forallb]. intros H. apply andb_true_iff in H as [Hp Hps].
  destruct ps as [|q ps]; [exact Hp|].
  change (join sep (p :: q :: ps)) with (p ++ sep :: join sep (q :: ps)).
  rewrite noWhite_app, Hp. cbn [noWhite forallb andb]. rewrite Hsep. cbn [negb andb].
  now apply IH.
Qed.

Lemma join_nonEmpty sep p ps : nonEmpty p = true -> nonEmpty (join sep (p :: ps)) = true.
Proof. destruct p; [discriminate|]. intros _. now destruct ps. Qed.

Lemma map_id_on {A} (f : A -> A) l :
  (forall x, In x l -> f x = x) -> map f l = l.
Proof.
  induction l as [|x l IH]; cbn; [reflexivity|]. intros H.
  rewrite H by now left. f_equal. apply IH. intros y Hy. apply H. now right.
Qed.

Lemma filter_all {A} (p : A -> bool) l : forallb p l = true -> filter p l = l.
Proof.
  induction l as [|x l IH]; cbn; [reflexivity|]. intros H.
  apply andb_true_iff in H as [Hx Hl]. now rewrite Hx, (IH Hl).
Qed.

(** Joining items and splitting them again gives the items back, when no
    item is empty, has white space or holds the separator. *)
Lemma parseList_join sep parts :
  parts <> [] -> isWhite sep = false ->
  forallb (fun p => nonEmpty p && noWhite p && noChar sep p) parts = true ->
  parseList (join sep parts) sep = parts.
Proof.
  intros Hne Hsep Hall.
  assert (Hsplit : forallb (noChar sep) parts = true
                   /\ forallb noWhite parts = true
                   /\ forallb (fun p => nonEmpty p) parts = true).
  { rewrite !forallb_forall in *. repeat split; intros p Hp;
      specialize (Hall p Hp); apply andb_true_iff in Hall as [Hall H3];
      apply andb_true_iff in Hall as [H1 H2]; assumption. }
  destruct Hsplit as (H1 & H2 & H3).
  unfold parseList.
  rewrite (noWhite_trim _ (noWhite_join sep parts Hsep H2)).
  destruct parts as [|p ps]; [congruence|].
  assert (Hj : nonEmpty (join sep (p :: ps)) = true).
  { apply join_nonEmpty. cbn [forallb] in H3. now apply andb_true_iff in H3 as [? _]. }
  destruct (join sep (p :: ps)) eqn:Hjoin; [discriminate|]. rewrite <- Hjoin.
  rewrite split_join by (assumption || discriminate).
  rewrite map_id_on.
  - now apply filter_all.
  - intros x Hx. apply noWhite_trim. rewrite forallb_forall in H2. now apply H2.
Qed.



Lemma plainChar_facts c :
  plainChar c = true ->
  isWhite c = false /\ Ascii.eqb c ";" = false /\ Ascii.eqb c "=" = false
  /\ toUpper c = c.
Proof.
  destruct c as [[] [] [] [] [] [] [] []]; cbn; intros H;
    try discriminate; repeat split.
Qed.

Lemma itemChar_facts c :
  itemChar c = true -> plainChar c = true /\ Ascii.eqb c "," = false.
Proof.
  destruct c as [[] [] [] [] [] [] [] []]; cbn; intros H;
    try discriminate; repeat split.
Qed.

Lemma plain_text s :
  forallb plainChar s = true ->
  noWhite s = true /\ noChar ";" s = true /\ noChar "=" s = true
  /\ toUpperCase s = s.
Proof.
  induction s as [|c s IH]; [repeat split|].
  cbn [forallb]. intros H. apply andb_true_iff in H as [Hc Hs].
  destruct (plainChar_facts c Hc) as (H1 & H2 & H3 & H4).
  destruct (IH Hs) as (I1 & I2 & I3 & I4).
  unfold noWhite, noChar, toUpperCase in *. cbn [forallb map].
  rewrite H1, H2, H3, H4, I1, I2, I3, I4. repeat split.
Qed.

Lemma item_text s :
  forallb itemChar s = true ->
  forallb plainChar s = true /\ noChar "," s = true.
Proof.
  induction s as [|c s IH]; [repeat split|].
  cbn [forallb]. intros H. apply andb_true_iff in H as [Hc Hs].
  destruct (itemChar_facts c Hc) as (H1 & H2).
  destruct (IH Hs) as (I1 & I2).
  unfold noChar in *. cbn [forallb]. rewrite H1, H2, I1, I2. repeat split.
Qed.

Lemma digit_itemChar c : isDigit c = true -> itemChar c = true.
Proof. unfold itemChar. intros ->. now rewrite orb_true_r. Qed.

Lemma digits_itemChars ds : forallb isDigit ds = true -> forallb itemChar ds = true.
Proof.
  rewrite !forallb_forall. intros H c Hc. apply digit_itemChar, H, Hc.
Qed.

Lemma String_itemChars n :
  isSafeInteger n = true -> forallb itemChar (String_ n) = true /\ String_ n <> [].
Proof.
  intros Hs. rewrite (String_safe n Hs).
  unfold decimal, decimalDigits. destruct (n <? 0) eqn:Hn.
  - apply Z.ltb_lt in Hn. split; [|discriminate].
    cbn [forallb]. rewrite digits_itemChars by (apply digitsOf_digits; lia). reflexivity.
  - apply Z.ltb_ge in Hn. split; [|apply digitsOf_nonempty].
    apply digits_itemChars, digitsOf_digits. lia.
Qed.






(* ===================================================================== *)
(** * Reading back what the formatter writes: the values *)
(* ===================================================================== *)







Lemma uniqueBy_disjoint {A} (eqb : A -> A -> bool)
  (eqb_spec : forall a b, eqb a b = true <-> a = b) (l : list A) :
  forall seen, NoDup l -> (forall x, In x l -> ~ In x seen) -> uniqueBy eqb seen l = l.
Proof.
  induction l as [|x l IH]; intros seen Hnd Hdis; cbn [uniqueBy]; [reflexivity|].
  inversion Hnd as [|? ? Hx Hl]; subst.
  destruct (existsb (eqb x) seen) eqn:Hs.
  - apply (existsb_eqb_In eqb eqb_spec) in Hs. exfalso. apply (Hdis x); [now left|assumption].
  - f_equal. apply IH; [assumption|].
    intros y Hy Hin. apply in_app_iff in Hin as [Hin | [-> | []]].
    + apply (Hdis y); [now right|assumption].
    + contradiction.
Qed.

Lemma unique_NoDup l : NoDup l -> unique l = l.
Proof.
  intros H. apply (uniqueBy_disjoint Z.eqb Z_eqb_spec); [assumption|]. intros x _ [].
Qed.

Lemma uniqueWeekdayValues_NoDup l : NoDup l -> uniqueWeekdayValues l = l.
Proof.
  intros H. apply (uniqueBy_disjoint _ WeekdayValue_same_spec); [assumption|].
  intros x _ [].
Qed.

Lemma String_tidy_item n :
  isSafeInteger n = true ->
  nonEmpty (String_ n) && noWhite (String_ n) && noChar "," (String_ n) = true.
Proof.
  intros Hs. destruct (String_itemChars n Hs) as [Hi Hne].
  destruct (item_text _ Hi) as [Hp Hc].
  destruct (plain_text _ Hp) as (Hw & _).
  rewrite Hw, Hc. now destruct (String_ n).
Qed.

Lemma parseIntegerList_numbers l :
  l <> [] -> forallb isSafeInteger l = true ->
  parseIntegerList (numbers l) "," = l.
Proof.
  intros Hne Hsafe. unfold parseIntegerList, numbers.
  rewrite parseList_join.
  - clear Hne. induction l as [|n l IH]; [reflexivity|].
    cbn [forallb] in Hsafe. apply andb_true_iff in Hsafe as [Hn Hl].
    cbn [map flat_map]. rewrite parseInteger_String, IH by assumption. reflexivity.
  - destruct l; [congruence|discriminate].
  - reflexivity.
  - rewrite forallb_forall in *. intros p Hp.
    apply in_map_iff in Hp as (n & <- & Hn).
    apply String_tidy_item, Hsafe, Hn.
Qed.

Lemma checkNumbers_all key l min max excludeZero :
  (forall v, In v l -> inRange min max (negb excludeZero) v = true) ->
  checkNumbers key l min max excludeZero true = Ok l.
Proof.
  induction l as [|v l IH]; intros H; cbn [checkNumbers]; [reflexivity|].
  pose proof (H v (or_introl eq_refl)) as Hv. unfold inRange in Hv.
  apply andb_true_iff in Hv as [Hv Hmax]. apply andb_true_iff in Hv as [Hz Hmin].
  assert (Hzero : excludeZero && (v =? 0) = false).
  { destruct excludeZero; [|reflexivity]. cbn in Hz |- *. now apply negb_true_iff in Hz. }
  rewrite Hzero. unfold isNumberInRange. rewrite Hmin, Hmax. cbn [andb negb].
  rewrite IH; [reflexivity|]. intros x Hx. apply H. now right.
Qed.




(** An ordinal the formatter writes with all its digits. *)
Lemma ordinal_safe n : -53 <= n <= 53 -> isSafeInteger n = true.
Proof. intros H. apply small_safe. lia. Qed.

(** The written form of a weekday term is read back as the term. *)
Lemma parseWeekdayValue_format v :
  match v with Bare _ => True | Nth _ n => n <> 0 /\ -53 <= n <= 53 end ->
  parseWeekdayValue (formatWeekdayValue v) = Ok v.
Proof.
  destruct v as [w|w n]; [intros _; now destruct w|].
  intros [Hn Hr]. unfold formatWeekdayValue.
  assert (Hz : (n =? 0) = false) by now apply Z.eqb_neq. rewrite Hz.
  pose proof (token_two_digits false n w ltac:(lia)) as Ht.
  unfold ordinalToken in Ht. cbn [andb app] in Ht.
  unfold sanitizeWeekdayValue, isWeekdayValue in Ht.
  rewrite asWeekday_long in Ht.
  - cbn [isSome] in Ht.
    unfold tokenVerdict in Ht.
    assert (Hv : (1 <=? Z.abs n) && (Z.abs n <=? 53) = true).
    { apply andb_true_iff. split; apply Z.leb_le; lia. }
    rewrite Hv in Ht.
    destruct (parseWeekdayValue (String_ n ++ weekdayText w)); [|discriminate].
    now inversion Ht.
  - rewrite length_app. destruct (String_itemChars n (ordinal_safe n Hr)) as [_ Hne].
    destruct (String_ n); [congruence|]. destruct w; cbn; lia.
Qed.






(* ===================================================================== *)
(** * Reading back what the formatter writes: date values *)
(* ===================================================================== *)

Lemma pad4_checked : forallb (padChecked 4) (countFrom 0 (Z.to_nat 10000)) = true.
Proof. vm_compute. reflexivity. Qed.

Lemma pad2_checked : forallb (padChecked 2) (countFrom 0 (Z.to_nat 100)) = true.
Proof. vm_compute. reflexivity. Qed.

Lemma padChecked_facts width v :
  padChecked width v = true ->
  List.length (padZero v width) = width
  /\ forallb isDigit (padZero v width) = true
  /\ parseInteger (padZero v width) = Some v.
Proof.
  unfold padChecked. intros H.
  apply andb_true_iff in H as [H H3]. apply andb_true_iff in H as [H1 H2].
  apply Nat.eqb_eq in H1. repeat split; try assumption.
  destruct (parseInteger (padZero v width)); [|discriminate].
  apply Z.eqb_eq in H3. now subst.
Qed.

(** A four-digit field. *)
Lemma pad4 v :
  0 <= v <= 9999 ->
  exists a b c d,
    padZero v 4 = [a; b; c; d]
    /\ isDigit a = true /\ isDigit b = true /\ isDigit c = true /\ isDigit d = true
    /\ parseInteger [a; b; c; d] = Some v.
Proof.
  intros Hv. pose proof pad4_checked as H. rewrite forallb_forall in H.
  destruct (padChecked_facts 4 v (H v (countFrom_In (Z.to_nat 10000) 0 v ltac:(lia))))
    as (Hl & Hd & Hp).
  destruct (padZero v 4) as [|a [|b [|c [|d [|e r]]]]]; cbn in Hl; try lia.
  exists a, b, c, d. cbn [forallb] in Hd.
  apply andb_true_iff in Hd as [Ha Hd]. apply andb_true_iff in Hd as [Hb Hd].
  apply andb_true_iff in Hd as [Hc Hd]. apply andb_true_iff in Hd as [Hd _].
  repeat split; assumption.
Qed.

(** A two-digit field. *)
Lemma pad2 v :
  0 <= v <= 99 ->
  exists a b,
    padZero v 2 = [a; b]
    /\ isDigit a = true /\ isDigit b = true
    /\ parseInteger [a; b] = Some v.
Proof.
  intros Hv. pose proof pad2_checked as H. rewrite forallb_forall in H.
  destruct (padChecked_facts 2 v (H v (countFrom_In (Z.to_nat 100) 0 v ltac:(lia))))
    as (Hl & Hd & Hp).
  destruct (padZero v 2) as [|a [|b [|c r]]]; cbn in Hl; try lia.
  exists a, b. cbn [forallb] in Hd.
  apply andb_true_iff in Hd as [Ha Hd]. apply andb_true_iff in Hd as [Hb _].
  repeat split; assumption.
Qed.

Lemma digit_not_Z c : isDigit c = true -> Ascii.eqb c "Z" = false.
Proof.
  intros H. destruct (Ascii.eqb c "Z") eqn:E; [|reflexivity].
  apply Ascii.eqb_eq in E. subst. discriminate.
Qed.


Ltac digit_facts :=
  repeat match goal with
         | H : isDigit ?c = true |- _ =>
             lazymatch goal with
             | _ : isWhite c = false |- _ => fail
             | _ => pose proof (isDigit_not_white c H);
                    pose proof (digit_not_Z c H)
             end
         end.

Ltac bools :=
  repeat match goal with
         | H : _ && _ = true |- _ => apply andb_true_iff in H as [H ?]
         end;
  repeat match goal with
         | H : (_ <=? _) = true |- _ => apply Z.leb_le in H
         | H : (_ =? _) = true |- _ => apply Z.eqb_eq in H
         | H : String.eqb _ _ = true |- _ => apply String.eqb_eq in H
         end.

Lemma hostParse_date y m d :
  1 <= y <= 9999 -> 1 <= m <= 12 -> 1 <= d <= Calendar.daysInMonthOf y m ->
  hostParse false y m d None = Ok (CalendarDate y m d).
Proof.
  intros Hy Hm Hd. unfold hostParse.
  assert (H : (1 <=? y) && (y <=? 9999) && (1 <=? m) && (m <=? 12)
              && (1 <=? d) && (d <=? Calendar.daysInMonthOf y m) = true).
  { repeat (apply andb_true_iff; split); apply Z.leb_le; lia. }
  now rewrite H.
Qed.

Lemma hostParse_time zulu y m d h mi s :
  1 <= y <= 9999 -> 1 <= m <= 12 -> 1 <= d <= Calendar.daysInMonthOf y m ->
  0 <= h <= 23 -> 0 <= mi <= 59 -> 0 <= s <= 59 ->
  hostParse zulu y m d (Some (h, mi, s))
  = Ok (if zulu then ZonedDateTime y m d h mi s 0 "UTC" 0
        else CalendarDateTime y m d h mi s 0).
Proof.
  intros Hy Hm Hd Hh Hmi Hs. unfold hostParse.
  assert (H : (1 <=? y) && (y <=? 9999) && (1 <=? m) && (m <=? 12)
              && (1 <=? d) && (d <=? Calendar.daysInMonthOf y m) = true).
  { repeat (apply andb_true_iff; split); apply Z.leb_le; lia. }
  assert (H' : (0 <=? h) && (h <=? 23) && (0 <=? mi) && (mi <=? 59)
               && (0 <=? s) && (s <=? 59) = true).
  { repeat (apply andb_true_iff; split); apply Z.leb_le; lia. }
  rewrite H, H'. now destruct zulu.
Qed.

Lemma nth_bounded (l : list Z) : forall n, Forall (fun x => x <= 31) l -> nth n l 0 <= 31.
Proof.
  induction l as [|x l IH]; intros [|n] H; cbn; try lia.
  - now inversion H.
  - apply IH. now inversion H.
Qed.

Lemma daysInMonthOf_le y m : Calendar.daysInMonthOf y m <= 31.
Proof.
  unfold Calendar.daysInMonthOf.
  destruct (Calendar.isLeapYear y); apply nth_bounded;
    repeat constructor; lia.
Qed.

(** The written form of a date value the line can carry is read back as
    the value, and it is a plain text. *)
Lemma parseICSDateValue_format u :
  carriedDate u = true ->
  parseICSDateValue (formatICSDateValue u) = Ok u
  /\ trim (formatICSDateValue u) = formatICSDateValue u
  /\ forallb plainChar (formatICSDateValue u) = true
  /\ nonEmpty (formatICSDateValue u) = true.
Proof.
  intros Hc.
  destruct u as [y m d | y m d h mi s ms | y m d h mi s ms tz off];
    cbn [carriedDate Calendar.year Calendar.month Calendar.day] in Hc; bools;
    pose proof (daysInMonthOf_le y m) as Hdim;
    destruct (pad4 y ltac:(lia)) as (y1 & y2 & y3 & y4 & Ey & ? & ? & ? & ? & Py);
    destruct (pad2 m ltac:(lia)) as (m1 & m2 & Em & ? & ? & Pm);
    destruct (pad2 d ltac:(lia)) as (d1 & d2 & Ed & ? & ? & Pd).
  - unfold formatICSDateValue. cbn [Calendar.year Calendar.month Calendar.day].
    rewrite Ey, Em, Ed. cbn [app]. digit_facts.
    assert (Htrim : trim [y1; y2; y3; y4; m1; m2; d1; d2]
                    = [y1; y2; y3; y4; m1; m2; d1; d2]).
    { apply noWhite_trim. cbn. now repeat match goal with
                                       | H : isWhite _ = false |- _ => rewrite H; clear H
                                       end. }
    split; [|split; [exact Htrim|split; [|reflexivity]]].
    + unfold parseICSDateValue. rewrite Htrim.
      unfold matchICSDate. cbn [firstn skipn forallb List.length slice Nat.sub].
      repeat match goal with H : isDigit _ = true |- _ => rewrite H; clear H end.
      cbn [andb negb Nat.eqb]. rewrite Py, Pm, Pd.
      change (parseInteger []) with (@None Z). cbv iota.
      apply hostParse_date; lia.
    + cbn [forallb]. unfold plainChar.
      repeat match goal with H : isDigit _ = true |- _ => rewrite H; clear H end.
      now rewrite ?orb_true_r.
  - destruct (pad2 h ltac:(lia)) as (h1 & h2 & Eh & ? & ? & Ph).
    destruct (pad2 mi ltac:(lia)) as (i1 & i2 & Ei & ? & ? & Pi).
    destruct (pad2 s ltac:(lia)) as (s1 & s2 & Es & ? & ? & Ps).
    unfold formatICSDateValue. cbn [Calendar.year Calendar.month Calendar.day].
    rewrite Ey, Em, Ed, Eh, Ei, Es. cbn [app]. digit_facts.
    set (T := [y1; y2; y3; y4; m1; m2; d1; d2; "T"%char; h1; h2; i1; i2; s1; s2]).
    assert (Htrim : trim T = T).
    { apply noWhite_trim. unfold T. cbn.
      now repeat match goal with
                 | H : isWhite _ = false |- _ => rewrite H; clear H
                 end. }
    split; [|split; [exact Htrim|split; [|reflexivity]]].
    + unfold parseICSDateValue. rewrite Htrim.
      unfold matchICSDate, T, endsWithZ.
      cbn [firstn skipn forallb List.length slice Nat.sub rev app].
      repeat match goal with H : isDigit _ = true |- _ => rewrite H; clear H end.
      repeat match goal with H : Ascii.eqb _ "Z" = false |- _ => rewrite H; clear H end.
      cbn [andb negb Nat.eqb Ascii.eqb Bool.eqb]. rewrite Py, Pm, Pd, Ph, Pi, Ps.
      rewrite hostParse_time by lia. subst ms. reflexivity.
    + unfold T. cbn [forallb]. unfold plainChar.
      repeat match goal with H : isDigit _ = true |- _ => rewrite H; clear H end.
      now rewrite ?orb_true_r.
  - destruct (pad2 h ltac:(lia)) as (h1 & h2 & Eh & ? & ? & Ph).
    destruct (pad2 mi ltac:(lia)) as (i1 & i2 & Ei & ? & ? & Pi).
    destruct (pad2 s ltac:(lia)) as (s1 & s2 & Es & ? & ? & Ps).
    unfold formatICSDateValue. cbn [Calendar.year Calendar.month Calendar.day].
    subst tz off ms. change (isUTC "UTC") with true. cbv iota.
    rewrite Ey, Em, Ed, Eh, Ei, Es. cbn [app]. digit_facts.
    set (T := [y1; y2; y3; y4; m1; m2; d1; d2; "T"%char; h1; h2; i1; i2; s1; s2;
               "Z"%char]).
    assert (Htrim : trim T = T).
    { apply noWhite_trim. unfold T. cbn.
      now repeat match goal with
                 | H : isWhite _ = false |- _ => rewrite H; clear H
                 end. }
    split; [|split; [exact Htrim|split; [|reflexivity]]].
    + unfold parseICSDateValue. rewrite Htrim.
      unfold matchICSDate, T, endsWithZ.
      cbn [firstn skipn forallb List.length slice Nat.sub rev app].
      repeat match goal with H : isDigit _ = true |- _ => rewrite H; clear H end.
      cbn [andb negb Nat.eqb Ascii.eqb Bool.eqb]. rewrite Py, Pm, Pd, Ph, Pi, Ps.
      rewrite hostParse_time by lia. reflexivity.
    + unfold T. cbn [forallb]. unfold plainChar.
      repeat match goal with H : isDigit _ = true |- _ => rewrite H; clear H end.
      now rewrite ?orb_true_r.
Qed.


(* ===================================================================== *)
(** * Reading back what the formatter writes: the line *)
(* ===================================================================== *)













Lemma sanitizeNumber_min value i : sanitizeNumber value 1 = Some i -> 1 <= i.
Proof.
  unfold sanitizeNumber. destruct value as [v|]; [|discriminate].
  destruct (v =? 0); [discriminate|].
  destruct (v <? 1) eqn:H; intros E; inversion E; subst; [lia|].
  apply Z.ltb_ge in H. lia.
Qed.

Lemma keptOf_keptList min max allowZero given result :
  keptOf min max allowZero given result ->
  keptList min max (negb allowZero) result.
Proof.
  unfold keptOf, keptList. destruct given, result; try tauto.
  intros [Hnd H]. split; [assumption|]. intros v Hv.
  rewrite negb_involutive. now apply H.
Qed.

Lemma parseWeekdayValue_range s w n :
  parseWeekdayValue s = Ok (Nth w n) -> -53 <= n <= 53.
Proof.
  unfold parseWeekdayValue.
  destruct (toUpperCase (trim s)); [discriminate|].
  destruct (matchWeekdayValue _) as [[occ wd]|]; [|discriminate].
  destruct (asWeekday wd); [|discriminate].
  destruct occ as [occ|]; [|discriminate].
  destruct (parseInteger occ) as [k|]; [|discriminate].
  destruct (k =? 0); [discriminate|].
  destruct ((k <? -53) || (53 <? k)) eqn:H; [discriminate|].
  intros E. inversion E; subst.
  apply orb_false_iff in H as [H1 H2].
  apply Z.ltb_ge in H1. apply Z.ltb_ge in H2. lia.
Qed.

Lemma sanitizeWeekdayValue_range raw v :
  sanitizeWeekdayValue raw = Some v -> termInRange v.
Proof.
  unfold sanitizeWeekdayValue, isWeekdayValue.
  destruct raw as [s|w n].
  - destruct (asWeekday s) as [w|]; cbn [isSome option_map].
    + intros E. inversion E. exact I.
    + destruct (parseWeekdayValue s) as [x|] eqn:Hp; [|discriminate].
      intros E. inversion E; subst. destruct v as [w|w n]; [exact I|].
      cbn. eapply parseWeekdayValue_range, Hp.
  - destruct ((-53 <? n) && (n <? 53)) eqn:H; [|discriminate].
    intros E. inversion E; subst. cbn.
    apply andb_true_iff in H as [H1 H2].
    apply Z.ltb_lt in H1. apply Z.ltb_lt in H2. lia.
Qed.

(** What a sanitized rule is known to satisfy. *)
Lemma sanitized_facts o R :
  sanitizeRRuleOptions o = Ok R ->
  (forall i, interval R = Some i -> 1 <= i)
  /\ (forall c, count R = Some c -> 1 <= c)
  /\ isSome (count R) && isSome (until R) = false
  /\ (forall u d, until R = Some u -> dtstart R = Some d ->
                  (Calendar.compare u d <? 0) = false)
  /\ keptList (-366) 366 true (bysetpos R)
  /\ keptList 1 12 true (bymonth R)
  /\ keptList (-31) 31 true (bymonthday R)
  /\ keptList (-366) 366 true (byyearday R)
  /\ keptList (-53) 53 true (byweekno R)
  /\ keptList 0 23 false (byhour R)
  /\ keptList 0 59 false (byminute R)
  /\ keptList 0 59 false (bysecond R)
  /\ match byweekday R with
     | Some days => NoDup days /\ forall v, In v days -> termInRange v
     | None => True
     end.
Proof.
  intros Hs.
  destruct (sanitize_cases o) as [[_ (e & He)] | [Hnv Hok]]; [congruence|].
  rewrite Hok in Hs. inversion Hs; subst R. clear Hs Hok.
  unfold sanitizedRecord.
  cbn [interval count until dtstart bysetpos bymonth bymonthday byyearday
       byweekno byhour byminute bysecond byweekday].
  split; [intros i; apply sanitizeNumber_min|].
  split; [intros c; apply sanitizeNumber_min|].
  split.
  { destruct (isSome (sanitizeNumber (Raw.count o) 1)) eqn:Hc; [|reflexivity].
    destruct (Raw.until o) as [u|] eqn:Hu; [|reflexivity].
    exfalso. apply Hnv. right; left.
    apply sanitizeNumber_isSome in Hc as (c & Hc & Hz). now exists c, u. }
  split.
  { intros u d Hu Hd. apply Z.ltb_ge.
    destruct (Z_lt_ge_dec (Calendar.compare u d) 0) as [Hlt|Hge]; [|lia].
    exfalso. apply Hnv. left. now exists u, d. }
  repeat (split;
          [ match goal with
            | |- keptList ?a ?b true _ =>
                apply (keptOf_keptList a b false _ _ (sanitizeNumberArray_kept _ a b false))
            | |- keptList ?a ?b false _ =>
                apply (keptOf_keptList a b true _ _ (sanitizeNumberArray_kept _ a b true))
            end |]).
  pose proof (sanitizeWeekdayValueArray_kept (Raw.byweekday o)) as Hk.
  unfold keptWeekdaysOf in Hk.
  destruct (Raw.byweekday o) as [given|];
    destruct (sanitizeWeekdayValueArray _) as [days|]; try tauto.
  destruct Hk as [Hnd Hin]. split; [assumption|].
  intros v Hv. apply Hin in Hv as (raw & _ & Hraw).
  eapply sanitizeWeekdayValue_range, Hraw.
Qed.









(* ===================================================================== *)
(** * Reading back the block with DTSTART *)
(* ===================================================================== *)


Lemma noWhite_head s : noWhite s = true -> headBlank s = false.
Proof.
  destruct s as [|c s]; [reflexivity|]. cbn. intros H.
  apply andb_true_iff in H as [Hc _]. apply negb_true_iff in Hc.
  destruct c as [[] [] [] [] [] [] [] []]; try reflexivity; discriminate.
Qed.







Lemma plain_notColon s : forallb plainChar s = true -> forallb notColon s = true.
Proof.
  rewrite !forallb_forall. intros H c Hc. specialize (H c Hc).
  destruct c as [[] [] [] [] [] [] [] []]; try reflexivity; discriminate.
Qed.





Lemma string_text s : string_of_list_ascii (str s) = s.
Proof. apply string_of_list_ascii_of_string. Qed.









(* ===================================================================== *)
(** * The generator keeps COUNT, UNTIL and DTSTART *)
(* ===================================================================== *)

(** One period under COUNT: the counter grows by what is yielded, stays
    within the count, and the period ends the generator once the count is
    reached. *)
Lemma emitPeriod_count start untilDate c filtered :
  forall emitted yielded ys e y r,
    emitPeriod start untilDate (Some c) filtered emitted yielded = (ys, e, y, r) ->
    emitted = 0 \/ emitted < c ->
    e = emitted + Z.of_nat (List.length ys)
    /\ e <= Z.max 1 c
    /\ (r = false -> e = 0 \/ e < c).
Proof.
  induction filtered as [|date rest IH]; intros emitted yielded ys e y r H Hinv.
  - cbn in H. inversion H; subst. cbn. split; [lia|]. split; [lia|]. intros _. lia.
  - cbn [emitPeriod] in H.
    destruct (compareDates date start <? 0).
    { eapply IH; eassumption. }
    destruct (match untilDate with Some u => 0 <? compareDates date u | None => false end).
    { inversion H; subst. cbn. split; [lia|]. split; [lia|]. discriminate. }
    destruct (c <=? emitted + 1) eqn:Hc.
    { inversion H; subst. cbn. split; [lia|]. split; [lia|]. discriminate. }
    apply Z.leb_gt in Hc.
    destruct (emitPeriod start untilDate (Some c) rest (emitted + 1) true)
      as [[[ys' e'] y'] r'] eqn:E.
    inversion H; subst.
    destruct (IH _ _ _ _ _ _ E) as (He & Hle & Hr); [lia|].
    cbn [List.length]. split; [lia|]. split; [lia|]. exact Hr.
Qed.

Lemma generateLoop_count (fuel : nat) options maxIterations start step c :
  count options = Some c ->
  forall cursor emitted iterations empties,
    emitted = 0 \/ emitted < c ->
    emitted
    + Z.of_nat (List.length (yields (generateLoop fuel options maxIterations start step
                                       cursor emitted iterations empties)))
    <= Z.max 1 c.
Proof.
  intros Hc. induction fuel as [|fuel IH]; intros cursor emitted iterations empties Hinv.
  - cbn. lia.
  - cbn [generateLoop]. destruct (maxIterations <? iterations); [cbn; lia|].
    rewrite Hc.
    destruct (emitPeriod start (until options) (Some c) _ emitted false)
      as [[[ys e] y] r] eqn:E.
    destruct (emitPeriod_count _ _ _ _ _ _ _ _ _ _ E Hinv) as (He & Hle & Hr).
    destruct r; [cbn [yields]; lia|].
    match goal with |- context [if ?b then _ else _] => destruct b end;
      [cbn [yields]; lia|].
    cbn [yields]. rewrite length_app, Nat2Z.inj_add.
    match goal with
    | |- context [generateLoop fuel _ _ _ _ ?cur ?em ?it ?ep] =>
        specialize (IH cur em it ep (Hr eq_refl))
    end.
    lia.
Qed.

(** One period: what is yielded is not before DTSTART and not after
    UNTIL, and comes from the period's candidates in their order. *)
Lemma emitPeriod_bounds start untilDate countLimit filtered :
  forall emitted yielded ys e y r,
    emitPeriod start untilDate countLimit filtered emitted yielded = (ys, e, y, r) ->
    Forall (fun d => 0 <= compareDates d start
                     /\ (forall u, untilDate = Some u -> compareDates d u <= 0)
                     /\ In d filtered) ys.
Proof.
  induction filtered as [|date rest IH]; intros emitted yielded ys e y r H.
  - cbn in H. inversion H; subst. constructor.
  - cbn [emitPeriod] in H.
    destruct (compareDates date start <? 0) eqn:Hs.
    { eapply Forall_impl; [|eapply IH; eassumption].
      cbn. intros d (A & B & C). auto. }
    apply Z.ltb_ge in Hs.
    assert (Hsplit :
      (exists u, untilDate = Some u /\ 0 < compareDates date u)
      \/ (forall u, untilDate = Some u -> compareDates date u <= 0)).
    { destruct untilDate as [u|]; [|right; discriminate].
      destruct (Z_lt_le_dec 0 (compareDates date u)).
      - left. eauto.
      - right. intros u' E. inversion E; subst. assumption. }
    destruct Hsplit as [(u & -> & Hu)|Hu].
    { apply Z.ltb_lt in Hu. rewrite Hu in H. inversion H; subst. constructor. }
    assert (Hb : match untilDate with
                 | Some u => 0 <? compareDates date u
                 | None => false
                 end = false).
    { destruct untilDate as [u|]; [|reflexivity].
      apply Z.ltb_ge. now apply Hu. }
    rewrite Hb in H.
    destruct (match countLimit with Some c => c <=? emitted + 1 | None => false end).
    { inversion H; subst. constructor; [|constructor]. cbn. auto. }
    destruct (emitPeriod start untilDate countLimit rest (emitted + 1) true)
      as [[[ys' e'] y'] r'] eqn:E.
    inversion H; subst. constructor; [cbn; auto|].
    eapply Forall_impl; [|eapply IH; eassumption].
    cbn. intros d (A & B & C). auto.
Qed.

Lemma generateLoop_bounds (fuel : nat) options maxIterations start step :
  forall cursor emitted iterations empties,
    Forall (fun d => 0 <= compareDates d start
                     /\ forall u, until options = Some u -> compareDates d u <= 0)
           (yields (generateLoop fuel options maxIterations start step
                      cursor emitted iterations empties)).
Proof.
  induction fuel as [|fuel IH]; intros cursor emitted iterations empties.
  - constructor.
  - cbn [generateLoop]. destruct (maxIterations <? iterations); [constructor|].
    destruct (emitPeriod start (until options) (count options) _ emitted false)
      as [[[ys e] y] r] eqn:E.
    pose proof (emitPeriod_bounds _ _ _ _ _ _ _ _ _ _ E) as Hys.
    assert (Hys' : Forall (fun d => 0 <= compareDates d start
                     /\ forall u, until options = Some u -> compareDates d u <= 0) ys).
    { eapply Forall_impl; [|exact Hys]. cbn. intros d (A & B & _). auto. }
    destruct r; [exact Hys'|].
    match goal with |- context [if ?b then _ else _] => destruct b end;
      [exact Hys'|].
    cbn [yields]. apply Forall_app. split; [exact Hys'|apply IH].
Qed.

(** X1.  COUNT bounds what [generateDates] yields, with or without a seek
    target and whatever the cap on iterations: at most COUNT occurrences
    (one, when a COUNT below 1 is given). *)
Theorem count_bounds_occurrences :
  forall (options : ParsedRRuleOptions) (configured : option Z)
         (target : option DateValue) (c : Z),
    count options = Some c ->
    Z.of_nat (List.length (yields (generateDates options configured target)))
    <= Z.max 1 c.
Proof.
  intros options configured target c Hc. unfold generateDates.
  destruct (dtstart options) as [start|]; [|cbn; lia].
  destruct (_ =? 0); [cbn; lia|].
  destruct (match until options with Some u => _ | None => false end); [cbn; lia|].
  pose proof (generateLoop_count
                (S (S (Z.to_nat match configured with
                                | Some m => m | None => defaultMaxIterations end)))
                options
                match configured with Some m => m | None => defaultMaxIterations end
                start
                match interval options with Some i => i | None => 1 end
                c Hc) as H.
  match goal with
  | |- context [generateLoop _ _ _ _ _ ?cur 0 0 0] => specialize (H cur 0 0 0 (or_introl eq_refl))
  end.
  lia.
Qed.

Lemma count_bounds_occurrences_witness :
  Z.of_nat (List.length (yields (generateDates threeDays None None))) <= Z.max 1 3.
Proof. apply (count_bounds_occurrences threeDays None None 3). reflexivity. Defined.

(** X2.  No occurrence that [generateDates] yields is before DTSTART or
    after UNTIL, with or without a seek target. *)
Theorem occurrences_within_dtstart_and_until :
  forall (options : ParsedRRuleOptions) (configured : option Z)
         (target : option DateValue) (start d : DateValue),
    dtstart options = Some start ->
    In d (yields (generateDates options configured target)) ->
    0 <= compareDates d start
    /\ forall u, until options = Some u -> compareDates d u <= 0.
Proof.
  intros options configured target start d Hs Hin. unfold generateDates in Hin.
  rewrite Hs in Hin.
  destruct (_ =? 0); [destruct Hin|].
  destruct (match until options with Some u => _ | None => false end); [destruct Hin|].
  revert d Hin. apply Forall_forall. apply generateLoop_bounds.
Qed.

Lemma occurrences_within_dtstart_and_until_witness :
  In (CalendarDate 2025 1 2) (yields (generateDates threeDays None None))
  /\ 0 <= compareDates (CalendarDate 2025 1 2) (CalendarDate 2025 1 1).
Proof.
  assert (Hin : In (CalendarDate 2025 1 2) (yields (generateDates threeDays None None)))
    by (vm_compute; right; left; reflexivity).
  split; [exact Hin|].
  exact (proj1 (occurrences_within_dtstart_and_until threeDays None None
                  (CalendarDate 2025 1 1) (CalendarDate 2025 1 2) eq_refl Hin)).
Defined.


(* ===================================================================== *)
(** * The queries of rrule.ts over the generator *)
(* ===================================================================== *)

Lemma reached_positive l n : 0 < l -> reached (Some l) n = (l <=? n).
Proof.
  intros H. unfold reached.
  destruct (l =? 0) eqn:E; [apply Z.eqb_eq in E; lia|reflexivity].
Qed.

(** With a positive limit and enough occurrences, the loop of [all] stops
    at the limit. *)
Lemma allLoop_limit l out :
  0 < l ->
  forall ys n,
    0 <= n < l ->
    l - n <= Z.of_nat (List.length ys) ->
    allLoop (Some l) out ys n = Ok (firstn (Z.to_nat (l - n)) ys).
Proof.
  intros Hl. induction ys as [|d ys IH]; intros n Hn Hlen.
  - cbn in Hlen. lia.
  - cbn [allLoop]. rewrite reached_positive by assumption.
    destruct (l <=? n + 1) eqn:E.
    + apply Z.leb_le in E. replace (l - n) with 1 by lia. reflexivity.
    + apply Z.leb_gt in E. cbn [List.length] in Hlen.
      rewrite IH by lia. cbn [bind].
      replace (Z.to_nat (l - n)) with (S (Z.to_nat (l - (n + 1)))) by lia.
      reflexivity.
Qed.

(** With too few occurrences the loop runs the generator to its end. *)
Lemma allLoop_short l out :
  0 < l ->
  forall ys n,
    0 <= n ->
    Z.of_nat (List.length ys) < l - n ->
    allLoop (Some l) out ys n = allLoop None out ys n.
Proof.
  intros Hl. induction ys as [|d ys IH]; intros n Hn Hlen.
  - reflexivity.
  - cbn [allLoop List.length] in *. rewrite reached_positive by assumption.
    destruct (l <=? n + 1) eqn:E; [apply Z.leb_le in E; lia|].
    cbn [reached]. rewrite IH by lia. reflexivity.
Qed.

Lemma allLoop_zero out ys : forall n, allLoop (Some 0) out ys n = allLoop None out ys n.
Proof.
  induction ys as [|d ys IH]; intros n; [reflexivity|].
  cbn [allLoop reached]. cbn. now rewrite IH.
Qed.

(** X3.  [all(limit)]: a limit of 0 is no limit; a positive limit that
    the generator reaches gives the first [limit] occurrences (whatever
    the generator would do after them); a positive limit it does not reach
    gives what [all()] gives. *)
Theorem all_with_limit :
  forall (r : RRule) (l : Z),
    let t := generateDates (_options r) (_maxIterations r) None in
    all r (Some 0) = all r None
    /\ (0 < l -> l <= Z.of_nat (List.length (yields t)) ->
        all r (Some l) = Ok (firstn (Z.to_nat l) (yields t)))
    /\ (0 < l -> Z.of_nat (List.length (yields t)) < l ->
        all r (Some l) = all r None).
Proof.
  intros r l t. unfold all. fold t. split; [apply allLoop_zero|]. split.
  - intros Hl Hlen. rewrite (allLoop_limit l _ Hl) by lia.
    now replace (l - 0) with l by lia.
  - intros Hl Hlen. apply allLoop_short; lia.
Qed.

(** The loop of [before] returns the occurrences up to the first one that
    is past the date. *)
Lemma beforeLoop_prefix date inclusive limit out :
  forall ys n ds,
    beforeLoop date inclusive limit out ys n = Ok ds ->
    (exists rest, ys = ds ++ rest)
    /\ forallb (fun d => negb (pastDate date inclusive d)) ds = true.
Proof.
  induction ys as [|current ys IH]; intros n ds H.
  - cbn in H. destruct out; inversion H; subst. split; [exists []; reflexivity|reflexivity].
  - cbn [beforeLoop] in H.
    destruct (0 <? Calendar.compare current date) eqn:E1.
    { inversion H; subst. split; [eexists; reflexivity|reflexivity]. }
    destruct ((Calendar.compare current date =? 0) && negb inclusive) eqn:E2.
    { inversion H; subst. split; [eexists; reflexivity|reflexivity]. }
    assert (Hc : negb (pastDate date inclusive current) = true).
    { unfold pastDate. cbv zeta. rewrite E1, E2. reflexivity. }
    destruct (reached limit (n + 1)).
    { inversion H; subst. split; [exists ys; reflexivity|].
      cbn [forallb]. now rewrite Hc. }
    destruct (beforeLoop date inclusive limit out ys (n + 1)) as [ds'|e] eqn:E;
      [|discriminate].
    cbn [bind] in H. inversion H; subst.
    destruct (IH _ _ E) as ((rest & ->) & Hall).
    split; [exists rest; reflexivity|]. cbn [forallb]. now rewrite Hc, Hall.
Qed.

(** Without a limit [before] stops exactly at the first occurrence past
    the date. *)
Lemma beforeLoop_unlimited date inclusive out :
  forall ys n pre x post,
    ys = pre ++ x :: post ->
    forallb (fun d => negb (pastDate date inclusive d)) pre = true ->
    pastDate date inclusive x = true ->
    beforeLoop date inclusive None out ys n = Ok pre.
Proof.
  intros ys n pre. revert ys n.
  induction pre as [|p pre IH]; intros ys n x post -> Hpre Hx.
  - cbn [app beforeLoop]. unfold pastDate in Hx. cbv zeta in Hx.
    destruct (0 <? Calendar.compare x date); [reflexivity|].
    cbn [orb] in Hx. now rewrite Hx.
  - cbn [app beforeLoop]. cbn [forallb] in Hpre.
    apply andb_true_iff in Hpre as [Hp Hpre].
    apply negb_true_iff in Hp. unfold pastDate in Hp. cbv zeta in Hp.
    apply orb_false_iff in Hp as [-> ->]. cbn [reached].
    rewrite (IH _ _ x post eq_refl Hpre Hx). reflexivity.
Qed.

(** X4.  What [before] returns is a prefix of what the generator yields,
    every date of it at or before the reference date (strictly before it
    unless [inclusive]), and no longer than a positive limit. *)
Theorem before_is_a_prefix :
  forall (r : RRule) (date : DateValue) (inclusive : bool) (limit : option Z)
         (ds : list DateValue),
    before r date inclusive limit = Ok ds ->
    let t := generateDates (_options r) (_maxIterations r) None in
    (exists rest, yields t = ds ++ rest)
    /\ (forall d, In d ds ->
          Calendar.compare d date <= 0
          /\ (inclusive = false -> Calendar.compare d date < 0))
    /\ (forall l, limit = Some l -> 0 < l -> Z.of_nat (List.length ds) <= l).
Proof.
  intros r date inclusive limit ds H t. unfold before in H. fold t in H.
  destruct (beforeLoop_prefix _ _ _ _ _ _ _ H) as (Hpre & Hall).
  split; [exact Hpre|]. split.
  - intros d Hd. rewrite forallb_forall in Hall. specialize (Hall d Hd).
    apply negb_true_iff in Hall. unfold pastDate in Hall. cbv zeta in Hall.
    apply orb_false_iff in Hall as [H1 H2]. apply Z.ltb_ge in H1.
    split; [exact H1|]. intros ->. cbn in H2. rewrite andb_true_r in H2.
    apply Z.eqb_neq in H2. lia.
  - intros l -> Hl. clear Hpre Hall.
    assert (G : forall ys n ds,
               0 <= n < l ->
               beforeLoop date inclusive (Some l) (outcome t) ys n = Ok ds ->
               n + Z.of_nat (List.length ds) <= l).
    { clear H ds. induction ys as [|c ys IH]; intros n ds Hn H.
      - cbn in H. destruct (outcome t); inversion H; subst. cbn. lia.
      - cbn [beforeLoop] in H.
        destruct (0 <? _); [inversion H; subst; cbn; lia|].
        destruct (_ && _); [inversion H; subst; cbn; lia|].
        rewrite reached_positive in H by assumption.
        destruct (l <=? n + 1) eqn:E.
        + inversion H; subst. cbn. lia.
        + apply Z.leb_gt in E.
          destruct (beforeLoop date inclusive (Some l) (outcome t) ys (n + 1))
            as [ds'|e] eqn:E'; [|discriminate].
          cbn [bind] in H. inversion H; subst. cbn [List.length].
          assert (Hn' : 0 <= n + 1 < l) by lia.
          specialize (IH _ _ Hn' E'). lia. }
    specialize (G (yields t) 0 ds ltac:(lia) H). lia.
Qed.

(** [previous] keeps the last occurrence that [before] would collect. *)
Lemma previousLoop_beforeLoop date inclusive out :
  forall ys n result,
    previousLoop date inclusive out ys result
    = (ds <- beforeLoop date inclusive None out ys n ;;
       Ok match lastOf ds with Some x => Some x | None => result end).
Proof.
  induction ys as [|current ys IH]; intros n result.
  - cbn. destruct out; reflexivity.
  - cbn [previousLoop beforeLoop].
    destruct (0 <? _); [reflexivity|].
    destruct (_ && _); [reflexivity|].
    cbn [reached]. rewrite (IH (n + 1)).
    destruct (beforeLoop date inclusive None out ys (n + 1)) as [ds|e]; [|reflexivity].
    cbn [bind]. f_equal. unfold lastOf. cbn [rev].
    destruct (rev ds) as [|x rest] eqn:E; reflexivity.
Qed.

(** X5.  [previous] is the last date that [before] without a limit
    collects, and fails when [before] fails. *)
Theorem previous_is_last_of_before :
  forall (r : RRule) (date : DateValue) (inclusive : bool),
    previous r date inclusive
    = (ds <- before r date inclusive None ;; Ok (lastOf ds)).
Proof.
  intros r date inclusive. unfold previous, before.
  rewrite (previousLoop_beforeLoop _ _ _ _ 0).
  destruct (beforeLoop _ _ _ _ _ _) as [ds|e]; [|reflexivity].
  cbn [bind]. now destruct (lastOf ds).
Qed.

(** X6.  What [between] returns is taken from what the generator yields,
    in its order, every date of it within the two bounds (strictly within
    them unless [inclusive]). *)
Theorem between_is_within_bounds :
  forall (r : RRule) (start end_ : DateValue) (inclusive : bool)
         (ds : list DateValue),
    between r start end_ inclusive = Ok ds ->
    let t := generateDates (_options r) (_maxIterations r) None in
    Sublist ds (yields t)
    /\ forall d, In d ds ->
         0 <= Calendar.compare d start /\ Calendar.compare d end_ <= 0
         /\ (inclusive = false ->
             0 < Calendar.compare d start /\ Calendar.compare d end_ < 0).
Proof.
  intros r start end_ inclusive ds H t. unfold between in H. fold t in H.
  revert ds H. generalize (yields t) as ys.
  induction ys as [|date ys IH]; intros ds H.
  - cbn in H. destruct (outcome t); inversion H; subst.
    split; [constructor|intros d []].
  - cbn [betweenLoop] in H.
    destruct ((Calendar.compare date start <? 0)
              || (negb inclusive && (Calendar.compare date start =? 0))) eqn:E1.
    { destruct (IH _ H) as (Hs & Hb). split; [now constructor|exact Hb]. }
    destruct ((0 <? Calendar.compare date end_)
              || (negb inclusive && (Calendar.compare date end_ =? 0))) eqn:E2.
    { inversion H; subst. split; [constructor|intros d []]. }
    destruct (betweenLoop start end_ inclusive (outcome t) ys) as [ds'|e] eqn:E;
      [|discriminate].
    cbn [bind] in H. inversion H; subst.
    destruct (IH _ eq_refl) as (Hs & Hb).
    split; [now constructor|].
    intros d [<-|Hd]; [|now apply Hb].
    apply orb_false_iff in E1 as [A1 B1]. apply orb_false_iff in E2 as [A2 B2].
    apply Z.ltb_ge in A1, A2. split; [exact A1|]. split; [exact A2|].
    intros ->. cbn in B1, B2. apply Z.eqb_neq in B1, B2. lia.
Qed.

(** X7.  [next] returns the first occurrence of the unseeked generator
    that is at or after the reference date (after it unless [inclusive]);
    it returns nothing only when the generator has ended normally with
    every occurrence short of the date. *)
Theorem next_is_first_at_or_after :
  forall (r : RRule) (date : DateValue) (inclusive : bool),
    let t := generateDates (_options r) (_maxIterations r) None in
    (forall x, next r date inclusive = Ok (Some x) ->
       exists pre post,
         yields t = pre ++ x :: post
         /\ forallb (shortOfDate date inclusive) pre = true
         /\ shortOfDate date inclusive x = false)
    /\ (next r date inclusive = Ok None ->
        forallb (shortOfDate date inclusive) (yields t) = true
        /\ outcome t = Returned).
Proof.
  intros r date inclusive t. unfold next. fold t.
  generalize (yields t) as ys.
  induction ys as [|current ys [IH1 IH2]].
  - split.
    + intros x H. cbn in H. destruct (outcome t); discriminate.
    + intros H. cbn in H. split; [reflexivity|].
      destruct (outcome t); [reflexivity|discriminate|discriminate].
  - cbn [nextLoop].
    destruct (Calendar.compare current date <? 0) eqn:E1.
    { assert (Hc : shortOfDate date inclusive current = true)
        by (unfold shortOfDate; cbv zeta; now rewrite E1).
      split.
      - intros x H. destruct (IH1 x H) as (pre & post & -> & Hpre & Hx).
        exists (current :: pre), post. cbn [forallb app]. now rewrite Hc, Hpre.
      - intros H. destruct (IH2 H) as (Hall & Hout). cbn [forallb].
        now rewrite Hc, Hall. }
    destruct ((Calendar.compare current date =? 0) && negb inclusive) eqn:E2.
    { assert (Hc : shortOfDate date inclusive current = true)
        by (unfold shortOfDate; cbv zeta; now rewrite E1, E2).
      split.
      - intros x H. destruct (IH1 x H) as (pre & post & -> & Hpre & Hx).
        exists (current :: pre), post. cbn [forallb app]. now rewrite Hc, Hpre.
      - intros H. destruct (IH2 H) as (Hall & Hout). cbn [forallb].
        now rewrite Hc, Hall. }
    split; [|discriminate].
    intros x H. inversion H; subst. exists [], ys. cbn [app forallb].
    split; [reflexivity|]. split; [reflexivity|].
    unfold shortOfDate. cbv zeta. now rewrite E1, E2.
Qed.

Lemma before_is_a_prefix_witness :
  exists ds,
    before (mkRRule threeDays None) (CalendarDate 2025 1 3) false None = Ok ds
    /\ ds = [CalendarDate 2025 1 1; CalendarDate 2025 1 2]
    /\ exists rest, yields (generateDates threeDays None None) = ds ++ rest.
Proof.
  eexists. split; [vm_compute; reflexivity|]. split; [reflexivity|].
  refine (proj1 (before_is_a_prefix (mkRRule threeDays None) (CalendarDate 2025 1 3)
                   false None _ _)).
  vm_compute. reflexivity.
Defined.

Lemma between_is_within_bounds_witness :
  exists ds,
    between (mkRRule threeDays None) (CalendarDate 2025 1 2) (CalendarDate 2025 1 3) true
    = Ok ds
    /\ ds = [CalendarDate 2025 1 2; CalendarDate 2025 1 3]
    /\ Sublist ds (yields (generateDates threeDays None None)).
Proof.
  eexists. split; [vm_compute; reflexivity|]. split; [reflexivity|].
  refine (proj1 (between_is_within_bounds (mkRRule threeDays None)
                   (CalendarDate 2025 1 2) (CalendarDate 2025 1 3) true _ _)).
  vm_compute. reflexivity.
Defined.


(* ===================================================================== *)
(** * Sanitizing what is already sanitized *)
(* ===================================================================== *)

Lemma sanitizeNumber_kept i : 1 <= i -> sanitizeNumber (Some i) 1 = Some i.
Proof.
  intros H. unfold sanitizeNumber.
  destruct (i =? 0) eqn:E; [apply Z.eqb_eq in E; lia|].
  destruct (i <? 1) eqn:E'; [apply Z.ltb_lt in E'; lia|reflexivity].
Qed.

Lemma sanitizeNumber_again (v : option Z) :
  (forall i, v = Some i -> 1 <= i) -> sanitizeNumber v 1 = v.
Proof.
  destruct v as [i|]; [|reflexivity]. intros H. now apply sanitizeNumber_kept, H.
Qed.

Lemma sanitizeNumberArray_again min max allowZero (l : option (list Z)) :
  keptList min max (negb allowZero) l ->
  sanitizeNumberArray l min max allowZero = l.
Proof.
  destruct l as [values|]; [|reflexivity]. intros [Hnd Hin].
  unfold sanitizeNumberArray. f_equal.
  rewrite filter_all.
  - now apply unique_NoDup.
  - apply forallb_forall. intros v Hv. rewrite sanitize_filter_inRange.
    rewrite <- (negb_involutive allowZero). now apply Hin.
Qed.

Lemma sanitizeWeekday_again (w : option Weekday) :
  sanitizeWeekday (option_map weekdayText w) = w.
Proof.
  destruct w as [w|]; [|reflexivity]. unfold sanitizeWeekday, option_map.
  now rewrite asWeekday_weekdayText.
Qed.

Lemma sanitizeWeekdayValue_again v :
  match v with Bare _ => True | Nth _ n => -53 < n < 53 end ->
  sanitizeWeekdayValue (asWeekdayInput v) = Some v.
Proof.
  destruct v as [w|w n]; cbn [asWeekdayInput]; intros H.
  - unfold sanitizeWeekdayValue, isWeekdayValue.
    rewrite asWeekday_weekdayText. reflexivity.
  - unfold sanitizeWeekdayValue, isWeekdayValue.
    assert (E : (-53 <? n) && (n <? 53) = true).
    { apply andb_true_iff. split; apply Z.ltb_lt; lia. }
    now rewrite E.
Qed.

Lemma sanitizeWeekdayValueArray_again (l : option (list WeekdayValue)) :
  match l with
  | Some days =>
      NoDup days
      /\ forall v, In v days -> match v with Bare _ => True | Nth _ n => -53 < n < 53 end
  | None => True
  end ->
  sanitizeWeekdayValueArray (option_map (map asWeekdayInput) l) = l.
Proof.
  destruct l as [days|]; [|reflexivity]. intros [Hnd Hin].
  cbn [option_map]. unfold sanitizeWeekdayValueArray. f_equal.
  replace (flat_map _ (map asWeekdayInput days)) with days.
  - now apply uniqueWeekdayValues_NoDup.
  - clear Hnd. induction days as [|v days IH]; [reflexivity|].
    cbn [map flat_map]. rewrite sanitizeWeekdayValue_again by (apply Hin; now left).
    cbn [app]. f_equal. apply IH. intros x Hx. apply Hin. now right.
Qed.

Lemma ordinalsBelow53_spec R :
  ordinalsBelow53 R = true ->
  forall days, byweekday R = Some days ->
  forall v, In v days -> match v with Bare _ => True | Nth _ n => -53 < n < 53 end.
Proof.
  unfold ordinalsBelow53. intros H days E v Hv. rewrite E in H. cbn [orEmpty] in H.
  rewrite forallb_forall in H. specialize (H v Hv).
  destruct v as [w|w n]; [exact I|].
  apply andb_true_iff in H as [H1 H2]. apply Z.ltb_lt in H1, H2. lia.
Qed.

(** Options whose selectors are in range and that have no ordinal 53 are
    rebuilt as they are, so that only the cross-field checks decide. *)
Lemma sanitize_in_range R :
  selectorsInRange R ->
  ordinalsBelow53 R = true ->
  sanitizeRRuleOptions (asOptions R) = crossChecked R.
Proof.
  intros (Hi & Hc & Hsp & Hmo & Hmd & Hyd & Hwn & Hh & Hmi & Hs & Hwd) H53.
  unfold sanitizeRRuleOptions, asOptions, crossChecked, untilPrecedes.
  cbn [Raw.freq Raw.dtstart Raw.interval Raw.count Raw.until Raw.wkst Raw.bysetpos
       Raw.bymonth Raw.bymonthday Raw.byyearday Raw.byweekday Raw.byweekno
       Raw.byhour Raw.byminute Raw.bysecond sanitizeFrequency].
  assert (Eu : sanitizeUntilDate (until R) (dtstart R)
               = if match until R, dtstart R with
                    | Some u, Some d => Calendar.compare u d <? 0
                    | _, _ => false
                    end
                 then Err UntilBeforeDtstart else Ok (until R)).
  { unfold sanitizeUntilDate. destruct (dtstart R) as [d|], (until R) as [u|];
      try reflexivity. }
  rewrite Eu.
  destruct (match until R, dtstart R with
            | Some u, Some d => Calendar.compare u d <? 0
            | _, _ => false
            end); [reflexivity|].
  cbn [bind].
  rewrite (sanitizeNumber_again _ Hi), (sanitizeNumber_again _ Hc),
    sanitizeWeekday_again.
  rewrite (sanitizeNumberArray_again _ _ false _ Hsp),
    (sanitizeNumberArray_again _ _ false _ Hmo),
    (sanitizeNumberArray_again _ _ false _ Hmd),
    (sanitizeNumberArray_again _ _ false _ Hyd),
    (sanitizeNumberArray_again _ _ false _ Hwn),
    (sanitizeNumberArray_again _ _ true _ Hh),
    (sanitizeNumberArray_again _ _ true _ Hmi),
    (sanitizeNumberArray_again _ _ true _ Hs).
  rewrite sanitizeWeekdayValueArray_again.
  2:{ destruct (byweekday R) as [days|] eqn:E; [|exact I].
      split; [apply Hwd|]. now apply (ordinalsBelow53_spec R H53 days). }
  assert (ER : mkOptions (freq R) (dtstart R) (interval R) (count R) (until R)
                 (wkst R) (bysetpos R) (bymonth R) (bymonthday R) (byyearday R)
                 (byweekday R) (byweekno R) (byhour R) (byminute R) (bysecond R) = R)
    by now destruct R.
  rewrite ER. destruct (isSome (count R) && isSome (until R)); [reflexivity|].
  now destruct (validateBySetPos R).
Qed.

Lemma sanitize_again R :
  wellFormed R ->
  (forall u d, until R = Some u -> dtstart R = Some d ->
               (Calendar.compare u d <? 0) = false) ->
  validateBySetPos R = true ->
  ordinalsBelow53 R = true ->
  sanitizeRRuleOptions (asOptions R) = Ok R.
Proof.
  intros [Hsel Hcu] Hu Hv H53. rewrite (sanitize_in_range R Hsel H53).
  unfold crossChecked, untilPrecedes. rewrite Hcu, Hv.
  destruct (until R) as [u|], (dtstart R) as [d|]; try reflexivity.
  now rewrite (Hu u d).
Qed.

Lemma sanitized_wellFormed o R :
  sanitizeRRuleOptions o = Ok R ->
  wellFormed R
  /\ (forall u d, until R = Some u -> dtstart R = Some d ->
                  (Calendar.compare u d <? 0) = false)
  /\ validateBySetPos R = true.
Proof.
  intros H. pose proof (sanitized_facts o R H) as F.
  split; [unfold wellFormed, selectorsInRange; tauto|]. split; [tauto|].
  unfold sanitizeRRuleOptions in H.
  destruct (sanitizeUntilDate _ _) as [u|]; [|discriminate]. cbn [bind] in H.
  destruct (isSome _ && isSome _); [discriminate|].
  destruct (validateBySetPos _) eqn:E; [|discriminate].
  cbn [negb] in H. inversion H; subst. exact E.
Qed.

(** X8.  Sanitized options without a weekday ordinal 53 or -53 are
    sanitized to themselves, so that [clone()] of such a rule is the rule
    again, with its [maxIterations] override left behind. *)
Theorem sanitize_is_idempotent :
  forall (o : Raw.RRuleOptions) (R : ParsedRRuleOptions) (configured : option Z),
    sanitizeRRuleOptions o = Ok R ->
    ordinalsBelow53 R = true ->
    sanitizeRRuleOptions (asOptions R) = Ok R
    /\ clone (mkRRule R configured) = Ok (mkRRule R None).
Proof.
  intros o R configured Hs H53.
  destruct (sanitized_wellFormed o R Hs) as (Hw & Hu & Hv).
  pose proof (sanitize_again R Hw Hu Hv H53) as E.
  split; [exact E|]. unfold clone. cbn [_options]. now rewrite E.
Qed.

Lemma sanitize_is_idempotent_witness :
  exists R,
    sanitizeRRuleOptions (busyRuleFrom utcStart) = Ok R
    /\ sanitizeRRuleOptions (asOptions R) = Ok R
    /\ clone (mkRRule R (Some 5)) = Ok (mkRRule R None).
Proof.
  eexists. split; [vm_compute; reflexivity|].
  refine (sanitize_is_idempotent (busyRuleFrom utcStart) _ (Some 5) _ _);
    vm_compute; reflexivity.
Defined.

(** X9.  A weekday ordinal 53 or -53 that the sanitizer reads from a token
    is lost when the sanitized options are sanitized again: [clone()]
    gives a rule with an empty [byweekday]. *)
Theorem ordinal_53_is_lost_on_clone :
  forall (w : Weekday) (n : Z) (start : DateValue) (configured : option Z),
    n = 53 \/ n = -53 ->
    let o := Raw.mk (Some YEARLY) (Some start) None None None None
                    None None None None
                    (Some [Raw.Token (String_ n ++ weekdayText w)])
                    None None None None in
    exists R R',
      sanitizeRRuleOptions o = Ok R
      /\ byweekday R = Some [Nth w n]
      /\ clone (mkRRule R configured) = Ok R'
      /\ byweekday (_options R') = Some [].
Proof.
  intros w n start configured Hn o.
  destruct Hn as [-> | ->]; destruct w;
    do 2 eexists; (split; [reflexivity|]); (split; [reflexivity|]);
    (split; [reflexivity|]); reflexivity.
Qed.

Lemma ordinal_53_is_lost_on_clone_witness :
  exists R R',
    sanitizeRRuleOptions
      (Raw.mk (Some YEARLY) (Some (CalendarDate 2025 1 1)) None None None None
              None None None None (Some [Raw.Token (str "53MO")])
              None None None None) = Ok R
    /\ byweekday R = Some [Nth MO 53]
    /\ clone (mkRRule R None) = Ok R'
    /\ byweekday (_options R') = Some [].
Proof.
  apply (ordinal_53_is_lost_on_clone MO 53 (CalendarDate 2025 1 1) None).
  left. reflexivity.
Defined.


(* ===================================================================== *)
(** * What parseRRule returns *)
(* ===================================================================== *)

Lemma parsePositiveInteger_min s n : parsePositiveInteger s = Ok n -> 1 <= n.
Proof.
  unfold parsePositiveInteger, isPositiveInteger.
  destruct (parseInteger s) as [k|]; [|discriminate].
  destruct (isFiniteNumber k); [|discriminate].
  destruct (0 <? k) eqn:E; [|discriminate].
  intros H. inversion H; subst. apply Z.ltb_lt in E. lia.
Qed.

Lemma parseRRuleInterval_min s strict n : parseRRuleInterval s strict = Ok n -> 1 <= n.
Proof.
  unfold parseRRuleInterval.
  destruct (parsePositiveInteger s) as [k|] eqn:E.
  - intros H. inversion H; subst. eapply parsePositiveInteger_min, E.
  - destruct strict; [discriminate|]. intros H. inversion H. lia.
Qed.

Lemma parseRRuleCount_min s strict v c :
  parseRRuleCount s strict = Ok v -> v = Some c -> 1 <= c.
Proof.
  unfold parseRRuleCount.
  destruct (parsePositiveInteger s) as [k|] eqn:E.
  - intros H ->. inversion H; subst. eapply parsePositiveInteger_min, E.
  - destruct strict; [discriminate|]. intros H ->. discriminate.
Qed.

Lemma checkNumbers_range key min max excludeZero strict :
  forall ns values,
    checkNumbers key ns min max excludeZero strict = Ok values ->
    forall v, In v values -> inRange min max (negb excludeZero) v = true.
Proof.
  induction ns as [|number rest IH]; intros values H v Hv.
  - inversion H; subst. destruct Hv.
  - cbn [checkNumbers] in H.
    destruct (excludeZero && (number =? 0)) eqn:E0.
    { destruct strict; [discriminate|]. eapply IH; eassumption. }
    destruct (isNumberInRange number min max) eqn:Er; cbn [negb] in H.
    2:{ destruct strict; [discriminate|]. eapply IH; eassumption. }
    destruct (checkNumbers key rest min max excludeZero strict) as [r|] eqn:E;
      [|discriminate].
    cbn [bind] in H. inversion H; subst. destruct Hv as [<-|Hv].
    + unfold inRange. unfold isNumberInRange in Er. rewrite <- andb_assoc, Er.
      rewrite andb_true_r. destruct excludeZero; [|reflexivity].
      cbn in E0 |- *. now rewrite E0.
    + eapply IH; [reflexivity|assumption].
Qed.

Lemma parseRRuleNumberList_kept key value min max excludeZero strict l :
  parseRRuleNumberList key value min max excludeZero strict = Ok l ->
  keptList min max excludeZero (Some l).
Proof.
  unfold parseRRuleNumberList.
  destruct (parseIntegerList value ",") as [|n ns] eqn:E.
  - intros H. inversion H; subst. split; [constructor|intros v []].
  - destruct (checkNumbers key (n :: ns) min max excludeZero strict) as [values|] eqn:Ec;
      [|discriminate].
    cbn [bind]. intros H. inversion H; subst. split.
    + apply (uniqueBy_NoDup Z.eqb Z_eqb_spec).
    + intros v Hv. apply (uniqueBy_In Z.eqb Z_eqb_spec) in Hv as [Hv _].
      eapply checkNumbers_range; eassumption.
Qed.

Lemma parseWeekdayValue_ordinal s w n :
  parseWeekdayValue s = Ok (Nth w n) -> n <> 0 /\ -53 <= n <= 53.
Proof.
  intros H. split; [|eapply parseWeekdayValue_range, H].
  unfold parseWeekdayValue in H.
  destruct (toUpperCase (trim s)); [discriminate|].
  destruct (matchWeekdayValue _) as [[occ wd]|]; [|discriminate].
  destruct (asWeekday wd); [|discriminate].
  destruct occ as [occ|]; [|discriminate].
  destruct (parseInteger occ) as [k|]; [|discriminate].
  destruct (k =? 0) eqn:E; [discriminate|].
  destruct ((k <? -53) || (53 <? k)); [discriminate|].
  inversion H; subst. now apply Z.eqb_neq in E.
Qed.

Lemma parseWeekdayValues_ordinals strict :
  forall days l,
    parseWeekdayValues days strict = Ok l ->
    forall v, In v l ->
      match v with Bare _ => True | Nth _ n => n <> 0 /\ -53 <= n <= 53 end.
Proof.
  induction days as [|day rest IH]; intros l H v Hv.
  - inversion H; subst. destruct Hv.
  - cbn [parseWeekdayValues] in H.
    destruct (parseWeekdayValue day) as [x|] eqn:E.
    + destruct (parseWeekdayValues rest strict) as [r|] eqn:Er; [|discriminate].
      cbn [bind] in H. inversion H; subst. destruct Hv as [<-|Hv].
      * destruct x as [w|w n]; [exact I|]. eapply parseWeekdayValue_ordinal, E.
      * eapply IH; [reflexivity|assumption].
    + destruct strict; [discriminate|]. eapply IH; eassumption.
Qed.

Lemma parseRRuleByDay_kept value strict l :
  parseRRuleByDay value strict = Ok l ->
  NoDup l
  /\ forall v, In v l ->
       match v with Bare _ => True | Nth _ n => n <> 0 /\ -53 <= n <= 53 end.
Proof.
  unfold parseRRuleByDay.
  destruct (parseList value ",") as [|d ds].
  - intros H. inversion H; subst. split; [constructor|intros v []].
  - destruct (parseWeekdayValues (d :: ds) strict) as [values|] eqn:E; [|discriminate].
    cbn [bind]. intros H. inversion H; subst. split.
    + apply (uniqueBy_NoDup WeekdayValue_same WeekdayValue_same_spec).
    + intros v Hv.
      apply (uniqueBy_In WeekdayValue_same WeekdayValue_same_spec) in Hv as [Hv _].
      eapply parseWeekdayValues_ordinals; eassumption.
Qed.

Lemma parsedSoFar_noOptions : parsedSoFar noOptions.
Proof.
  unfold parsedSoFar, selectorsInRange, noOptions. cbn.
  repeat split; try discriminate; try exact I.
Qed.

Ltac field_step H :=
  let v := fresh "v" in
  let E := fresh "E" in
  match type of H with
  | bind ?p _ = Ok _ => destruct p as [v|] eqn:E; [cbn [bind] in H|discriminate]
  end;
  inversion H; subst; clear H.

Lemma readParam_parsedSoFar strict f o key value f' o' :
  readParam strict (f, o) key value = Ok (f', o') ->
  parsedSoFar o -> parsedSoFar o'.
Proof.
  unfold readParam.
  intros H ((Hi & Hc & Hsp & Hmo & Hmd & Hyd & Hwn & Hh & Hmi & Hs & Hwd) & Hd & Hz).
  repeat match type of H with
         | (if ?b then _ else _) = _ => destruct b
         end;
    try discriminate; field_step H;
    unfold parsedSoFar, selectorsInRange;
    cbn [interval count until dtstart bysetpos bymonth bymonthday byyearday
         byweekno byhour byminute bysecond byweekday
         withInterval withCount withUntil withWkst withBysetpos withBymonth
         withBymonthday withByyearday withByweekday withByweekno withByhour
         withByminute withBysecond];
    repeat match goal with
           | |- _ /\ _ => split
           end;
    try assumption;
    try (eapply parseRRuleNumberList_kept; eassumption).
  - intros i Hi'. inversion Hi'; subst. eapply parseRRuleInterval_min; eassumption.
  - intros c Hc'. eapply parseRRuleCount_min; eassumption.
  - eapply parseRRuleByDay_kept; eassumption.
  - intros x Hx. destruct (parseRRuleByDay_kept _ _ _ E) as [_ Hr].
    specialize (Hr x Hx). destruct x; [exact I|]. cbn. lia.
  - intros days x Hdays Hx. inversion Hdays; subst.
    destruct (parseRRuleByDay_kept _ _ _ E) as [_ Hr].
    specialize (Hr x Hx). destruct x; [exact I|]. tauto.
Qed.

Lemma applyParam_parsedSoFar strict f o param f' o' :
  applyParam strict (f, o) param = Ok (f', o') ->
  parsedSoFar o -> parsedSoFar o'.
Proof.
  unfold applyParam. intros H Hinv.
  destruct (splitOnce param "=") as [key [value|]].
  - destruct (nonEmpty key && nonEmpty value).
    + destruct (readParam strict (f, o) key value) as [[g o1]|e] eqn:E.
      * inversion H; subst. eapply readParam_parsedSoFar; eassumption.
      * destruct strict; [discriminate|]. now inversion H; subst.
    + destruct strict; [discriminate|]. now inversion H; subst.
  - destruct strict; [discriminate|]. now inversion H; subst.
Qed.

Lemma parseParams_parsedSoFar strict :
  forall params f o f' o',
    parseParams strict params (f, o) = Ok (f', o') ->
    parsedSoFar o -> parsedSoFar o'.
Proof.
  induction params as [|param rest IH]; intros f o f' o' H Hinv.
  - now inversion H; subst.
  - cbn [parseParams] in H.
    destruct (applyParam strict (f, o) param) as [[g o1]|e] eqn:E; [|discriminate].
    cbn [bind] in H. eapply IH; [eassumption|].
    eapply applyParam_parsedSoFar; eassumption.
Qed.

Lemma parseRRule_parsedSoFar s strict R :
  parseRRule s strict = Ok R ->
  parsedSoFar R /\ isSome (count R) && isSome (until R) = false.
Proof.
  unfold parseRRule.
  destruct (matchRRule _) as [body|]; [|discriminate].
  destruct (parseParams strict _ _) as [[f o]|e] eqn:E; [|discriminate].
  cbn [bind]. destruct f as [f|]; [|discriminate].
  destruct (isSome (count o) && isSome (until o)) eqn:Ecu; [discriminate|].
  intros H. inversion H; subst.
  pose proof (parseParams_parsedSoFar _ _ _ _ _ _ E parsedSoFar_noOptions) as Hinv.
  split; [|exact Ecu]. destruct o; exact Hinv.
Qed.

(** X10.  Whatever [parseRRule] returns, strict or not: INTERVAL and COUNT
    are at least 1, every selector list is without duplicates and within
    the range of its key, weekday ordinals are within -53..53 and not 0,
    COUNT and UNTIL are not both present, and DTSTART is absent. *)
Theorem parseRRule_output_is_well_formed :
  forall (s : text) (strict : bool) (R : ParsedRRuleOptions),
    parseRRule s strict = Ok R ->
    wellFormed R
    /\ dtstart R = None
    /\ forall days v, byweekday R = Some days -> In v days ->
         match v with Bare _ => True | Nth _ n => n <> 0 end.
Proof.
  intros s strict R H.
  destruct (parseRRule_parsedSoFar s strict R H) as ((Hsel & Hd & Hz) & Hcu).
  split; [split; assumption|]. split; assumption.
Qed.

(** In the mode that is not strict no parameter makes the loop fail. *)
Lemma parseParams_lenient :
  forall params st, exists st', parseParams false params st = Ok st'.
Proof.
  induction params as [|param rest IH]; intros st.
  - eexists; reflexivity.
  - cbn [parseParams].
    assert (H : exists st1, applyParam false st param = Ok st1).
    { unfold applyParam.
      match goal with
      | |- exists _, match ?a with Ok _ => _ | Err _ => _ end = _ =>
          destruct a; eexists; reflexivity
      end. }
    destruct H as (st1 & ->). cbn [bind]. apply IH.
Qed.

(** X11.  When it is not strict, [parseRRule] fails in three ways only:
    the text is no RRULE line, FREQ is missing, or COUNT and UNTIL are
    both present. *)
Theorem lenient_parseRRule_failures :
  forall (s : text) (e : Error),
    parseRRule s false = Err e ->
    (matchRRule (unfoldLine (trim s)) = None /\ e = InvalidText "RRULE string")
    \/ e = InvalidText "FREQ is required"
    \/ e = InvalidText "COUNT and UNTIL are mutually exclusive".
Proof.
  intros s e. unfold parseRRule.
  destruct (matchRRule _) as [body|].
  2:{ intros H. inversion H. left. split; reflexivity. }
  destruct (parseParams_lenient (parseList body ";") (None, noOptions)) as ([f o] & ->).
  cbn [bind]. destruct f as [f|].
  - destruct (isSome (count o) && isSome (until o)); [|discriminate].
    intros H. inversion H. right. right. reflexivity.
  - intros H. inversion H. right. left. reflexivity.
Qed.

Lemma withDtstart_selectorsInRange R d :
  selectorsInRange R -> selectorsInRange (withDtstart R d).
Proof. intros H. exact H. Qed.

(** What [parseICS] returns is what [parseRRule] returns for one of the
    lines, with the DTSTART found put in. *)
Lemma parseICS_parseRRule toZoned s strict R :
  parseICS toZoned s strict = Ok R ->
  exists line R0,
    parseRRule line strict = Ok R0
    /\ (R = R0 \/ exists d, R = withDtstart R0 (Some d)).
Proof.
  unfold parseICS.
  destruct (scanLines _ _ _ _ _) as [[start line]|]; [|discriminate].
  cbn [bind snd fst]. destruct line as [line|]; [|discriminate].
  destruct (parseRRule line strict) as [R0|] eqn:E; [|discriminate].
  cbn [bind]. intros H. exists line, R0. split; [exact E|].
  destruct start as [d|]; inversion H; subst; [right; eauto|now left].
Qed.

(** X12.  [RRule.fromString] sanitizes what [parseICS] returns.  When no
    weekday ordinal is 53 or -53, the rule it builds holds the parsed
    options as they are, and it fails only when UNTIL is before DTSTART
    or BYSETPOS stands without another BY* selector having a value. *)
Theorem fromString_keeps_the_parsed_rule :
  forall (toZoned : DateValue -> text -> DateValue) (s : text) (strict : bool)
         (R : ParsedRRuleOptions),
    parseICS toZoned s strict = Ok R ->
    ordinalsBelow53 R = true ->
    wellFormed R
    /\ fromString toZoned s strict
       = if untilPrecedes R then Err UntilBeforeDtstart
         else if validateBySetPos R then Ok (mkRRule R None)
         else Err BySetPosAlone.
Proof.
  intros toZoned s strict R H H53.
  destruct (parseICS_parseRRule _ _ _ _ H) as (line & R0 & Hp & HR).
  destruct (parseRRule_parsedSoFar _ _ _ Hp) as ((Hsel & Hd & Hz) & Hcu).
  assert (HselR : selectorsInRange R /\ isSome (count R) && isSome (until R) = false).
  { destruct HR as [->|(d & ->)]; split; assumption. }
  destruct HselR as [HselR HcuR].
  split; [split; assumption|].
  unfold fromString. rewrite H. cbn [bind].
  rewrite (sanitize_in_range R HselR H53). unfold crossChecked. rewrite HcuR.
  destruct (untilPrecedes R); [reflexivity|].
  now destruct (validateBySetPos R).
Qed.

Lemma parseRRule_output_is_well_formed_witness :
  exists R,
    parseRRule (str "RRULE:FREQ=DAILY;COUNT=3;BYMONTH=1,1,6") true = Ok R
    /\ bymonth R = Some [1; 6]
    /\ wellFormed R.
Proof.
  eexists. split; [vm_compute; reflexivity|]. split; [reflexivity|].
  refine (proj1 (parseRRule_output_is_well_formed
                   (str "RRULE:FREQ=DAILY;COUNT=3;BYMONTH=1,1,6") true _ _)).
  vm_compute. reflexivity.
Defined.

Lemma lenient_parseRRule_failures_witness :
  parseRRule (str "RRULE:COUNT=3;BYMONTH=13") false
  = Err (InvalidText "FREQ is required")
  /\ ((matchRRule (unfoldLine (trim (str "RRULE:COUNT=3;BYMONTH=13"))) = None
       /\ InvalidText "FREQ is required" = InvalidText "RRULE string")
      \/ InvalidText "FREQ is required" = InvalidText "FREQ is required"
      \/ InvalidText "FREQ is required"
         = InvalidText "COUNT and UNTIL are mutually exclusive").
Proof.
  assert (H : parseRRule (str "RRULE:COUNT=3;BYMONTH=13") false
              = Err (InvalidText "FREQ is required")) by (vm_compute; reflexivity).
  split; [exact H|].
  exact (lenient_parseRRule_failures _ _ H).
Defined.

Lemma fromString_keeps_the_parsed_rule_witness :
  fromString (fixedOffsetHost 0)
    (str "DTSTART:20250101" ++ LF :: str "RRULE:FREQ=DAILY;COUNT=3") true
  = Ok (mkRRule threeDays None).
Proof.
  refine (proj2 (fromString_keeps_the_parsed_rule (fixedOffsetHost 0)
                   (str "DTSTART:20250101" ++ LF :: str "RRULE:FREQ=DAILY;COUNT=3")
                   true threeDays _ _)).
  - vm_compute. reflexivity.
  - reflexivity.
Defined.


(* ===================================================================== *)
(** * The helpers of utils.ts *)
(* ===================================================================== *)

Lemma uniqueBy_Sublist {A} (eqb : A -> A -> bool) (l : list A) :
  forall seen, Sublist (uniqueBy eqb seen l) l.
Proof.
  induction l as [|x l IH]; intros seen; cbn [uniqueBy]; [constructor|].
  destruct (existsb (eqb x) seen); constructor; apply IH.
Qed.

(** [uniqueBy] looks at what was seen only through membership. *)
Lemma uniqueBy_seen {A} (eqb : A -> A -> bool)
  (eqb_spec : forall a b, eqb a b = true <-> a = b) (l : list A) :
  forall seen seen',
    (forall x, In x seen <-> In x seen') ->
    uniqueBy eqb seen l = uniqueBy eqb seen' l.
Proof.
  induction l as [|x l IH]; intros seen seen' H; cbn [uniqueBy]; [reflexivity|].
  assert (E : existsb (eqb x) seen = existsb (eqb x) seen').
  { apply eq_true_iff_eq. rewrite !(existsb_eqb_In eqb eqb_spec). apply H. }
  rewrite E. destruct (existsb (eqb x) seen').
  - now apply IH.
  - f_equal. apply IH. intros y. rewrite !in_app_iff, H. tauto.
Qed.


Lemma findIndex_first {A} (p : A -> bool) prefix x r :
  p x = true ->
  findIndex p (prefix ++ x :: r)
  = if existsb p prefix then findIndex p prefix else Some (List.length prefix).
Proof.
  intros Hx. induction prefix as [|y prefix IH]; cbn [app findIndex existsb List.length].
  - now rewrite Hx.
  - destruct (p y); [reflexivity|]. cbn [orb]. rewrite IH.
    destruct (existsb p prefix); reflexivity.
Qed.

Lemma findIndex_bound {A} (p : A -> bool) l i :
  findIndex p l = Some i -> (i < List.length l)%nat.
Proof.
  revert i. induction l as [|y l IH]; intros i; cbn [findIndex List.length];
    [discriminate|].
  destruct (p y).
  - intros H. inversion H. lia.
  - destruct (findIndex p l) as [j|]; [|discriminate].
    cbn. intros H. inversion H. specialize (IH j eq_refl). lia.
Qed.

Lemma filterWithIndex_ext {A} (f g : A -> nat -> bool) l :
  forall index,
    (forall x i, f x i = g x i) ->
    filterWithIndex f index l = filterWithIndex g index l.
Proof.
  induction l as [|x l IH]; intros index H; cbn [filterWithIndex]; [reflexivity|].
  rewrite H, (IH (S index) H). reflexivity.
Qed.

Lemma byIndex_uniqueBy (l : list WeekdayValue) :
  forall prefix seen,
    (forall x, In x seen <-> In x prefix) ->
    filterWithIndex
      (fun value index =>
         match findIndex (fun v => WeekdayValue_same value v) (prefix ++ l) with
         | Some first => Nat.eqb first index
         | None => false
         end)
      (List.length prefix) l
    = uniqueBy WeekdayValue_same seen l.
Proof.
  induction l as [|x l IH]; intros prefix seen H; cbn [filterWithIndex uniqueBy];
    [reflexivity|].
  assert (Hxx : WeekdayValue_same x x = true) by now apply WeekdayValue_same_spec.
  rewrite (findIndex_first (fun v => WeekdayValue_same x v) prefix x l Hxx).
  assert (E : existsb (WeekdayValue_same x) seen
              = existsb (fun v => WeekdayValue_same x v) prefix).
  { apply eq_true_iff_eq.
    change (fun v => WeekdayValue_same x v) with (WeekdayValue_same x).
    rewrite !(existsb_eqb_In _ WeekdayValue_same_spec). apply H. }
  rewrite E.
  assert (Hrest : forall seen',
             (forall y, In y seen' <-> In y (prefix ++ [x])) ->
             filterWithIndex
               (fun value index =>
                  match findIndex (fun v => WeekdayValue_same value v)
                          (prefix ++ x :: l) with
                  | Some first => Nat.eqb first index
                  | None => false
                  end)
               (S (List.length prefix)) l
             = uniqueBy WeekdayValue_same seen' l).
  { intros seen' H'. rewrite <- (IH (prefix ++ [x]) seen' H').
    rewrite length_app. cbn [List.length].
    replace (List.length prefix + 1)%nat with (S (List.length prefix)) by lia.
    apply filterWithIndex_ext. intros v i. now rewrite <- app_assoc. }
  destruct (existsb (fun v => WeekdayValue_same x v) prefix) eqn:Hex.
  - destruct (findIndex _ prefix) as [j|] eqn:Hj.
    + apply findIndex_bound in Hj.
      assert (Hne : Nat.eqb j (List.length prefix) = false) by (apply Nat.eqb_neq; lia).
      rewrite Hne. apply Hrest. intros y. rewrite in_app_iff, H. cbn [In].
      change (fun v => WeekdayValue_same x v) with (WeekdayValue_same x) in Hex.
      apply (existsb_eqb_In _ WeekdayValue_same_spec) in Hex.
      split; [tauto|]. intros [Hy|[<-|[]]]; assumption.
    + apply Hrest. intros y. rewrite in_app_iff, H. cbn [In].
      change (fun v => WeekdayValue_same x v) with (WeekdayValue_same x) in Hex.
      apply (existsb_eqb_In _ WeekdayValue_same_spec) in Hex.
      split; [tauto|]. intros [Hy|[<-|[]]]; assumption.
  - rewrite Nat.eqb_refl. f_equal. apply Hrest.
    intros y. rewrite !in_app_iff, H. tauto.
Qed.

(** X14.  [uniqueWeekdayValues], which keeps an entry when the first
    entry equal to it is the entry itself, keeps each [WeekdayValue] once,
    at the place of its first occurrence. *)
Theorem uniqueWeekdayValues_keeps_first_occurrences :
  forall values : list WeekdayValue,
    uniqueWeekdayValuesByIndex values = uniqueWeekdayValues values
    /\ NoDup (uniqueWeekdayValues values)
    /\ (forall v, In v (uniqueWeekdayValues values) <-> In v values)
    /\ Sublist (uniqueWeekdayValues values) values.
Proof.
  intros values. split.
  - unfold uniqueWeekdayValuesByIndex, uniqueWeekdayValues.
    apply (byIndex_uniqueBy values [] []). tauto.
  - unfold uniqueWeekdayValues. split.
    + apply (uniqueBy_NoDup _ WeekdayValue_same_spec).
    + split; [|apply uniqueBy_Sublist].
      intros v. rewrite (uniqueBy_In _ WeekdayValue_same_spec). cbn. tauto.
Qed.

(** The first piece of [split] and what follows it. *)
Lemma split_first sep s :
  split sep s
  = takeWhile (notSeparator sep) s
    :: match dropWhile (notSeparator sep) s with
       | [] => []
       | _ :: rest => split sep rest
       end.
Proof.
  induction s as [|c s IH]; [reflexivity|].
  cbn [split takeWhile dropWhile]. unfold notSeparator at 1 3.
  destruct (Ascii.eqb c sep); cbn [negb]; [reflexivity|].
  rewrite IH. reflexivity.
Qed.

(** X15.  [splitOnce] returns the text before the first separator and,
    when there is a separator, the text between the first and the second
    one: what follows a second separator is dropped. *)
Theorem splitOnce_stops_at_the_second_separator :
  forall (value : text) (separator : ascii),
    splitOnce value separator
    = (takeWhile (notSeparator separator) value,
       match dropWhile (notSeparator separator) value with
       | [] => None
       | _ :: rest => Some (takeWhile (notSeparator separator) rest)
       end).
Proof.
  intros value separator. unfold splitOnce. rewrite split_first.
  destruct (dropWhile (notSeparator separator) value) as [|c rest]; [reflexivity|].
  rewrite split_first. reflexivity.
Qed.

Lemma insertSorted_perm (x : Z) l :
  Permutation (x :: l) (insertSorted (fun a b => a - b) x l).
Proof.
  induction l as [|y l IH]; cbn [insertSorted]; [reflexivity|].
  destruct (x - y <=? 0); [reflexivity|].
  rewrite perm_swap. now constructor.
Qed.

Lemma insertSorted_sorted (x : Z) l :
  Sorted Z.le l -> Sorted Z.le (insertSorted (fun a b => a - b) x l).
Proof.
  induction l as [|y l IH]; intros Hs; cbn [insertSorted].
  - repeat constructor.
  - destruct (x - y <=? 0) eqn:E.
    + apply Z.leb_le in E. constructor; [assumption|]. constructor. lia.
    + apply Z.leb_gt in E. inversion Hs as [|? ? Hl Hh]; subst.
      constructor; [now apply IH|].
      destruct l as [|z l]; cbn [insertSorted].
      * constructor. lia.
      * destruct (x - z <=? 0); constructor; [lia|].
        inversion Hh; subst. assumption.
Qed.

(** X16.  [sortNumbers] returns its input in ascending order. *)
Theorem sortNumbers_sorts :
  forall value : list Z,
    Sorted Z.le (sortNumbers value) /\ Permutation value (sortNumbers value).
Proof.
  intros value. unfold sortNumbers, sortWith.
  induction value as [|x l [IHs IHp]]; cbn [fold_right].
  - split; constructor.
  - split; [now apply insertSorted_sorted|].
    rewrite <- insertSorted_perm. now constructor.
Qed.


(* ===================================================================== *)
(** * Padding, unfolding and lists of items *)
(* ===================================================================== *)

Lemma digitsValue_zeros (k : nat) ds :
  digitsValue (repeat "0"%char k ++ ds) = digitsValue ds.
Proof.
  unfold digitsValue. rewrite fold_left_app. f_equal.
  induction k as [|k IH]; [reflexivity|]. cbn [repeat fold_left]. exact IH.
Qed.

Lemma forallb_repeat {A} (p : A -> bool) x (k : nat) :
  p x = true -> forallb p (repeat x k) = true.
Proof. intros H. induction k as [|k IH]; [reflexivity|]. cbn. now rewrite H. Qed.

Lemma String_digits n :
  0 <= n -> isSafeInteger n = true ->
  forallb isDigit (String_ n) = true /\ String_ n <> [].
Proof.
  intros H Hs. rewrite (String_safe n Hs). unfold decimal, decimalDigits.
  destruct (n <? 0) eqn:E; [apply Z.ltb_lt in E; lia|].
  split; [now apply digitsOf_digits|apply digitsOf_nonempty].
Qed.

(** X17.  [padZero] on a safe integer that is not negative writes digits
    only, which [parseInteger] reads back as the number, and as many as
    asked for, or as the number has when it has more. *)
Theorem padZero_pads_and_reads_back :
  forall (value : Z) (length : nat),
    0 <= value ->
    isSafeInteger value = true ->
    forallb isDigit (padZero value length) = true
    /\ parseInteger (padZero value length) = Some value
    /\ List.length (padZero value length)
       = Nat.max length (List.length (String_ value)).
Proof.
  intros value len H Hs. destruct (String_digits value H Hs) as [Hd Hne].
  unfold padZero. split; [|split].
  - rewrite forallb_app, Hd, forallb_repeat; reflexivity.
  - rewrite parseInteger_digits.
    + rewrite digitsValue_zeros.
      pose proof (parseInteger_String value Hs) as E.
      rewrite (parseInteger_digits _ Hne Hd) in E. exact E.
    + destruct (repeat _ _); [assumption|discriminate].
    + rewrite forallb_app, Hd, forallb_repeat; reflexivity.
  - rewrite length_app, repeat_length. lia.
Qed.

Lemma padZero_pads_and_reads_back_witness :
  forallb isDigit (padZero 7 2) = true
  /\ parseInteger (padZero 7 2) = Some 7
  /\ List.length (padZero 7 2) = Nat.max 2 (List.length (String_ 7)).
Proof. apply (padZero_pads_and_reads_back 7 2); [discriminate|reflexivity]. Defined.

Lemma foldAt_other c r :
  Ascii.eqb c CR = false -> Ascii.eqb c LF = false -> foldAt (c :: r) = None.
Proof. intros H1 H2. unfold foldAt. now rewrite H1, H2. Qed.

Lemma unfoldFrom_prefix a s :
  noChar LF a = true -> noChar CR a = true ->
  unfoldFrom 0 (a ++ s) = a ++ unfoldFrom 0 s.
Proof.
  induction a as [|c a IH]; intros Hl Hc; [reflexivity|].
  cbn [noChar forallb] in Hl, Hc.
  apply andb_true_iff in Hl as [Hl1 Hl], Hc as [Hc1 Hc].
  apply negb_true_iff in Hl1, Hc1.
  cbn [app unfoldFrom]. rewrite (foldAt_other c _ Hc1 Hl1).
  f_equal. now apply IH.
Qed.

Lemma isBlank_not_break w :
  isBlank w = true -> Ascii.eqb w CR = false /\ Ascii.eqb w LF = false.
Proof.
  unfold isBlank. intros H. apply orb_true_iff in H as [H|H];
    apply Ascii.eqb_eq in H; subst; split; reflexivity.
Qed.

(** X18.  [unfoldLine] takes out a line break (LF or CR LF) followed by
    one blank, and leaves alone a line break followed by two. *)
Theorem unfoldLine_removes_single_folds :
  forall (a b : text) (w : ascii),
    noChar LF a = true -> noChar CR a = true ->
    isBlank w = true -> headBlank b = false ->
    unfoldLine (a ++ CR :: LF :: w :: b) = a ++ unfoldLine b
    /\ unfoldLine (a ++ LF :: w :: b) = a ++ unfoldLine b
    /\ forall w2, isBlank w2 = true ->
         unfoldLine (a ++ CR :: LF :: w :: w2 :: b)
         = a ++ CR :: LF :: w :: w2 :: unfoldLine b.
Proof.
  intros a b w Hl Hc Hw Hb. unfold unfoldLine.
  rewrite !(unfoldFrom_prefix a _ Hl Hc).
  split; [|split].
  - f_equal. cbn [unfoldFrom foldAt].
    change (Ascii.eqb CR CR) with true. change (Ascii.eqb LF LF) with true.
    cbv iota. rewrite Hw, Hb. cbn [andb negb]. now destruct b.
  - f_equal. cbn [unfoldFrom foldAt].
    change (Ascii.eqb LF CR) with false. change (Ascii.eqb LF LF) with true.
    cbv iota. rewrite Hw, Hb. cbn [andb negb]. now destruct b.
  - intros w2 Hw2. rewrite (unfoldFrom_prefix a _ Hl Hc). f_equal.
    destruct (isBlank_not_break w Hw) as [Hw1 Hw3].
    destruct (isBlank_not_break w2 Hw2) as [Hw21 Hw23].
    cbn [unfoldFrom]. cbn [foldAt].
    change (Ascii.eqb CR CR) with true. change (Ascii.eqb LF LF) with true.
    change (Ascii.eqb LF CR) with false.
    cbv iota. cbn [headBlank]. rewrite Hw, Hw2. cbn [andb negb].
    rewrite Hw1, Hw3, Hw21, Hw23. reflexivity.
Qed.

Lemma unfoldLine_removes_single_folds_witness :
  unfoldLine (str "RRULE:FREQ=DAILY;" ++ CR :: LF :: " "%char :: str "COUNT=3")
  = str "RRULE:FREQ=DAILY;" ++ unfoldLine (str "COUNT=3").
Proof.
  exact (proj1 (unfoldLine_removes_single_folds
                  (str "RRULE:FREQ=DAILY;") (str "COUNT=3") " "%char
                  eq_refl eq_refl eq_refl eq_refl)).
Defined.

(* --------------------------------------------------------------------- *)

Lemma trimStart_head s :
  match trimStart s with [] => True | c :: _ => isWhite c = false end.
Proof.
  induction s as [|c s IH]; [exact I|]. cbn [trimStart].
  destruct (isWhite c) eqn:E; [exact IH|exact E].
Qed.

Lemma trimStart_fix s :
  match s with [] => True | c :: _ => isWhite c = false end -> trimStart s = s.
Proof. destruct s as [|c s]; [reflexivity|]. cbn. now intros ->. Qed.

Lemma trimStart_snoc x c :
  isWhite c = false ->
  trimStart (x ++ [c]) = match trimStart x with [] => [c] | y => y ++ [c] end.
Proof.
  intros Hc. induction x as [|d x IH]; cbn [app trimStart]; [now rewrite Hc|].
  destruct (isWhite d); [exact IH|reflexivity].
Qed.

Lemma trimEnd_head c r :
  isWhite c = false -> exists r', trimEnd (c :: r) = c :: r'.
Proof.
  intros Hc. unfold trimEnd. cbn [rev]. rewrite (trimStart_snoc _ _ Hc).
  destruct (trimStart (rev r)) as [|y ys].
  - exists []. reflexivity.
  - rewrite rev_app_distr. cbn [rev app]. eexists. reflexivity.
Qed.

Lemma trimEnd_fix s : trimEnd (trimEnd s) = trimEnd s.
Proof.
  unfold trimEnd. rewrite rev_involutive. f_equal.
  apply trimStart_fix, trimStart_head.
Qed.

Lemma trim_fix s : trim (trim s) = trim s.
Proof.
  unfold trim. pose proof (trimStart_head s) as H.
  destruct (trimStart s) as [|c r] eqn:E; [reflexivity|].
  destruct (trimEnd_head c r H) as (r' & E').
  rewrite E'. rewrite (trimStart_fix (c :: r')) by exact H.
  rewrite <- E'. apply trimEnd_fix.
Qed.

Lemma forallb_trimStart (p : ascii -> bool) s :
  forallb p s = true -> forallb p (trimStart s) = true.
Proof.
  induction s as [|c s IH]; [reflexivity|]. cbn [trimStart forallb].
  intros H. apply andb_true_iff in H as [H1 H2].
  destruct (isWhite c); [now apply IH|]. cbn [forallb]. now rewrite H1, H2.
Qed.

Lemma forallb_rev {A} (p : A -> bool) l : forallb p (rev l) = forallb p l.
Proof.
  induction l as [|x l IH]; [reflexivity|]. cbn [rev forallb].
  rewrite forallb_app, IH. cbn [forallb]. rewrite andb_true_r. apply andb_comm.
Qed.

Lemma forallb_trim (p : ascii -> bool) s :
  forallb p s = true -> forallb p (trim s) = true.
Proof.
  intros H. unfold trim, trimEnd. rewrite forallb_rev.
  apply forallb_trimStart. rewrite forallb_rev. now apply forallb_trimStart.
Qed.

Lemma split_pieces sep s : forallb (noChar sep) (split sep s) = true.
Proof.
  induction s as [|c s IH]; [reflexivity|]. cbn [split].
  destruct (Ascii.eqb c sep) eqn:E.
  - cbn [forallb]. now rewrite IH.
  - destruct (split sep s) as [|p ps]; [cbn; now rewrite E|].
    cbn [forallb] in *. apply andb_true_iff in IH as [H1 H2].
    cbn [noChar forallb]. rewrite E. cbn [negb andb].
    unfold noChar in H1. now rewrite H1, H2.
Qed.

(** X19.  [parseList] returns nothing for a blank text; every item it
    returns is non-empty, trimmed and free of the separator. *)
Theorem parseList_items_are_trimmed :
  forall (value : text) (separator : ascii),
    (trim value = [] -> parseList value separator = [])
    /\ forall item, In item (parseList value separator) ->
         item <> [] /\ trim item = item /\ noChar separator item = true.
Proof.
  intros value separator. unfold parseList. split.
  - now intros ->.
  - intros item H. destruct (trim value); [destruct H|].
    apply filter_In in H as [H Hne]. apply in_map_iff in H as (piece & <- & Hp).
    split; [now destruct (trim piece)|]. split; [apply trim_fix|].
    apply forallb_trim. pose proof (split_pieces separator value) as Hs.
    rewrite forallb_forall in Hs. now apply Hs.
Qed.

(* --------------------------------------------------------------------- *)

Lemma parseIntegerList_all l :
  forallb isSafeInteger l = true -> parseIntegerList (numbers l) "," = l.
Proof.
  destruct l as [|n l]; [reflexivity|]. intros H.
  now apply parseIntegerList_numbers.
Qed.

Lemma checkNumbers_lenient key min max excludeZero :
  forall l,
    checkNumbers key l min max excludeZero false
    = Ok (filter (inRange min max (negb excludeZero)) l).
Proof.
  induction l as [|n l IH]; [reflexivity|]. cbn [checkNumbers filter].
  unfold inRange at 1. unfold isNumberInRange. rewrite <- andb_assoc.
  destruct excludeZero; cbn [andb orb negb].
  - destruct (n =? 0); cbn [negb andb]; [exact IH|].
    destruct ((min <=? n) && (n <=? max)); cbn [negb]; [|exact IH].
    rewrite IH. reflexivity.
  - destruct ((min <=? n) && (n <=? max)); cbn [negb]; [|exact IH].
    rewrite IH. reflexivity.
Qed.

(** X20.  A list of safe integers written with commas is read back by
    [parseIntegerList] as it is; [parseRRuleNumberList], when not strict,
    reads it back as the sanitizer would keep it, and when strict and all
    values are in range as the list without its duplicates. *)
Theorem number_lists_read_back :
  forall (key : string) (l : list Z) (min max : Z) (excludeZero : bool),
    forallb isSafeInteger l = true ->
    parseIntegerList (numbers l) "," = l
    /\ parseRRuleNumberList key (numbers l) min max excludeZero false
       = Ok (orEmpty (sanitizeNumberArray (Some l) min max (negb excludeZero)))
    /\ ((forall v, In v l -> inRange min max (negb excludeZero) v = true) ->
        parseRRuleNumberList key (numbers l) min max excludeZero true
        = Ok (unique l)).
Proof.
  intros key l min max excludeZero Hsafe.
  split; [now apply parseIntegerList_all|]. split.
  - unfold parseRRuleNumberList. rewrite parseIntegerList_all by assumption.
    destruct l as [|n l]; [reflexivity|].
    rewrite checkNumbers_lenient. cbn [bind orEmpty sanitizeNumberArray].
    do 2 f_equal. apply filter_ext. intros v.
    now rewrite sanitize_filter_inRange.
  - intros H. unfold parseRRuleNumberList. rewrite parseIntegerList_all by assumption.
    destruct l as [|n l]; [reflexivity|].
    now rewrite (checkNumbers_all key (n :: l) min max excludeZero H).
Qed.

Lemma number_lists_read_back_witness :
  parseIntegerList (numbers [1; 6; 12]) "," = [1; 6; 12].
Proof.
  exact (proj1 (number_lists_read_back "BYMONTH" [1; 6; 12] 1 12 true eq_refl)).
Defined.


(* ===================================================================== *)
(** * How the generator ends, and what [after] collects *)
(* ===================================================================== *)

(** X21.  A generator pulled to its end ends in one of three ways: it
    returns, it raises for the missing DTSTART (exactly when DTSTART is
    missing), or it raises the iteration error with the maximum in force.
    With an interval of 0 it yields nothing. *)
Theorem generator_ends_in_one_of_three_ways :
  forall (options : ParsedRRuleOptions) (configured : option Z)
         (target : option DateValue),
    let t := generateDates options configured target in
    (outcome t = Returned
     \/ outcome t = Threw DtstartRequired
     \/ outcome t = Threw (MaxIterationsExceeded (effectiveMax configured)))
    /\ (outcome t = Threw DtstartRequired <-> dtstart options = None)
    /\ (interval options = Some 0 -> yields t = []).
Proof.
  intros options configured target. cbv zeta. unfold generateDates.
  fold (effectiveMax configured).
  destruct (dtstart options) as [start|].
  2:{ cbn. split; [auto|]. split; [tauto|reflexivity]. }
  destruct (match interval options with Some i => i | None => 1 end =? 0) eqn:Hz.
  { cbn. split; [auto|]. split; [split; discriminate|reflexivity]. }
  assert (Hi : interval options = Some 0 -> False).
  { intros E. rewrite E in Hz. discriminate. }
  destruct (match until options with Some u => _ | None => false end).
  { cbn. split; [auto|]. split; [split; discriminate|reflexivity]. }
  match goal with
  | |- context [generateLoop ?fuel ?o ?m ?s ?st ?cur 0 0 0] =>
      pose proof (generateLoop_cap o m s st fuel cur 0 0 0) as H;
      set (t := generateLoop fuel o m s st cur 0 0 0) in *
  end.
  destruct H as (Hrun & _ & Herr); [lia | lia |].
  split.
  - destruct (outcome t) as [|e|] eqn:E; [auto| |congruence].
    right. right. f_equal. now apply Herr.
  - split; [|intros E; destruct (Hi E)].
    split; [|discriminate]. intros E. specialize (Herr _ E). discriminate.
Qed.

(** The loop of [after] collects, in their order, occurrences that are
    not short of the date. *)
Lemma afterLoop_collects date inclusive limit out :
  forall ys n ds,
    afterLoop date inclusive limit out ys n = Ok ds ->
    Sublist ds ys /\ Forall (atOrAfter date inclusive) ds.
Proof.
  induction ys as [|current ys IH]; intros n ds H.
  - cbn in H. destruct out; inversion H; subst. split; constructor.
  - cbn [afterLoop] in H.
    destruct (Calendar.compare current date <? 0) eqn:E1.
    { destruct (IH _ _ H) as [Hs Hf]. split; [now constructor|exact Hf]. }
    destruct ((Calendar.compare current date =? 0) && negb inclusive) eqn:E2.
    { destruct (IH _ _ H) as [Hs Hf]. split; [now constructor|exact Hf]. }
    assert (Hc : atOrAfter date inclusive current).
    { apply Z.ltb_ge in E1. split; [exact E1|]. intros ->.
      cbn in E2. rewrite andb_true_r in E2. apply Z.eqb_neq in E2. lia. }
    destruct (reached limit (n + 1)).
    { inversion H; subst. split; [repeat constructor|now constructor]. }
    destruct (afterLoop date inclusive limit out ys (n + 1)) as [ds'|e] eqn:E;
      [|discriminate].
    cbn [bind] in H. inversion H; subst.
    destruct (IH _ _ E) as [Hs Hf]. split; now constructor.
Qed.

Lemma afterLoop_limit date inclusive l out :
  0 < l ->
  forall ys n ds,
    0 <= n < l ->
    afterLoop date inclusive (Some l) out ys n = Ok ds ->
    n + Z.of_nat (List.length ds) <= l.
Proof.
  intros Hl. induction ys as [|current ys IH]; intros n ds Hn H.
  - cbn in H. destruct out; inversion H; subst. cbn. lia.
  - cbn [afterLoop] in H.
    destruct (Calendar.compare current date <? 0); [now apply IH|].
    destruct ((Calendar.compare current date =? 0) && negb inclusive); [now apply IH|].
    unfold reached in H.
    assert (Hl0 : (l =? 0) = false) by (apply Z.eqb_neq; lia).
    rewrite Hl0 in H. cbn [negb andb] in H.
    destruct (l <=? n + 1) eqn:E.
    + inversion H; subst. cbn. lia.
    + apply Z.leb_gt in E.
      destruct (afterLoop date inclusive (Some l) out ys (n + 1)) as [ds'|e] eqn:E';
        [|discriminate].
      cbn [bind] in H. inversion H; subst. cbn [List.length].
      assert (Hn' : 0 <= n + 1 < l) by lia.
      specialize (IH _ _ Hn' E'). lia.
Qed.

(** X22.  What [after] returns is taken, in its order, from what the
    generator started at the reference date yields; every date of it is
    at or after the reference date (after it unless [inclusive]); and it
    is no longer than a positive limit. *)
Theorem after_is_within_bounds :
  forall (r : RRule) (date : DateValue) (inclusive : bool) (limit : option Z)
         (ds : list DateValue),
    after r date inclusive limit = Ok ds ->
    let t := generateDates (_options r) (_maxIterations r) (Some date) in
    Sublist ds (yields t)
    /\ (forall d, In d ds -> atOrAfter date inclusive d)
    /\ (forall l, limit = Some l -> 0 < l -> Z.of_nat (List.length ds) <= l).
Proof.
  intros r date inclusive limit ds H t. unfold after in H. fold t in H.
  destruct (afterLoop_collects _ _ _ _ _ _ _ H) as [Hs Hf].
  split; [exact Hs|]. split.
  - now apply Forall_forall.
  - intros l -> Hl.
    pose proof (afterLoop_limit date inclusive l (outcome t) Hl (yields t) 0 ds) as G.
    assert (Hn : 0 <= 0 < l) by lia. specialize (G Hn H). lia.
Qed.

Lemma after_is_within_bounds_witness :
  exists ds,
    after (mkRRule (plainRule DAILY (CalendarDate 2025 1 1)) None)
          (CalendarDate 2025 1 10) false (Some 2) = Ok ds
    /\ ds = [CalendarDate 2025 1 11; CalendarDate 2025 1 12]
    /\ forall d, In d ds -> atOrAfter (CalendarDate 2025 1 10) false d.
Proof.
  eexists. split; [vm_compute; reflexivity|]. split; [reflexivity|].
  refine (proj1 (proj2 (after_is_within_bounds
                          (mkRRule (plainRule DAILY (CalendarDate 2025 1 1)) None)
                          (CalendarDate 2025 1 10) false (Some 2) _ _))).
  vm_compute. reflexivity.
Defined.


(* ===================================================================== *)
(** * The setters *)
(* ===================================================================== *)

(** X23.  After the setter of [count] or of [until] has accepted a value,
    COUNT and UNTIL are not both present, whatever the rule held before.
    The setter of [count] rejects every value, 0 included, next to an
    UNTIL, although the sanitizer drops a COUNT of 0 and accepts the
    options. *)
Theorem setters_keep_count_and_until_exclusive :
  forall (r r' : RRule),
    (forall value, set_count r value = Ok r' ->
       isSome (count (_options r')) && isSome (until (_options r')) = false)
    /\ (forall value, set_until r value = Ok r' ->
          isSome (count (_options r')) && isSome (until (_options r')) = false)
    /\ (forall value, until (_options r) <> None ->
          set_count r (Some value) = Err CountUntilExclusive)
    /\ (forall value, count (_options r) <> None ->
          set_until r (Some value) = Err CountUntilExclusive).
Proof.
  intros r r'. split; [|split; [|split]].
  - intros value H. unfold set_count in H.
    destruct value as [v|], (until (_options r)) as [u|] eqn:Eu;
      cbn [isSome andb] in H; try discriminate; inversion H; subst;
      cbn [_options withCount count until]; rewrite ?Eu;
      cbn [isSome]; now rewrite ?andb_false_r.
  - intros value H. unfold set_until in H.
    destruct value as [v|], (count (_options r)) as [c|] eqn:Ec;
      cbn [isSome andb] in H; try discriminate.
    + destruct (sanitizeUntilDate _ _) as [u|]; [|discriminate].
      cbn [bind] in H. inversion H; subst.
      cbn [_options withUntil count until]. now rewrite Ec.
    + assert (Hn : sanitizeUntilDate None (dtstart (_options r)) = Ok None)
        by (unfold sanitizeUntilDate; now destruct (dtstart (_options r))).
      rewrite Hn in H. cbn [bind] in H. inversion H; subst.
      cbn [_options withUntil count until isSome]. now rewrite andb_false_r.
    + destruct (sanitizeUntilDate _ _) as [u|]; [|discriminate].
      cbn [bind] in H. inversion H; subst.
      cbn [_options withUntil count until]. now rewrite Ec.
  - intros value Hu. unfold set_count.
    destruct (until (_options r)); [reflexivity|congruence].
  - intros value Hc. unfold set_until.
    destruct (count (_options r)); [reflexivity|congruence].
Qed.






(* ===================================================================== *)
(** * What the formatter writes *)
(* ===================================================================== *)

(** X25.  [formatRRule] and [formatICS] fail in one way only, when UNTIL
    is before DTSTART; so they succeed on every sanitized rule, and
    [toString()] raises after the setter of [dtstart] has moved the start
    past UNTIL. *)
Theorem format_fails_only_when_until_precedes_dtstart :
  forall (options : ParsedRRuleOptions),
    (untilPrecedes options = true ->
     formatRRule options = Err UntilNotBeforeDtstart
     /\ formatICS options = Err UntilNotBeforeDtstart)
    /\ (untilPrecedes options = false ->
        exists line,
          formatRRule options = Ok line
          /\ formatICS options
             = Ok match dtstart options with
                  | Some d => formatDTStart d ++ LF :: line
                  | None => line
                  end)
    /\ (forall o, sanitizeRRuleOptions o = Ok options -> untilPrecedes options = false)
    /\ (forall u d configured,
          until options = Some u -> Calendar.compare u d < 0 ->
          toString (set_dtstart (mkRRule options configured) (Some d))
          = Err UntilNotBeforeDtstart).
Proof.
  intros options.
  assert (Hfail : forall R, untilPrecedes R = true ->
                    formatRRule R = Err UntilNotBeforeDtstart
                    /\ formatICS R = Err UntilNotBeforeDtstart).
  { intros R H. unfold untilPrecedes in H.
    assert (E : formatRRule R = Err UntilNotBeforeDtstart).
    { unfold formatRRule.
      destruct (until R) as [u|]; [|discriminate].
      destruct (dtstart R) as [d|]; [|discriminate].
      unfold formatUntilICSDateValue. now rewrite H. }
    split; [exact E|]. unfold formatICS. now rewrite E. }
  split; [apply Hfail|]. split; [|split].
  - intros H. unfold untilPrecedes in H.
    assert (E : exists line, formatRRule options = Ok line).
    { unfold formatRRule.
      destruct (until options) as [u|].
      - destruct (dtstart options) as [d|].
        + unfold formatUntilICSDateValue. rewrite H. cbn [bind]. eexists; reflexivity.
        + cbn [formatUntilICSDateValue bind]. eexists; reflexivity.
      - cbn [bind]. eexists; reflexivity. }
    destruct E as (line & E). exists line. split; [exact E|].
    unfold formatICS. rewrite E. cbn [bind]. now destruct (dtstart options).
  - intros o Hs. destruct (sanitized_wellFormed o options Hs) as (_ & Hu & _).
    unfold untilPrecedes.
    destruct (until options) as [u|] eqn:Eu, (dtstart options) as [d|] eqn:Ed;
      try reflexivity.
    now apply Hu.
  - intros u d configured Hu Hlt. unfold toString, set_dtstart.
    cbn [_options _maxIterations]. apply Hfail.
    unfold untilPrecedes. cbn [withDtstart until dtstart]. rewrite Hu.
    now apply Z.ltb_lt.
Qed.

(** X26.  A date value the line can carry is read back from its ICS form
    as it is; a date-time in a zone other than UTC is written without its
    zone, and read back as the plain date-time of its wall-clock
    fields. *)
Theorem ics_date_values_read_back :
  forall (u : DateValue),
    (carriedDate u = true -> parseICSDateValue (formatICSDateValue u) = Ok u)
    /\ (forall y m d h mi s zone offset,
          u = ZonedDateTime y m d h mi s 0 zone offset ->
          isUTC zone = false ->
          carriedDate (CalendarDateTime y m d h mi s 0) = true ->
          parseICSDateValue (formatICSDateValue u)
          = Ok (CalendarDateTime y m d h mi s 0)).
Proof.
  intros u. split.
  - intros H. now apply parseICSDateValue_format.
  - intros y m d h mi s zone offset -> Hz Hc.
    destruct (parseICSDateValue_format _ Hc) as [Hp _].
    unfold formatICSDateValue in *. rewrite Hz. exact Hp.
Qed.

(** X27.  A weekday value with an ordinal from -53 to 53 other than 0 is
    read back from its written form as it is; with the ordinal 0 it is
    written as the bare weekday, and read back without its ordinal. *)
Theorem weekday_values_read_back :
  forall (w : Weekday) (n : Z),
    parseWeekdayValue (formatWeekdayValue (Bare w)) = Ok (Bare w)
    /\ (n <> 0 -> -53 <= n <= 53 ->
        parseWeekdayValue (formatWeekdayValue (Nth w n)) = Ok (Nth w n))
    /\ parseWeekdayValue (formatWeekdayValue (Nth w 0)) = Ok (Bare w).
Proof.
  intros w n. split; [|split].
  - now apply parseWeekdayValue_format.
  - intros Hn Hr. now apply parseWeekdayValue_format.
  - now destruct w.
Qed.


(* ===================================================================== *)
(** * Clamping, and positions in a set *)
(* ===================================================================== *)

Lemma sanitizeNumber_clamps v : sanitizeNumber (Some v) 1 = clampedFrom1 v.
Proof.
  unfold sanitizeNumber, clampedFrom1. destruct (v =? 0); [reflexivity|].
  f_equal. destruct (v <? 1) eqn:E; [apply Z.ltb_lt in E|apply Z.ltb_ge in E]; lia.
Qed.

(** X28.  The sanitizer does not reject an INTERVAL or a COUNT below 1: it
    drops a 0 and raises every negative value to 1.  The setter of
    [interval] does the same. *)
Theorem interval_and_count_are_clamped :
  forall (o : Raw.RRuleOptions) (R : ParsedRRuleOptions),
    sanitizeRRuleOptions o = Ok R ->
    interval R = match Raw.interval o with Some v => clampedFrom1 v | None => None end
    /\ count R = match Raw.count o with Some v => clampedFrom1 v | None => None end
    /\ forall configured v,
         interval (_options (set_interval (mkRRule R configured) (Some v)))
         = clampedFrom1 v.
Proof.
  intros o R Hs.
  destruct (sanitize_cases o) as [[_ (e & He)] | [_ Hok]]; [congruence|].
  rewrite Hok in Hs. inversion Hs; subst R. unfold sanitizedRecord.
  cbn [interval count]. split; [|split].
  - destruct (Raw.interval o); [apply sanitizeNumber_clamps|reflexivity].
  - destruct (Raw.count o); [apply sanitizeNumber_clamps|reflexivity].
  - intros configured v. unfold set_interval. cbn [_options withInterval interval].
    apply sanitizeNumber_clamps.
Qed.

Lemma interval_and_count_are_clamped_witness :
  exists R,
    sanitizeRRuleOptions negativeInterval = Ok R
    /\ interval R = Some 1 /\ count R = Some 1.
Proof.
  eexists. split; [vm_compute; reflexivity|].
  destruct (interval_and_count_are_clamped negativeInterval
              (sanitizedRecord negativeInterval)) as (Hi & Hc & _);
    [vm_compute; reflexivity|].
  split; [exact Hi|exact Hc].
Defined.

(* --------------------------------------------------------------------- *)

Section Sorting.

Context {A : Type} (cmp : A -> A -> Z).

Lemma insertSorted_permutation x l : Permutation (x :: l) (insertSorted cmp x l).
Proof.
  induction l as [|y l IH]; cbn [insertSorted]; [reflexivity|].
  destruct (cmp x y <=? 0); [reflexivity|].
  rewrite perm_swap. now constructor.
Qed.

Lemma sortWith_permutation l : Permutation l (sortWith cmp l).
Proof.
  unfold sortWith. induction l as [|x l IH]; cbn [fold_right]; [constructor|].
  rewrite <- insertSorted_permutation. now constructor.
Qed.

End Sorting.

(** X29.  [applyBySetPos] leaves the candidates alone when BYSETPOS is
    absent or empty.  Otherwise every date it returns is one of the
    candidates, and it returns at most one date for every position of
    BYSETPOS, and none for a position beyond the candidates. *)
Theorem applyBySetPos_selects :
  forall (dates : list DateValue) (bysetpos : option (list Z)),
    (nonEmpty (orEmpty bysetpos) = false -> applyBySetPos dates bysetpos = dates)
    /\ (forall d, In d (applyBySetPos dates bysetpos) -> In d dates)
    /\ (nonEmpty (orEmpty bysetpos) = true ->
        (List.length (applyBySetPos dates bysetpos)
         <= List.length (orEmpty bysetpos))%nat)
    /\ (forall position,
          bysetpos = Some [position] ->
          position = 0 \/ Z.of_nat (List.length dates) < Z.abs position ->
          applyBySetPos dates bysetpos = []).
Proof.
  intros dates bysetpos. unfold applyBySetPos.
  set (sorted := sortWith compareDates dates).
  assert (Hlen : List.length sorted = List.length dates).
  { symmetry. apply Permutation_length, sortWith_permutation. }
  set (pick := fun position : Z =>
                 let index := if 0 <? position then position - 1
                              else Z.of_nat (List.length sorted) + position in
                 if (0 <=? index) && (index <? Z.of_nat (List.length sorted))
                 then match nth_error sorted (Z.to_nat index) with
                      | Some d => [d]
                      | None => []
                      end
                 else []).
  assert (Hpick_in : forall position d, In d (pick position) -> In d dates).
  { intros position d. unfold pick. cbv zeta.
    destruct (_ && _); [|intros []].
    destruct (nth_error sorted _) as [x|] eqn:E; [|intros []].
    intros [<-|[]]. apply nth_error_In in E.
    eapply Permutation_in; [symmetry; apply (sortWith_permutation compareDates)|exact E]. }
  assert (Hpick_len : forall position, (List.length (pick position) <= 1)%nat).
  { intros position. unfold pick. cbv zeta.
    destruct (_ && _); [|cbn; lia].
    destruct (nth_error sorted _); cbn; lia. }
  split; [|split; [|split]].
  - intros H. now rewrite H.
  - intros d. destruct (nonEmpty (orEmpty bysetpos)); cbn [negb]; [|tauto].
    intros H.
    apply (Permutation_in d (Permutation_sym (sortWith_permutation compareDates _))) in H.
    apply in_flat_map in H as (position & _ & H). eapply Hpick_in, H.
  - intros H. rewrite H. cbn [negb].
    rewrite <- (Permutation_length (sortWith_permutation compareDates _)).
    fold pick. clear H. induction (orEmpty bysetpos) as [|p ps IH]; [cbn; lia|].
    cbn [flat_map List.length]. rewrite length_app.
    pose proof (Hpick_len p). lia.
  - intros position -> Hout. cbn [orEmpty nonEmpty negb flat_map].
    fold pick. rewrite app_nil_r.
    assert (E : pick position = []).
    { unfold pick. cbv zeta. rewrite Hlen.
      destruct (0 <? position) eqn:Hp.
      - apply Z.ltb_lt in Hp.
        assert (Hi : (position - 1 <? Z.of_nat (List.length dates)) = false)
          by (apply Z.ltb_ge; lia).
        now rewrite Hi, andb_false_r.
      - apply Z.ltb_ge in Hp. destruct Hout as [-> | Hout].
        + (* the position 0 reads the index [length], which is out of range *)
          assert (Hi : (Z.of_nat (List.length dates) + 0
                        <? Z.of_nat (List.length dates)) = false)
            by (apply Z.ltb_ge; lia).
          now rewrite Hi, andb_false_r.
        + assert (Hi : (0 <=? Z.of_nat (List.length dates) + position) = false)
            by (apply Z.leb_gt; lia).
          now rewrite Hi. }
    rewrite E. reflexivity.
Qed.
